(** * aiopocket.client : a shallow embedding of [src/aiopocket/client.py]

    The module defines one class, [Client], a small asynchronous client of
    the Pocket48 backend.  The embedding follows the Python text method by
    method:

    - Python objects that travel through the code (decoded JSON, the TOML
      configuration, header and parameter dictionaries) are values of
      [pyobj]; dictionaries are stdpp finite maps with string keys;
    - exceptions are values of [exn], and every method is a computation in
      the monad [M], which threads the client object and the outside world
      and returns either a value or a raised exception;
    - the outside world (clock, configuration file, the replies of the two
      HTTP transports) is a read-only script [Env], indexed by how many
      calls of each kind were already made;
    - the two retry decorators ([tenacity.retry] and [retrying.retry]) are
      written out as the loops the libraries run;
    - [hashlib.md5] and [base64.b64encode] are implemented on bytes.  *)

From Stdlib Require Import ZArith String Ascii List Lia Bool DecimalString.
From stdpp Require Import gmap strings list.
Import ListNotations.

Local Open Scope string_scope.

(* ===================================================================== *)
(** * Python values and exceptions *)
(* ===================================================================== *)

(** The Python objects the client handles: what [json] decoding and
    [toml.load] produce and what the request dictionaries hold.  Python's
    [None] and JSON's [null] are the same object.  (Floats do not occur in
    any value the client inspects.) *)
#[warnings="-register-all"]
Inductive pyobj : Type :=
| PyNone
| PyBool (b : bool)
| PyInt (n : Z)
| PyStr (s : string)
| PyList (l : list pyobj)
| PyDict (d : gmap string pyobj).

(** The exceptions that can travel through the client. *)
Inductive exn : Type :=
| KeyError (key : string)        (* d[k] on a dict without k *)
| TypeError                      (* subscripting a non-dict, str + non-str *)
| AttributeError                 (* .get on a non-dict *)
| RuntimeError                   (* asyncio.get_running_loop(): no running loop *)
| OSError                        (* open('config.toml') *)
| ConnectionError                (* transport: connection refused / reset *)
| TimeoutError                   (* transport: the 3 second timeout expired *)
| JSONDecodeError                (* resp.json() on a body that is not JSON *)
| RetryError (last_attempt : exn) (* tenacity.RetryError, wrapping the last attempt *).

Inductive result (A : Type) : Type :=
| OK (a : A)
| Raise (e : exn).
Arguments OK {A} a.
Arguments Raise {A} e.

(** [o[k]] *)
Definition getitem (o : pyobj) (k : string) : result pyobj :=
  match o with
  | PyDict d => match d !! k with
                | Some v => OK v
                | None => Raise (KeyError k)
                end
  | _ => Raise TypeError
  end.

(** [o.get(k)] *)
Definition dict_get (o : pyobj) (k : string) : result pyobj :=
  match o with
  | PyDict d => match d !! k with
                | Some v => OK v
                | None => OK PyNone
                end
  | _ => Raise AttributeError
  end.

(** The right operand of [str + x]: anything but a [str] raises. *)
Definition as_str (o : pyobj) : result string :=
  match o with
  | PyStr s => OK s
  | _ => Raise TypeError
  end.

(** [x in ['token解密失败', '非法授权']] *)
Definition invalidation_messages : list string :=
  ["token解密失败"; "非法授权"].

Definition is_invalidation (message : pyobj) : bool :=
  match message with
  | PyStr s => existsb (String.eqb s) invalidation_messages
  | _ => false
  end.

(* ===================================================================== *)
(** * Bytes, [str(int)], [hashlib.md5], [base64.b64encode] *)
(* ===================================================================== *)

(** Strings are sequences of UTF-8 bytes, so [s.encode()] and
    [b.decode()] are the identity on the representation. *)
Definition encode (s : string) : list Z :=
  map (fun a => Z.of_N (N_of_ascii a)) (list_ascii_of_string s).

Definition decode (b : list Z) : string :=
  string_of_list_ascii (map (fun x => ascii_of_N (Z.to_N x)) b).

(** [str(n)] for a Python int. *)
Definition str_of_int (n : Z) : string :=
  NilZero.string_of_int (Z.to_int n).

(** [s.replace('-', '')] *)
Fixpoint remove_hyphens (s : string) : string :=
  match s with
  | EmptyString => EmptyString
  | String c rest =>
      if Ascii.eqb c "-"%char then remove_hyphens rest
      else String c (remove_hyphens rest)
  end.

Module MD5.
Local Open Scope Z_scope.

Definition w32 (x : Z) : Z := Z.land x 0xFFFFFFFF.

Definition add32 (x y : Z) : Z := w32 (x + y).

Definition not32 (x : Z) : Z := Z.lxor x 0xFFFFFFFF.

Definition rotl32 (x c : Z) : Z :=
  w32 (Z.lor (Z.shiftl x c) (Z.shiftr x (32 - c))).

(** Per-round shift amounts. *)
Definition shifts : list Z :=
  [7; 12; 17; 22; 7; 12; 17; 22; 7; 12; 17; 22; 7; 12; 17; 22;
   5;  9; 14; 20; 5;  9; 14; 20; 5;  9; 14; 20; 5;  9; 14; 20;
   4; 11; 16; 23; 4; 11; 16; 23; 4; 11; 16; 23; 4; 11; 16; 23;
   6; 10; 15; 21; 6; 10; 15; 21; 6; 10; 15; 21; 6; 10; 15; 21].

(** [floor (2^32 * abs (sin (i + 1)))] *)
Definition sines : list Z :=
  [0xd76aa478; 0xe8c7b756; 0x242070db; 0xc1bdceee;
   0xf57c0faf; 0x4787c62a; 0xa8304613; 0xfd469501;
   0x698098d8; 0x8b44f7af; 0xffff5bb1; 0x895cd7be;
   0x6b901122; 0xfd987193; 0xa679438e; 0x49b40821;
   0xf61e2562; 0xc040b340; 0x265e5a51; 0xe9b6c7aa;
   0xd62f105d; 0x02441453; 0xd8a1e681; 0xe7d3fbc8;
   0x21e1cde6; 0xc33707d6; 0xf4d50d87; 0x455a14ed;
   0xa9e3e905; 0xfcefa3f8; 0x676f02d9; 0x8d2a4c8a;
   0xfffa3942; 0x8771f681; 0x6d9d6122; 0xfde5380c;
   0xa4beea44; 0x4bdecfa9; 0xf6bb4b60; 0xbebfbc70;
   0x289b7ec6; 0xeaa127fa; 0xd4ef3085; 0x04881d05;
   0xd9d4d039; 0xe6db99e5; 0x1fa27cf8; 0xc4ac5665;
   0xf4292244; 0x432aff97; 0xab9423a7; 0xfc93a039;
   0x655b59c3; 0x8f0ccc92; 0xffeff47d; 0x85845dd1;
   0x6fa87e4f; 0xfe2ce6e0; 0xa3014314; 0x4e0811a1;
   0xf7537e82; 0xbd3af235; 0x2ad7d2bb; 0xeb86d391].

(** [n] bytes of [x], least significant first. *)
Fixpoint le_bytes (n : nat) (x : Z) : list Z :=
  match n with
  | O => []
  | S m => Z.land x 0xFF :: le_bytes m (Z.shiftr x 8)
  end.

Fixpoint of_le_bytes (b : list Z) : Z :=
  match b with
  | [] => 0
  | x :: rest => Z.lor x (Z.shiftl (of_le_bytes rest) 8)
  end.

(** The message, one [0x80] byte, zeros up to 56 modulo 64, and the bit
    length on 64 bits. *)
Definition pad (msg : list Z) : list Z :=
  let len := Z.of_nat (length msg) in
  msg ++ [0x80] ++ repeat 0 (Z.to_nat ((55 - len) mod 64))
      ++ le_bytes 8 ((8 * len) mod 2 ^ 64).

(** Cut a byte sequence in chunks of [size]; [fuel] bounds their number. *)
Fixpoint chunks (fuel size : nat) (b : list Z) : list (list Z) :=
  match fuel with
  | O => []
  | S f =>
      match b with
      | [] => []
      | _ => firstn size b :: chunks f size (skipn size b)
      end
  end.

Definition words_of_block (block : list Z) : list Z :=
  map of_le_bytes (chunks 16 4 block).

Definition state : Type := Z * Z * Z * Z.

Definition step (m : list Z) (st : state) (i : nat) : state :=
  let '(a, b, c, d) := st in
  let iz := Z.of_nat i in
  let '(f, g) :=
    match (i / 16)%nat with
    | 0%nat => (Z.lor (Z.land b c) (Z.land (not32 b) d), iz)
    | 1%nat => (Z.lor (Z.land d b) (Z.land (not32 d) c), (5 * iz + 1) mod 16)
    | 2%nat => (Z.lxor (Z.lxor b c) d, (3 * iz + 5) mod 16)
    | _ => (Z.lxor c (Z.lor b (not32 d)), (7 * iz) mod 16)
    end in
  let f' := add32 (add32 (add32 f a) (nth i sines 0)) (nth (Z.to_nat g) m 0) in
  (d, add32 b (rotl32 f' (nth i shifts 0)), b, c).

Definition process_block (st : state) (block : list Z) : state :=
  let m := words_of_block block in
  let '(a, b, c, d) := st in
  let '(a', b', c', d') := fold_left (step m) (seq 0 64) st in
  (add32 a a', add32 b b', add32 c c', add32 d d').

Definition init : state := (0x67452301, 0xefcdab89, 0x98badcfe, 0x10325476).

Definition digest (msg : list Z) : list Z :=
  let p := pad msg in
  let '(a, b, c, d) :=
    fold_left process_block (chunks (length p) 64 p) init in
  le_bytes 4 a ++ le_bytes 4 b ++ le_bytes 4 c ++ le_bytes 4 d.

Definition hex_digit (x : Z) : ascii :=
  nth (Z.to_nat x) (list_ascii_of_string "0123456789abcdef") "0"%char.

Fixpoint hex (b : list Z) : string :=
  match b with
  | [] => EmptyString
  | x :: rest =>
      String (hex_digit (Z.shiftr x 4)) (String (hex_digit (Z.land x 0xF)) (hex rest))
  end.

(** [md5(b).hexdigest()] *)
Definition hexdigest (msg : list Z) : string := hex (digest msg).
End MD5.

Module Base64.
Local Open Scope Z_scope.

Definition alphabet : list Z :=
  encode "ABCDEFGHIJKLMNOPQRSTUVWXYZabcdefghijklmnopqrstuvwxyz0123456789+/".

(** The character for the low six bits of [x]. *)
Definition sextet (x : Z) : Z := nth (Z.to_nat (Z.land x 0x3F)) alphabet 0.

(** The padding character [=]. *)
Definition pad : Z := 61.

(** [b64encode(b)], three bytes at a time, padded with [=]. *)
Fixpoint b64encode (b : list Z) : list Z :=
  match b with
  | [] => []
  | [x] => [sextet (Z.shiftr x 2); sextet (Z.shiftl x 4); pad; pad]
  | [x; y] =>
      [sextet (Z.shiftr x 2);
       sextet (Z.lor (Z.shiftl x 4) (Z.shiftr y 4));
       sextet (Z.shiftl y 2);
       pad]
  | x :: y :: z :: rest =>
      sextet (Z.shiftr x 2)
        :: sextet (Z.lor (Z.shiftl x 4) (Z.shiftr y 4))
        :: sextet (Z.lor (Z.shiftl y 2) (Z.shiftr z 6))
        :: sextet z
        :: b64encode rest
  end.
End Base64.

(* ===================================================================== *)
(** * The outside world, the client object, the monad *)
(* ===================================================================== *)

(** [yarl.URL.build(scheme=..., host=..., path=...)]; a relative URL has an
    empty scheme and host. *)
Record URL : Type := URL_build { scheme : string; host : string; path : string }.

Definition str_of_URL (u : URL) : string :=
  if String.eqb (scheme u) EmptyString then path u
  else scheme u ++ "://" ++ host u ++ path u.

(** Modelled from the spec: [typedefs.LoginUserInfo] is not part of the
    sources at hand.  The record is kept as the mapping it was built from;
    it holds at least a [token], absent ([None]) when the mapping gives
    none, as for the initial [LoginUserInfo({})]. *)
Record LoginUserInfo : Type := mkLoginUserInfo { user_info : pyobj }.

Definition token (u : LoginUserInfo) : pyobj :=
  match user_info u with
  | PyDict d => default PyNone (d !! "token")
  | _ => PyNone
  end.

(** Modelled from the spec: [typedefs] is not part of the sources at hand.
    The three records the endpoint methods build are projections of the
    [content] mapping; each is kept as its constructor applied to the
    [content] it was given. *)
Inductive record : Type :=
| StarBasicInfo (content : pyobj)
| UserBasicInfo (content : pyobj)
| BaseRoomInfo (content : pyobj).

(** [aiohttp.TCPConnector(ssl=False, keepalive_timeout=60, limit=0)] *)
Record Connector : Type := TCPConnector {
  ssl : bool;
  keepalive_timeout : Z;
  limit : Z;
  closed : bool
}.

(** [aiohttp.ClientSession(base_url=..., connector=..., timeout=...)]; the
    session holds a reference to the client's one connector. *)
Record Session : Type := ClientSession {
  base_url : URL;
  timeout_total : Z
}.

(** What the client does to the outside, in order. *)
Inductive event : Type :=
| EvOpenConfig                                       (* open('config.toml') *)
| EvRequestsPost (url : string) (json headers : pyobj) (timeout : Z)
| EvTimeSleep (milliseconds : Z)                     (* time.sleep(ms / 1000.0) *)
| EvAsyncioSleep (seconds : Z)                       (* await asyncio.sleep(s) *)
| EvNewConnector
| EvNewSession
| EvCloseConnector
| EvSemAcquire
| EvSemRelease
| EvSessionPost (url : URL) (json headers : pyobj)
| EvPrint (o : pyobj).

(** The outside world as a script.  [time_ms k] is [int(time() * 1000)] at
    the [k]-th reading of the clock; [requests_post k] is what the [k]-th
    [requests.post(...).json()] gives, [session_post k] what the [k]-th
    [session.post(...)] followed by [resp.json()] gives. *)
Record Env : Type := mkEnv {
  running_loop : bool;
  uuid1 : string;
  config_toml : result pyobj;
  time_ms : nat -> Z;
  requests_post : nat -> result pyobj;
  session_post : nat -> result pyobj
}.

(** The fields of [self]. *)
Record Client : Type := mkClient {
  c_config : option pyobj;
  c_uuid : string;
  c_base_url : URL;
  c_login_user : LoginUserInfo;
  c_connector : option Connector;
  c_session : option Session;
  c_sem : nat
}.

(** The client together with the position in the script and the events
    so far (oldest first). *)
Record State : Type := mkState {
  self : Client;
  n_time : nat;
  n_requests_post : nat;
  n_session_post : nat;
  trace : list event
}.

Definition with_self (f : Client -> Client) (s : State) : State :=
  mkState (f (self s)) (n_time s) (n_requests_post s) (n_session_post s) (trace s).

Definition log (e : event) (s : State) : State :=
  mkState (self s) (n_time s) (n_requests_post s) (n_session_post s) (trace s ++ [e]).

Definition set_config (cfg : pyobj) (c : Client) : Client :=
  mkClient (Some cfg) (c_uuid c) (c_base_url c) (c_login_user c)
           (c_connector c) (c_session c) (c_sem c).

Definition set_login_user (u : LoginUserInfo) (c : Client) : Client :=
  mkClient (c_config c) (c_uuid c) (c_base_url c) u
           (c_connector c) (c_session c) (c_sem c).

Definition set_connector (k : Connector) (c : Client) : Client :=
  mkClient (c_config c) (c_uuid c) (c_base_url c) (c_login_user c)
           (Some k) (c_session c) (c_sem c).

Definition set_session (x : Session) (c : Client) : Client :=
  mkClient (c_config c) (c_uuid c) (c_base_url c) (c_login_user c)
           (c_connector c) (Some x) (c_sem c).

(** Computations: read the script, change the state, return or raise.  A
    raised exception keeps the state changes made before it. *)
Definition M (A : Type) : Type := Env -> State -> result A * State.

Definition ret {A} (a : A) : M A := fun _ s => (OK a, s).

Definition raise {A} (e : exn) : M A := fun _ s => (Raise e, s).

Definition bind {A B} (c : M A) (k : A -> M B) : M B :=
  fun env s =>
    match c env s with
    | (OK a, s1) => k a env s1
    | (Raise e, s1) => (Raise e, s1)
    end.

Notation "x <- c ;; k" := (bind c (fun x => k))
  (at level 100, c at next level, right associativity).
Notation "c ;; k" := (bind c (fun _ => k))
  (at level 100, right associativity).

Definition lift {A} (r : result A) : M A := fun _ s => (r, s).

Definition gets {A} (f : Client -> A) : M A := fun _ s => (OK (f (self s)), s).

Definition modify (f : Client -> Client) : M unit := fun _ s => (OK tt, with_self f s).

Definition emit (e : event) : M unit := fun _ s => (OK tt, log e s).

(** [try: c finally: e] for an event [e]. *)
Definition finally {A} (c : M A) (e : event) : M A :=
  fun env s => let '(r, s1) := c env s in (r, log e s1).

(** [str(int(time() * 1000))] *)
Definition now_ms : M string :=
  fun env s =>
    (OK (str_of_int (time_ms env (n_time s))),
     mkState (self s) (S (n_time s)) (n_requests_post s) (n_session_post s) (trace s)).

(* ===================================================================== *)
(** * The two retry decorators *)
(* ===================================================================== *)

(** [tenacity.retry(stop=stop_after_attempt(n), wait=wait_fixed(w))] around
    a coroutine: run it; on any exception either stop, raising
    [RetryError] from the last attempt ([reraise] is left at its default),
    or sleep [w] seconds and run it again.  [more] is how many further
    attempts are allowed. *)
Fixpoint tenacity_loop {A} (more : nat) (wait_fixed : Z) (fn : M A) : M A :=
  fun env s =>
    match fn env s with
    | (OK a, s1) => (OK a, s1)
    | (Raise e, s1) =>
        match more with
        | O => (Raise (RetryError e), s1)
        | S m => tenacity_loop m wait_fixed fn env (log (EvAsyncioSleep wait_fixed) s1)
        end
    end.

Definition aretry {A} (stop_after_attempt : nat) (wait_fixed : Z) (fn : M A) : M A :=
  tenacity_loop (stop_after_attempt - 1) wait_fixed fn.

(** [retrying.retry(stop_max_attempt_number=n, wait_fixed=w)]: run the
    function; on any exception either stop, raising that exception again
    ([wrap_exception] is left at its default), or [time.sleep(w / 1000.0)]
    and run it again: this library counts [wait_fixed] in milliseconds. *)
Fixpoint retrying_loop {A} (more : nat) (wait_fixed : Z) (fn : M A) : M A :=
  fun env s =>
    match fn env s with
    | (OK a, s1) => (OK a, s1)
    | (Raise e, s1) =>
        match more with
        | O => (Raise e, s1)
        | S m => retrying_loop m wait_fixed fn env (log (EvTimeSleep wait_fixed) s1)
        end
    end.

Definition retry {A} (stop_max_attempt_number : nat) (wait_fixed : Z) (fn : M A) : M A :=
  retrying_loop (stop_max_attempt_number - 1) wait_fixed fn.

(* ===================================================================== *)
(** * class Client *)
(* ===================================================================== *)

(** [asyncio.get_running_loop()] *)
Definition get_running_loop (env : Env) : result unit :=
  if running_loop env then OK tt else Raise RuntimeError.

(** [Client.__init__]: every field is set before the running loop is
    asked for, and the object exists only if that last line returns. *)
Definition __init__ (env : Env) : result Client :=
  let _uuid := remove_hyphens (uuid1 env) in
  let _base_url := URL_build "https" "pocketapi.48.cn" EmptyString in
  let _login_user := mkLoginUserInfo (PyDict ∅) in
  let _sem := 10%nat in
  match get_running_loop env with
  | OK _ => OK (mkClient None _uuid _base_url _login_user None None _sem)
  | Raise e => Raise e
  end.

(** The state in which a freshly constructed client starts. *)
Definition start (c : Client) : State := mkState c 0 0 0 [].

Section Methods.

(** [json.dumps], used only to serialise the [appInfo] blob. *)
Variable json_dumps : pyobj -> string.

(** property [connector] *)
Definition connector : M (option Connector) :=
  c <- gets c_connector ;;
  match c with
  | None =>
      emit EvNewConnector ;;
      modify (set_connector (TCPConnector false 60 0 false)) ;;
      gets c_connector
  | Some _ => gets c_connector
  end.

(** property [session] *)
Definition session : M (option Session) :=
  x <- gets c_session ;;
  match x with
  | None =>
      let time_out := 3%Z in
      _base_url <- gets c_base_url ;;
      _connector <- connector ;;
      emit EvNewSession ;;
      modify (set_session (ClientSession _base_url time_out)) ;;
      gets c_session
  | Some _ => gets c_session
  end.

(** [connector.close()]: closing a closed connector does nothing. *)
Definition close (k : Connector) : M unit :=
  if closed k then ret tt
  else
    modify (set_connector (TCPConnector (ssl k) (keepalive_timeout k) (limit k) true)) ;;
    emit EvCloseConnector.

(** [__aenter__]: the client itself. *)
Definition __aenter__ : M Client := gets (fun c => c).

(** [__aexit__]: the test reads the property, not the field. *)
Definition __aexit__ : M unit :=
  c <- connector ;;
  match c with
  | Some _ =>
      c' <- connector ;;
      match c' with
      | Some k => close k
      | None => raise AttributeError
      end
  | None => ret tt
  end.

(** property [config] *)
Definition config : M pyobj :=
  c <- gets c_config ;;
  match c with
  | None =>
      emit EvOpenConfig ;;
      cfg <- (fun env s => (config_toml env, s)) ;;
      modify (set_config cfg) ;;
      ret cfg
  | Some cfg => ret cfg
  end.

(** [self.config[group][key]] *)
Definition config_item (group key : string) : M pyobj :=
  cfg <- config ;;
  g <- lift (getitem cfg group) ;;
  lift (getitem g key).

(** property [pa] *)
Definition pa : M string :=
  _PostKey <- config_item "paInfo" "PostKey" ;;
  _PostKeyVersion <- config_item "paInfo" "PostKeyVersion" ;;
  _UUID <- gets c_uuid ;;
  _NOW_TIME <- now_ms ;;
  k <- lift (as_str _PostKey) ;;
  let _MD5 := MD5.hexdigest (encode (_NOW_TIME ++ _UUID ++ k)) in
  v <- lift (as_str _PostKeyVersion) ;;
  ret (decode (Base64.b64encode
                 (encode (_NOW_TIME ++ "," ++ _UUID ++ "," ++ _MD5 ++ "," ++ v)))).

(** [requests.post(url=..., json=..., headers=..., timeout=...).json()] *)
Definition do_requests_post (_url : string) (_params _headers : pyobj) (_timeout : Z)
  : M pyobj :=
  fun env s =>
    (requests_post env (n_requests_post s),
     mkState (self s) (n_time s) (S (n_requests_post s)) (n_session_post s)
             (trace s ++ [EvRequestsPost _url _params _headers _timeout])).

(** static method [__rpost], under [@retry(stop_max_attempt_number=3, wait_fixed=3)] *)
Definition __rpost (_url : URL) (_params _headers : pyobj) (_timeout : Z) : M pyobj :=
  retry 3 3 (do_requests_post (str_of_URL _url) _params _headers _timeout).

(** [user_login] *)
Definition user_login : M unit :=
  sig <- pa ;;
  appInfo <- config_item "Headers" "appInfo" ;;
  let token_headers :=
    PyDict {[ "pa" := PyStr sig;
              "appInfo" := PyStr (json_dumps appInfo);
              "Connection" := PyStr "close" ]} in
  username <- config_item "userInfo" "username" ;;
  password <- config_item "userInfo" "password" ;;
  let params := PyDict {[ "mobile" := username; "pwd" := password ]} in
  res_json <- __rpost (URL_build "https" "pocketapi.48.cn" "/user/api/v1/login/app/mobile")
                      params token_headers 3 ;;
  content <- lift (getitem res_json "content") ;;
  userInfo <- lift (getitem content "userInfo") ;;
  modify (set_login_user (mkLoginUserInfo userInfo)).

(** [d.update({'pa': ..., 'token': ...})] *)
Definition update_pa_token (d : gmap string pyobj) (sig : string) (tok : pyobj)
  : gmap string pyobj :=
  <["token" := tok]> (<["pa" := PyStr sig]> d).

(** property [headers] *)
Definition headers : M pyobj :=
  user_agent <- config_item "Headers" "user_agent" ;;
  content_type <- config_item "Headers" "content_type" ;;
  host_ <- config_item "Headers" "host" ;;
  accept_encoding <- config_item "Headers" "content_type" ;;
  appInfo <- config_item "Headers" "appInfo" ;;
  let base_headers : gmap string pyobj :=
    {[ "User-Agent" := user_agent;
       "Content-Type" := content_type;
       "Host" := host_;
       "Connection" := PyStr "close";
       "Accept-Encoding" := accept_encoding;
       "appInfo" := PyStr (json_dumps appInfo) ]} in
  u <- gets c_login_user ;;
  match token u with
  | PyNone => user_login
  | _ => ret tt
  end ;;
  sig <- pa ;;
  u' <- gets c_login_user ;;
  ret (PyDict (update_pa_token base_headers sig (token u'))).

(** [session.post(url=..., json=..., headers=...)] and [await resp.json()] *)
Definition do_session_post (_url : URL) (_params _headers : pyobj) : M pyobj :=
  fun env s =>
    (session_post env (n_session_post s),
     mkState (self s) (n_time s) (n_requests_post s) (S (n_session_post s))
             (trace s ++ [EvSessionPost _url _params _headers])).

(** [async with self.__sem: ...]: the slot is given back on every exit.
    (One task alone always finds a slot; several tasks are the subject
    of [Module Gate] below.) *)
Definition with_sem {A} (c : M A) : M A :=
  emit EvSemAcquire ;; finally c EvSemRelease.

(** The body of [__apost], one attempt. *)
Definition __apost_attempt (_url : URL) (_params _headers : pyobj) : M pyobj :=
  _headers <- match _headers with
              | PyNone => headers
              | h => ret h
              end ;;
  res_json <- with_sem
                (_session <- session ;;
                 res_json <- do_session_post _url _params _headers ;;
                 emit (EvPrint res_json) ;;
                 ret res_json) ;;
  message <- lift (dict_get res_json "message") ;;
  if is_invalidation message then
    (user_login ;; ret PyNone)
  else
    ret res_json.

(** [__apost], under [@aretry(stop=stop_after_attempt(5), wait=wait_fixed(3))] *)
Definition __apost (_url : URL) (_params _headers : pyobj) : M pyobj :=
  aretry 5 3 (__apost_attempt _url _params _headers).

(** [get_starBasicInfo] *)
Definition get_starBasicInfo (_id : Z) : M record :=
  let url := URL_build EmptyString EmptyString "/user/api/v1/user/star/archives" in
  let params := PyDict {[ "lastTime" := PyInt 0; "memberId" := PyInt _id;
                          "limit" := PyInt 20 ]} in
  res_json <- __apost url params PyNone ;;
  content <- lift (getitem res_json "content") ;;
  ret (StarBasicInfo content).

(** [get_userInfo] *)
Definition get_userInfo (_id : Z) : M record :=
  let url := URL_build EmptyString EmptyString "/user/api/v1/user/info/home" in
  let params := PyDict {[ "userId" := PyInt _id ]} in
  res_json <- __apost url params PyNone ;;
  content <- lift (getitem res_json "content") ;;
  ret (UserBasicInfo content).

(** [get_roomInfo] *)
Definition get_roomInfo (_id : Z) : M record :=
  let url := URL_build EmptyString EmptyString "/im/api/v1/im/room/info/type/source" in
  let params := PyDict {[ "sourceId" := PyInt _id; "type" := PyInt 0 ]} in
  res_json <- __apost url params PyNone ;;
  content <- lift (getitem res_json "content") ;;
  ret (BaseRoomInfo content).

End Methods.

(* ===================================================================== *)
(** * Observations on runs *)
(* ===================================================================== *)

(** The seconds slept by [tenacity] between attempts of [__apost]. *)
Fixpoint asyncio_sleeps (tr : list event) : list Z :=
  match tr with
  | [] => []
  | EvAsyncioSleep sec :: rest => sec :: asyncio_sleeps rest
  | _ :: rest => asyncio_sleeps rest
  end.

(** The milliseconds slept by [retrying] between attempts of [__rpost]. *)
Fixpoint time_sleeps (tr : list event) : list Z :=
  match tr with
  | [] => []
  | EvTimeSleep ms :: rest => ms :: time_sleeps rest
  | _ :: rest => time_sleeps rest
  end.

(** Acquisitions and releases of the pool and of the session. *)
Definition is_resource_event (e : event) : bool :=
  match e with
  | EvNewConnector | EvNewSession | EvCloseConnector => true
  | _ => false
  end.

Definition resource_events (tr : list event) : list event :=
  filter (fun e => is_resource_event e = true) tr.

(** The configuration the client works with: the cached one, or else what
    loading the file gives. *)
Definition loaded_config (env : Env) (s : State) : result pyobj :=
  match c_config (self s) with
  | Some cfg => OK cfg
  | None => config_toml env
  end.

(** [cfg[group][key]] *)
Definition lookup2 (cfg : pyobj) (group key : string) : result pyobj :=
  match getitem cfg group with
  | OK g => getitem g key
  | Raise e => Raise e
  end.

(** The state once the configuration is cached. *)
Definition cache_config (cfg : pyobj) (s : State) : State :=
  match c_config (self s) with
  | Some _ => s
  | None => with_self (set_config cfg) (log EvOpenConfig s)
  end.

(** The state once the clock was read. *)
Definition tick (s : State) : State :=
  mkState (self s) (S (n_time s)) (n_requests_post s) (n_session_post s) (trace s).

Definition is_ok {A} (r : result A) : bool :=
  match r with
  | OK _ => true
  | Raise _ => false
  end.

Definition is_str (r : result pyobj) : bool :=
  match r with
  | OK (PyStr _) => true
  | _ => false
  end.

Definition is_None (o : pyobj) : bool :=
  match o with
  | PyNone => true
  | _ => false
  end.

(** The configuration has every key that [headers] and [pa] read, and the
    two [paInfo] values are strings. *)
Definition config_ready (cfg : pyobj) : bool :=
  is_ok (lookup2 cfg "Headers" "user_agent")
  && is_ok (lookup2 cfg "Headers" "content_type")
  && is_ok (lookup2 cfg "Headers" "host")
  && is_ok (lookup2 cfg "Headers" "appInfo")
  && is_str (lookup2 cfg "paInfo" "PostKey")
  && is_str (lookup2 cfg "paInfo" "PostKeyVersion").

(** The client can build headers without failing and without logging in:
    its configuration is usable and it holds a token. *)
Definition ready (env : Env) (s : State) : bool :=
  match loaded_config env s with
  | OK cfg => config_ready cfg && negb (is_None (token (c_login_user (self s))))
  | Raise _ => false
  end.

(** The attempt has headers at hand: they were passed by the caller, or
    the client is [ready] to build them. *)
Definition headers_at_hand (_headers : pyobj) (env : Env) (s : State) : bool :=
  match _headers with
  | PyNone => ready env s
  | _ => true
  end.

(** Transport failures: connection and timeout errors. *)
Definition is_transport_error (e : exn) : bool :=
  match e with
  | ConnectionError | TimeoutError => true
  | _ => false
  end.

(** An outcome that is a failure of the given kind. *)
Definition fails_with (P : exn -> bool) (r : result pyobj) : bool :=
  match r with
  | Raise e => P e
  | OK _ => false
  end.

(** What the block under the semaphore leaves as it was. *)
Definition same_core (s s1 : State) : Prop :=
  c_config (self s1) = c_config (self s)
  /\ c_login_user (self s1) = c_login_user (self s)
  /\ c_uuid (self s1) = c_uuid (self s)
  /\ n_time s1 = n_time s
  /\ n_requests_post s1 = n_requests_post s
  /\ asyncio_sleeps (trace s1) = asyncio_sleeps (trace s).

(** What one attempt of [__apost] leaves as it was when headers are at
    hand and the reply does not lead to a login: exactly one POST is made. *)
Definition attempt_frame (env : Env) (s s1 : State) : Prop :=
  loaded_config env s1 = loaded_config env s
  /\ c_login_user (self s1) = c_login_user (self s)
  /\ n_requests_post s1 = n_requests_post s
  /\ asyncio_sleeps (trace s1) = asyncio_sleeps (trace s)
  /\ n_session_post s1 = S (n_session_post s).

(** The headers an attempt of [__apost] works with: those the caller
    passed, or else the property [headers]. *)
Definition given_or_headers (json_dumps : pyobj -> string) (_headers : pyobj) : M pyobj :=
  match _headers with
  | PyNone => headers json_dumps
  | h => ret h
  end.

(** The state in which attempt [k + 1] of a function under [tenacity]
    starts, when the [k] attempts before it all raised and each was followed
    by the pause; [None] when one of them returned. *)
Fixpoint attempt_start {A} (fn : M A) (wait_fixed : Z) (k : nat) (env : Env) (s : State)
  : option State :=
  match k with
  | O => Some s
  | S j =>
      match fn env s with
      | (Raise _, s1) =>
          attempt_start fn wait_fixed j env (log (EvAsyncioSleep wait_fixed) s1)
      | (OK _, _) => None
      end
  end.

(** Decode failures: [resp.json()] on a body that is not JSON. *)
Definition is_decode_error (e : exn) : bool :=
  match e with
  | JSONDecodeError => true
  | _ => false
  end.

(** The signature as the specification words it: the base64 text of
    timestamp, session identity, lowercase hexadecimal MD5 of
    timestamp + session identity + PostKey, and PostKeyVersion, joined by
    commas. *)
Definition computeSignature (timestamp sessionIdentity postKey postKeyVersion : string)
  : string :=
  decode
    (Base64.b64encode
       (encode (timestamp ++ "," ++ sessionIdentity ++ ","
                  ++ MD5.hexdigest (encode (timestamp ++ sessionIdentity ++ postKey))
                  ++ "," ++ postKeyVersion))).

(* ===================================================================== *)
(** * A concrete configuration and concrete replies *)
(* ===================================================================== *)

Module Sample.

Definition cfg : pyobj :=
  PyDict {[ "paInfo" := PyDict {[ "PostKey" := PyStr "secret";
                                  "PostKeyVersion" := PyStr "v0.0.1" ]};
            "userInfo" := PyDict {[ "username" := PyStr "13800000000";
                                    "password" := PyStr "pw" ]};
            "Headers" := PyDict {[ "user_agent" := PyStr "PocketFans201807/6.0.16";
                                   "content_type" := PyStr "application/json;charset=utf-8";
                                   "host" := PyStr "pocketapi.48.cn";
                                   "appInfo" := PyDict {[ "vendor" := PyStr "apple" ]} ]} ]}.

(** A stand-in for [json.dumps]. *)
Definition dumps (o : pyobj) : string := "{}".

(** A login reply carrying the token [tok]. *)
Definition login_reply (tok : string) : pyobj :=
  PyDict {[ "content" := PyDict {[ "userInfo" := PyDict {[ "token" := PyStr tok ]} ]} ]}.

(** A login reply whose [userInfo] is the empty mapping. *)
Definition login_reply_no_token : pyobj :=
  PyDict {[ "content" := PyDict {[ "userInfo" := PyDict ∅ ]} ]}.

(** An endpoint reply with a payload. *)
Definition payload : pyobj :=
  PyDict {[ "content" := PyDict {[ "userId" := PyInt 5 ]};
            "message" := PyStr "success" ]}.

(** An endpoint reply without [content]. *)
Definition no_content : pyobj := PyDict {[ "message" := PyStr "success" ]}.

(** The reply of a server that no longer accepts the token. *)
Definition invalidated : pyobj := PyDict {[ "message" := PyStr "非法授权" ]}.

Definition env (logins posts : nat -> result pyobj) : Env :=
  mkEnv true "123e4567-e89b-12d3-a456-426614174000" (OK cfg)
        (fun k => 1700000000000 + Z.of_nat k)%Z logins posts.

(** The client [__init__] builds in that world. *)
Definition client : Client :=
  mkClient None "123e4567e89b12d3a456426614174000"
           (URL_build "https" "pocketapi.48.cn" EmptyString)
           (mkLoginUserInfo (PyDict ∅)) None None 10.

(** The same client once it holds the token [tok] and its configuration. *)
Definition logged_in (tok : string) : Client :=
  set_config cfg
    (set_login_user (mkLoginUserInfo (PyDict {[ "token" := PyStr tok ]})) client).

(** Scripts of replies. *)
Definition logins_ok : nat -> result pyobj := fun _ => OK (login_reply "T1").

Definition logins_timeout_then_ok : nat -> result pyobj :=
  fun k => match k with
           | O => Raise TimeoutError
           | _ => OK (login_reply "T1")
           end.

Definition logins_no_token : nat -> result pyobj := fun _ => OK login_reply_no_token.

Definition posts_ok : nat -> result pyobj := fun _ => OK payload.

Definition posts_invalidated_then_payload : nat -> result pyobj :=
  fun k => match k with
           | O => OK invalidated
           | _ => OK payload
           end.

Definition posts_timeout : nat -> result pyobj := fun _ => Raise TimeoutError.

Definition posts_two_failures_then_payload : nat -> result pyobj :=
  fun k => match k with
           | 0 => Raise ConnectionError
           | 1 => Raise TimeoutError
           | _ => OK payload
           end.

Definition posts_undecodable_then_payload : nat -> result pyobj :=
  fun k => match k with
           | O => Raise JSONDecodeError
           | _ => OK payload
           end.

Definition posts_no_content : nat -> result pyobj := fun _ => OK no_content.

(** A world without a running event loop. *)
Definition env_no_loop : Env :=
  mkEnv false "123e4567-e89b-12d3-a456-426614174000" (OK cfg)
        (fun k => 1700000000000 + Z.of_nat k)%Z logins_ok posts_ok.

Definition url : URL := URL_build EmptyString EmptyString "/user/api/v1/user/info/home".

Definition params : pyobj := PyDict {[ "userId" := PyInt 5 ]}.

End Sample.

(* ===================================================================== *)
(** * Several callers of one client *)
(* ===================================================================== *)

(** Several tasks run [__apost] on one event loop and share the client.
    A task runs without interruption from one [await] to the next, so the
    coroutine is cut at its awaits: [async with self.__sem], where it may
    have to wait for a slot; the POST, where it waits for the reply; and
    the pause of [tenacity] between two attempts.  The pieces between the
    awaits are the computations of the methods above, run on the one
    shared client.  The event loop resumes the tasks in any order: a
    schedule is a list of task numbers. *)
Module Gate.

(** Where a task stands; [more] is how many further attempts [tenacity]
    allows it. *)
Inductive pc : Type :=
| Starting (more : nat)               (* about to run the body of [__apost] *)
| AtGate (more : nat) (h : pyobj)     (* at [async with self.__sem], headers in hand *)
| InFlight (more : nat) (h : pyobj)   (* inside the block: its POST is on the network *)
| Sleeping (more : nat)               (* in [asyncio.sleep(3)] between two attempts *)
| Finished (r : result pyobj).        (* returned, or raised *)

(** A call of [__apost]: its arguments and where it stands. *)
Record task : Type := mkTask {
  t_url : URL;
  t_params : pyobj;
  t_headers : pyobj;
  at_ : pc
}.

(** The counter of [self.__sem], the client the tasks share, the tasks. *)
Record pool : Type := mkPool { value : nat; shared : State; tasks : list task }.

(** Entering the block: the slot is taken and [self.session.post(...)] is
    called on the session, which is built if need be. *)
Definition enter_block : M (option Session) :=
  emit EvSemAcquire ;; session.

(** What follows the block: [res_json.get('message')] and the branch on it. *)
Definition after_block (json_dumps : pyobj -> string) (res_json : pyobj) : M pyobj :=
  message <- lift (dict_get res_json "message") ;;
  if is_invalidation message then
    (user_login json_dumps ;; ret PyNone)
  else
    ret res_json.

(** The reply arrives: [await resp.json()], [print], the slot is given
    back on the way out of the block, and the rest of the body runs. *)
Definition leave_block (json_dumps : pyobj -> string) (_url : URL) (_params _headers : pyobj)
  : M pyobj :=
  res_json <- finally (res_json <- do_session_post _url _params _headers ;;
                       emit (EvPrint res_json) ;;
                       ret res_json) EvSemRelease ;;
  after_block json_dumps res_json.

(** What [tenacity] does with the outcome of an attempt: return it, stop
    with [RetryError], or start the pause before the next attempt. *)
Definition settle (more : nat) (wait_fixed : Z) (r : result pyobj) (s : State) : pc * State :=
  match r with
  | OK a => (Finished (OK a), s)
  | Raise e =>
      match more with
      | O => (Finished (Raise (RetryError e)), s)
      | S m => (Sleeping m, log (EvAsyncioSleep wait_fixed) s)
      end
  end.

(** Task [i] moves to [fst a], leaving the shared client as [snd a] and
    the counter at [v]. *)
Definition put (i : nat) (t : task) (v : nat) (a : pc * State) (p : pool) : pool :=
  mkPool v (snd a) (<[i := mkTask (t_url t) (t_params t) (t_headers t) (fst a)]> (tasks p)).

(** Task [i] is resumed and runs up to its next await.  [None] when it
    cannot run: it has finished, or it is at the gate and the counter is 0,
    in which case [Semaphore.acquire] keeps it suspended. *)
Definition step (json_dumps : pyobj -> string) (i : nat) (env : Env) (p : pool)
  : option pool :=
  match tasks p !! i with
  | None => None
  | Some t =>
      match at_ t with
      | Starting more =>
          match given_or_headers json_dumps (t_headers t) env (shared p) with
          | (OK h, s1) => Some (put i t (value p) (AtGate more h, s1) p)
          | (Raise e, s1) => Some (put i t (value p) (settle more 3 (Raise e) s1) p)
          end
      | AtGate more h =>
          match value p with
          | O => None
          | S v =>
              match enter_block env (shared p) with
              | (OK _, s1) => Some (put i t v (InFlight more h, s1) p)
              | (Raise e, s1) =>
                  Some (put i t (S v) (settle more 3 (Raise e) (log EvSemRelease s1)) p)
              end
          end
      | InFlight more h =>
          match leave_block json_dumps (t_url t) (t_params t) h env (shared p) with
          | (r, s1) => Some (put i t (S (value p)) (settle more 3 r s1) p)
          end
      | Sleeping more => Some (put i t (value p) (Starting more, shared p) p)
      | Finished _ => None
      end
  end.

(** The event loop follows the schedule; a task named while it cannot run
    stays where it is. *)
Fixpoint run (json_dumps : pyobj -> string) (schedule : list nat) (env : Env) (p : pool)
  : pool :=
  match schedule with
  | [] => p
  | i :: rest => run json_dumps rest env (default p (step json_dumps i env p))
  end.

(** The arguments of a call: [_url], [_params], [_headers]. *)
Definition request : Type := (URL * pyobj * pyobj)%type.

(** A call that has not started: [stop_after_attempt(5)] allows four
    further attempts after the first. *)
Definition spawn (r : request) : task :=
  mkTask (fst (fst r)) (snd (fst r)) (snd r) (Starting (5 - 1)).

(** The calls made on the client in state [s], none of them started; the
    counter is the one [__init__] gave the semaphore. *)
Definition init (s : State) (requests : list request) : pool :=
  mkPool (c_sem (self s)) s (map spawn requests).

(** One call alone on the client. *)
Definition alone (v : nat) (s : State) (_url : URL) (_params _headers : pyobj) (a : pc)
  : pool :=
  mkPool v s [mkTask _url _params _headers a].

Definition is_in_flight (t : task) : bool :=
  match at_ t with
  | InFlight _ _ => true
  | _ => false
  end.

(** How many POSTs are in flight. *)
Fixpoint in_flight_of (l : list task) : nat :=
  match l with
  | [] => 0
  | t :: rest => (if is_in_flight t then 1 else 0) + in_flight_of rest
  end.

Definition in_flight (p : pool) : nat := in_flight_of (tasks p).

End Gate.

(* ===================================================================== *)
(** * Sequences of calls and what they leave behind *)
(* ===================================================================== *)

(** What a user of the class can call. *)
Inductive call : Type :=
| CallAenter
| CallAexit
| CallConnector
| CallSession
| CallConfig
| CallPa
| CallHeaders
| CallUserLogin
| CallGetStarBasicInfo (_id : Z)
| CallGetUserInfo (_id : Z)
| CallGetRoomInfo (_id : Z).

(** One call, its value dropped. *)
Definition perform (json_dumps : pyobj -> string) (c : call) : M unit :=
  match c with
  | CallAenter => (_ <- __aenter__ ;; ret tt)
  | CallAexit => __aexit__
  | CallConnector => (_ <- connector ;; ret tt)
  | CallSession => (_ <- session ;; ret tt)
  | CallConfig => (_ <- config ;; ret tt)
  | CallPa => (_ <- pa ;; ret tt)
  | CallHeaders => (_ <- headers json_dumps ;; ret tt)
  | CallUserLogin => user_login json_dumps
  | CallGetStarBasicInfo _id => (_ <- get_starBasicInfo json_dumps _id ;; ret tt)
  | CallGetUserInfo _id => (_ <- get_userInfo json_dumps _id ;; ret tt)
  | CallGetRoomInfo _id => (_ <- get_roomInfo json_dumps _id ;; ret tt)
  end.

(** A sequence of calls on one client; a call that raises leaves the
    client as the exception found it and the next call goes on from there. *)
Fixpoint perform_all (json_dumps : pyobj -> string) (calls : list call)
  (env : Env) (s : State) : State :=
  match calls with
  | [] => s
  | c :: rest => perform_all json_dumps rest env (snd (perform json_dumps c env s))
  end.

(** [c] relates the state it starts in to the state it ends in by [R],
    whether it returns or raises. *)
Definition holds {A} (c : M A) (env : Env) (R : State -> State -> Prop) : Prop :=
  forall s r s1, c env s = (r, s1) -> R s s1.

(** The events that concern neither a resource nor a request. *)
Definition quiet (e : event) : Prop :=
  match e with
  | EvSemAcquire | EvSemRelease | EvPrint _ => True
  | EvAsyncioSleep w | EvTimeSleep w => w = 3%Z
  | _ => False
  end.

(** Headers as the property [headers] builds them. *)
Definition is_signed (h : pyobj) : bool :=
  match h with
  | PyDict hm =>
      match hm !! "pa", hm !! "token" with
      | Some (PyStr _), Some _ => true
      | _, _ => false
      end
  | _ => false
  end.

(** The headers an attempt of [__apost] sends: the caller's, or else
    those of the property. *)
Definition sent_headers (_headers h : pyobj) : Prop :=
  match _headers with
  | PyNone => is_signed h = true
  | _ => h = _headers
  end.

(** The login request: its address, its body, its headers, its timeout. *)
Definition login_request (u : string) (p h : pyobj) (t : Z) : Prop :=
  u = "https://pocketapi.48.cn/user/api/v1/login/app/mobile"
  /\ t = 3%Z
  /\ (exists un pw, p = PyDict {[ "mobile" := un; "pwd" := pw ]})
  /\ (exists sig ai, h = PyDict {[ "pa" := PyStr sig; "appInfo" := PyStr ai;
                                   "Connection" := PyStr "close" ]}).

(** The three endpoint requests. *)
Definition star_request (_id : Z) (u : URL) (p : pyobj) : Prop :=
  u = URL_build EmptyString EmptyString "/user/api/v1/user/star/archives"
  /\ p = PyDict {[ "lastTime" := PyInt 0; "memberId" := PyInt _id; "limit" := PyInt 20 ]}.

Definition user_request (_id : Z) (u : URL) (p : pyobj) : Prop :=
  u = URL_build EmptyString EmptyString "/user/api/v1/user/info/home"
  /\ p = PyDict {[ "userId" := PyInt _id ]}.

Definition room_request (_id : Z) (u : URL) (p : pyobj) : Prop :=
  u = URL_build EmptyString EmptyString "/im/api/v1/im/room/info/type/source"
  /\ p = PyDict {[ "sourceId" := PyInt _id; "type" := PyInt 0 ]}.

Definition endpoint_request (u : URL) (p h : pyobj) : Prop :=
  (exists _id, star_request _id u p \/ user_request _id u p \/ room_request _id u p)
  /\ is_signed h = true.

(** An event as the client may emit it, given what it may send through
    the session. *)
Definition okev (oksend : URL -> pyobj -> pyobj -> Prop) (e : event) : Prop :=
  match e with
  | EvRequestsPost u p h t => login_request u p h t
  | EvSessionPost u p h => oksend u p h
  | EvAsyncioSleep w => w = 3%Z
  | EvTimeSleep w => w = 3%Z
  | _ => True
  end.

(** The run from [s] to [s1] only added events, all of them [okev]. *)
Definition emits (oksend : URL -> pyobj -> pyobj -> Prop) (s s1 : State) : Prop :=
  exists evs, trace s1 = (trace s ++ evs)%list /\ Forall (okev oksend) evs.

Definition count (p : event -> bool) (tr : list event) : nat :=
  length (List.filter p tr).

Definition is_new_connector (e : event) : bool :=
  match e with EvNewConnector => true | _ => false end.

Definition is_new_session (e : event) : bool :=
  match e with EvNewSession => true | _ => false end.

Definition is_close_connector (e : event) : bool :=
  match e with EvCloseConnector => true | _ => false end.

Definition is_open_config (e : event) : bool :=
  match e with EvOpenConfig => true | _ => false end.

Definition is_requests_post (e : event) : bool :=
  match e with EvRequestsPost _ _ _ _ => true | _ => false end.

Definition is_session_post (e : event) : bool :=
  match e with EvSessionPost _ _ _ => true | _ => false end.

(** The log agrees with the fields: the pool was built once if it is
    there and never otherwise, likewise the session; it was closed once if
    it is closed; a session is never there without the pool; and a
    configuration file that loads was opened once if the configuration is
    cached and never otherwise. *)
Definition lifecycle (env : Env) (s : State) : Prop :=
  count is_new_connector (trace s)
  = match c_connector (self s) with Some _ => 1 | None => 0 end
  /\ count is_new_session (trace s)
     = match c_session (self s) with Some _ => 1 | None => 0 end
  /\ count is_close_connector (trace s)
     = match c_connector (self s) with
       | Some k => if closed k then 1 else 0
       | None => 0
       end
  /\ (c_session (self s) <> None -> c_connector (self s) <> None)
  /\ (is_ok (config_toml env) = true ->
      count is_open_config (trace s)
      = match c_config (self s) with Some _ => 1 | None => 0 end).

(** What no call undoes: the identifier, the base address and the
    semaphore stay; a cached configuration and a built session stay; the
    pool stays and is not reopened; the script is only read forward and
    the log only grows. *)
Definition never_undone (s s1 : State) : Prop :=
  c_uuid (self s1) = c_uuid (self s)
  /\ c_base_url (self s1) = c_base_url (self s)
  /\ c_sem (self s1) = c_sem (self s)
  /\ (forall cfg, c_config (self s) = Some cfg -> c_config (self s1) = Some cfg)
  /\ (forall x, c_session (self s) = Some x -> c_session (self s1) = Some x)
  /\ (forall k, c_connector (self s) = Some k ->
        exists k', c_connector (self s1) = Some k'
                   /\ ssl k' = ssl k /\ keepalive_timeout k' = keepalive_timeout k
                   /\ limit k' = limit k
                   /\ (closed k = true -> closed k' = true))
  /\ n_time s <= n_time s1
  /\ n_requests_post s <= n_requests_post s1
  /\ n_session_post s <= n_session_post s1
  /\ exists evs, trace s1 = (trace s ++ evs)%list.

(** The run from [s] to [s1] made at most [a] POSTs through the session
    and at most [b] login POSTs. *)
Definition within (a b : nat) (s s1 : State) : Prop :=
  n_session_post s <= n_session_post s1 <= n_session_post s + a
  /\ n_requests_post s <= n_requests_post s1 <= n_requests_post s + b.

(** The run from [s] to [s1] added at most [n] pauses of [retrying], each
    of 3 milliseconds. *)
Definition naps (n : nat) (s s1 : State) : Prop :=
  exists j, j <= n /\ time_sleeps (trace s1) = (time_sleeps (trace s) ++ repeat 3%Z j)%list.

(** [s.count('-')] *)
Fixpoint count_hyphens (s : string) : nat :=
  match s with
  | EmptyString => 0
  | String c rest => (if Ascii.eqb c "-"%char then 1 else 0) + count_hyphens rest
  end.

(** The configuration has what a login reads: what [pa] reads, the
    [appInfo] blob and the credentials. *)
Definition config_login_ready (cfg : pyobj) : bool :=
  is_str (lookup2 cfg "paInfo" "PostKey")
  && is_str (lookup2 cfg "paInfo" "PostKeyVersion")
  && is_ok (lookup2 cfg "Headers" "appInfo")
  && is_ok (lookup2 cfg "userInfo" "username")
  && is_ok (lookup2 cfg "userInfo" "password").

(** A run keeps the log and the fields in agreement. *)
Definition keeps_lifecycle (env : Env) (s s1 : State) : Prop :=
  lifecycle env s -> lifecycle env s1.

(** A run adds no pause of [tenacity]. *)
Definition same_sleeps (s s1 : State) : Prop :=
  asyncio_sleeps (trace s1) = asyncio_sleeps (trace s).

(** An attempt of [__apost] fails on this outcome of the POST: the POST
    itself failed, or the reply is no mapping, so that [.get] raises. *)
Definition attempt_fails (reply : result pyobj) : bool :=
  match reply with
  | Raise _ => true
  | OK r => negb (is_ok (dict_get r "message"))
  end.

(** The error of such an attempt. *)
Definition attempt_error (reply : result pyobj) : exn :=
  match reply with
  | Raise e => e
  | OK r => match dict_get r "message" with
            | Raise e => e
            | OK _ => AttributeError
            end
  end.

(** The settings the pool and the session are built with. *)
Definition fixed_policy (s : State) : Prop :=
  (forall k, c_connector (self s) = Some k ->
             ssl k = false /\ keepalive_timeout k = 60%Z /\ limit k = 0%Z)
  /\ (forall x, c_session (self s) = Some x ->
                x = ClientSession (URL_build "https" "pocketapi.48.cn" EmptyString) 3)
  /\ c_base_url (self s) = URL_build "https" "pocketapi.48.cn" EmptyString.

(* ===================================================================== *)
(** * Further concrete worlds *)
(* ===================================================================== *)

Module Scenario.

(** A configuration whose [PostKeyVersion] is a TOML integer. *)
Definition cfg_integer_version : pyobj :=
  PyDict {[ "paInfo" := PyDict {[ "PostKey" := PyStr "secret";
                                  "PostKeyVersion" := PyInt 1 ]};
            "userInfo" := PyDict {[ "username" := PyStr "13800000000";
                                    "password" := PyStr "pw" ]};
            "Headers" := PyDict {[ "user_agent" := PyStr "PocketFans201807/6.0.16";
                                   "content_type" := PyStr "application/json;charset=utf-8";
                                   "host" := PyStr "pocketapi.48.cn";
                                   "appInfo" := PyDict {[ "vendor" := PyStr "apple" ]} ]} ]}.

Definition env_integer_version : Env :=
  mkEnv true "123e4567-e89b-12d3-a456-426614174000" (OK cfg_integer_version)
        (fun k => 1700000000000 + Z.of_nat k)%Z Sample.logins_ok Sample.posts_ok.

(** A world in which [config.toml] cannot be opened. *)
Definition env_unreadable : Env :=
  mkEnv true "123e4567-e89b-12d3-a456-426614174000" (Raise OSError)
        (fun k => 1700000000000 + Z.of_nat k)%Z Sample.logins_ok Sample.posts_ok.

(** Login POSTs that always time out. *)
Definition logins_timeout : nat -> result pyobj := fun _ => Raise TimeoutError.

(** One login POST refused, then a reply without [content]. *)
Definition logins_refused_then_no_content : nat -> result pyobj :=
  fun k => match k with
           | O => Raise ConnectionError
           | _ => OK Sample.no_content
           end.

(** A reply that is a JSON array, a timeout, then the payload. *)
Definition posts_array_timeout_payload : nat -> result pyobj :=
  fun k => match k with
           | 0 => OK (PyList [])
           | 1 => Raise TimeoutError
           | _ => OK Sample.payload
           end.

(** Calls of a client's life: two requests, each followed by leaving the
    scope, and a last look at the session. *)
Definition two_scopes : list call :=
  [CallGetUserInfo 5; CallAexit; CallGetRoomInfo 7; CallAexit; CallSession].

(** Fifty calls of [get_userInfo]'s request on one client. *)
Definition requests : list Gate.request :=
  repeat (Sample.url, Sample.params, PyNone) 50.

(** Every task in turn builds its headers and reaches the gate. *)
Definition all_reach_the_gate : list nat :=
  concat (map (fun i => [i; i]) (seq 0 50)).

End Scenario.

(* ===================================================================== *)
(** * Checks of the library functions and of the sample data *)
(* ===================================================================== *)

(** Known answers of the two library functions (RFC 1321, RFC 4648). *)
Example md5_empty : MD5.hexdigest (encode EmptyString) = "d41d8cd98f00b204e9800998ecf8427e".
Proof. vm_compute. reflexivity. Qed.

Example md5_abc : MD5.hexdigest (encode "abc") = "900150983cd24fb0d6963f7d28e17f72".
Proof. vm_compute. reflexivity. Qed.

Example md5_two_blocks :
  MD5.hexdigest
    (encode "12345678901234567890123456789012345678901234567890123456789012345678901234567890")
  = "57edf4a22be3c955ac49da2e2107b67a".
Proof. vm_compute. reflexivity. Qed.

Example b64_foobar : decode (Base64.b64encode (encode "foobar")) = "Zm9vYmFy".
Proof. vm_compute. reflexivity. Qed.

Example b64_fooba : decode (Base64.b64encode (encode "fooba")) = "Zm9vYmE=".
Proof. vm_compute. reflexivity. Qed.

Example b64_foob : decode (Base64.b64encode (encode "foob")) = "Zm9vYg==".
Proof. vm_compute. reflexivity. Qed.

Example str_of_int_ms : str_of_int 1700000000123 = "1700000000123".
Proof. vm_compute. reflexivity. Qed.

Example init_sample logins posts :
  __init__ (Sample.env logins posts) = OK Sample.client.
Proof. reflexivity. Qed.

Example golden_vector :
  computeSignature "1700000000000" "123e4567e89b12d3a456426614174000" "secret" "v0.0.1"
  = "MTcwMDAwMDAwMDAwMCwxMjNlNDU2N2U4OWIxMmQzYTQ1NjQyNjYxNDE3NDAwMCxlYzk0NTAyNTdjNzUxNmIzY2Y2NTI1ZDI0ZjI3NWFiNCx2MC4wLjE=".
Proof. vm_compute. reflexivity. Qed.

(* ===================================================================== *)
(** * Construction and teardown *)
(* ===================================================================== *)

(** C10. Constructing a [Client] outside a running event loop raises (the
    [RuntimeError] of [asyncio.get_running_loop]) and no client object is
    returned. *)
Theorem init_requires_running_loop (env : Env) :
  running_loop env = false -> __init__ env = Raise RuntimeError.
Proof.
  intros Hloop. unfold __init__, get_running_loop. now rewrite Hloop.
Qed.

Lemma init_requires_running_loop_witness :
  running_loop Sample.env_no_loop = false
  /\ __init__ Sample.env_no_loop = Raise RuntimeError.
Proof.
  split; [reflexivity | apply (init_requires_running_loop Sample.env_no_loop); reflexivity].
Defined.

(** Inside a running loop the constructor returns a client whose pool,
    session and configuration are not yet created. *)
Lemma init_in_running_loop (env : Env) :
  running_loop env = true ->
  exists c, __init__ env = OK c
            /\ c_connector c = None /\ c_session c = None /\ c_config c = None
            /\ c_sem c = 10 /\ token (c_login_user c) = PyNone.
Proof.
  intros Hloop. unfold __init__, get_running_loop. rewrite Hloop.
  eexists. split; [reflexivity | repeat split].
Qed.

(** C6, at a client that never made a request: leaving the managed scope
    builds a connection pool and closes it at once, because [__aexit__]
    tests the property [connector], which creates the pool, and not the
    field. *)
Theorem aexit_on_unused_client_acquires (env : Env) (c : Client) :
  __init__ env = OK c ->
  let run := __aexit__ env (start c) in
  fst run = OK tt
  /\ resource_events (trace (snd run)) = [EvNewConnector; EvCloseConnector]
  /\ c_connector (self (snd run)) = Some (TCPConnector false 60 0 true).
Proof.
  unfold __init__. destruct (get_running_loop env); [|discriminate].
  intros [= <-]. cbv zeta. repeat split.
Qed.

Lemma aexit_on_unused_client_acquires_witness :
  let run := __aexit__ (Sample.env Sample.logins_ok Sample.posts_ok) (start Sample.client) in
  fst run = OK tt
  /\ resource_events (trace (snd run)) = [EvNewConnector; EvCloseConnector]
  /\ c_connector (self (snd run)) = Some (TCPConnector false 60 0 true).
Proof.
  apply (aexit_on_unused_client_acquires
           (Sample.env Sample.logins_ok Sample.posts_ok) Sample.client).
  reflexivity.
Defined.

(** The pool and the session are singletons: once built, the properties
    return them without building anything. *)
Lemma connector_singleton (env : Env) (s : State) (k : Connector) :
  c_connector (self s) = Some k -> connector env s = (OK (Some k), s).
Proof.
  intros Hk. unfold connector, bind, gets. simpl. rewrite Hk. simpl. now rewrite Hk.
Qed.

Lemma session_singleton (env : Env) (s : State) (x : Session) :
  c_session (self s) = Some x -> session env s = (OK (Some x), s).
Proof.
  intros Hx. unfold session, bind, gets. simpl. rewrite Hx. simpl. now rewrite Hx.
Qed.

(** Leaving the scope of a client whose pool is already closed changes
    nothing. *)
Lemma aexit_when_closed (env : Env) (s : State) (k : Connector) :
  c_connector (self s) = Some k -> closed k = true -> __aexit__ env s = (OK tt, s).
Proof.
  intros Hk Hclosed. unfold __aexit__, bind.
  rewrite (connector_singleton env s k Hk).
  rewrite (connector_singleton env s k Hk).
  unfold close. now rewrite Hclosed.
Qed.

(* ===================================================================== *)
(** * Session invalidation *)
(* ===================================================================== *)

(** C1, at a reply [{"message": "非法授权"}]: the dispatcher logs in again
    (the stored token becomes the new one) and then falls off the end of
    [__apost]: one POST is made, [None] is returned although the next
    reply in the script is the real payload, and the endpoint method fails
    on [None['content']]. *)
Theorem invalidated_reply_is_dropped :
  let env := Sample.env Sample.logins_ok Sample.posts_invalidated_then_payload in
  let s := start (Sample.logged_in "T0") in
  let run := __apost Sample.dumps Sample.url Sample.params PyNone env s in
  session_post env 0 = OK Sample.invalidated
  /\ session_post env 1 = OK Sample.payload
  /\ fst run = OK PyNone
  /\ n_session_post (snd run) = 1
  /\ n_requests_post (snd run) = 1
  /\ token (c_login_user (self (snd run))) = PyStr "T1"
  /\ asyncio_sleeps (trace (snd run)) = []
  /\ fst (get_userInfo Sample.dumps 5 env s) = Raise TypeError.
Proof.
  cbv zeta. repeat split; vm_compute; reflexivity.
Qed.

(* ===================================================================== *)
(** * Login *)
(* ===================================================================== *)

(** C5, at a login whose first POST times out and whose second succeeds:
    the pause between the two attempts is 3 milliseconds, the unit of
    [retrying]'s [wait_fixed], not 3 seconds. *)
Theorem login_backoff_is_3_milliseconds :
  let env := Sample.env Sample.logins_timeout_then_ok Sample.posts_ok in
  let run := user_login Sample.dumps env (start Sample.client) in
  fst run = OK tt
  /\ n_requests_post (snd run) = 2
  /\ token (c_login_user (self (snd run))) = PyStr "T1"
  /\ time_sleeps (trace (snd run)) = [3%Z]
  /\ time_sleeps (trace (snd run)) <> [3000%Z].
Proof.
  cbv zeta. repeat split; try (vm_compute; reflexivity).
  vm_compute. discriminate.
Qed.

(* ===================================================================== *)
(** * Concrete runs that contradict the specification *)
(* ===================================================================== *)

(** C3 as stated fails: when all five attempts time out, the caller does
    not receive the last [TimeoutError] but a [RetryError] wrapping it. *)
Lemma exhausted_retries_raise_RetryError :
  let env := Sample.env Sample.logins_ok Sample.posts_timeout in
  let run := __apost Sample.dumps Sample.url Sample.params PyNone
                     env (start (Sample.logged_in "T0")) in
  (forall k, session_post env k = Raise TimeoutError)
  /\ n_session_post (snd run) = 5
  /\ fst run = Raise (RetryError TimeoutError)
  /\ fst run <> Raise TimeoutError.
Proof.
  cbv zeta. split; [reflexivity|].
  split; [vm_compute; reflexivity|].
  split; [vm_compute; reflexivity|].
  vm_compute. discriminate.
Qed.

(** C4 as stated fails: a reply that cannot be decoded on the first
    attempt is not surfaced; the request is sent again and the second
    reply is returned. *)
Lemma decode_failure_is_retried :
  let env := Sample.env Sample.logins_ok Sample.posts_undecodable_then_payload in
  let run := __apost Sample.dumps Sample.url Sample.params PyNone
                     env (start (Sample.logged_in "T0")) in
  session_post env 0 = Raise JSONDecodeError
  /\ fst run = OK Sample.payload
  /\ n_session_post (snd run) = 2
  /\ ~ (fst run = Raise JSONDecodeError /\ n_session_post (snd run) = 1).
Proof.
  cbv zeta. split; [reflexivity|].
  split; [vm_compute; reflexivity|].
  split; [vm_compute; reflexivity|].
  intros [H _]. vm_compute in H. discriminate.
Qed.

(** C7, at a login whose reply carries a [userInfo] without a token:
    [headers] tests the token once, before the login, and not again after
    it.  The login succeeds, the stored token is still absent, and the
    mapping [headers] returns holds [None] as its [token]. *)
Theorem headers_token_absent_after_login :
  let env := Sample.env Sample.logins_no_token Sample.posts_ok in
  let run := headers Sample.dumps env (start Sample.client) in
  requests_post env 0 = OK Sample.login_reply_no_token
  /\ n_requests_post (snd run) = 1
  /\ token (c_login_user (self (snd run))) = PyNone
  /\ exists h, fst run = OK (PyDict h)
               /\ h !! "token" = Some PyNone
               /\ is_signed (PyDict h) = true.
Proof.
  cbv zeta. split; [reflexivity|].
  split; [vm_compute; reflexivity|].
  split; [vm_compute; reflexivity|].
  eexists. split; [vm_compute; reflexivity|].
  split; vm_compute; reflexivity.
Qed.

(** C8 as stated fails: a reply without [content] does not make the
    endpoint methods fail with an error of their own.  What the caller
    receives is the [KeyError] of the subscript [res_json['content']], and
    the [TypeError] of subscripting [None] when the dispatcher returned
    nothing. *)
Lemma missing_content_raises_KeyError :
  let s := start (Sample.logged_in "T0") in
  let env := Sample.env Sample.logins_ok Sample.posts_no_content in
  let env' := Sample.env Sample.logins_ok Sample.posts_invalidated_then_payload in
  session_post env 0 = OK Sample.no_content
  /\ getitem Sample.no_content "content" = Raise (KeyError "content")
  /\ fst (get_starBasicInfo Sample.dumps 5 env s) = Raise (KeyError "content")
  /\ fst (get_userInfo Sample.dumps 5 env s) = Raise (KeyError "content")
  /\ fst (get_roomInfo Sample.dumps 5 env s) = Raise (KeyError "content")
  /\ fst (__apost Sample.dumps Sample.url Sample.params PyNone env' s) = OK PyNone
  /\ fst (get_userInfo Sample.dumps 5 env' s) = Raise TypeError.
Proof.
  cbv zeta. repeat split; vm_compute; reflexivity.
Qed.

(* ===================================================================== *)
(** * General properties of the methods *)
(* ===================================================================== *)

Lemma asyncio_sleeps_app (tr1 tr2 : list event) :
  asyncio_sleeps (tr1 ++ tr2) = (asyncio_sleeps tr1 ++ asyncio_sleeps tr2)%list.
Proof.
  induction tr1 as [|e tr1 IH]; [reflexivity|].
  destruct e; simpl; rewrite IH; reflexivity.
Qed.

Section Properties.
Variable json_dumps : pyobj -> string.
Variable env : Env.

Lemma loaded_cache_config cfg s :
  loaded_config env s = OK cfg -> loaded_config env (cache_config cfg s) = OK cfg.
Proof.
  unfold loaded_config, cache_config. destruct (c_config (self s)) eqn:E; simpl.
  - now rewrite E.
  - reflexivity.
Qed.

Lemma cache_config_idem cfg s :
  cache_config cfg (cache_config cfg s) = cache_config cfg s.
Proof.
  unfold cache_config. destruct (c_config (self s)) eqn:E; simpl.
  - now rewrite E.
  - reflexivity.
Qed.

Lemma config_ok cfg s :
  loaded_config env s = OK cfg -> config env s = (OK cfg, cache_config cfg s).
Proof.
  unfold loaded_config, cache_config, config, bind, gets. simpl.
  destruct (c_config (self s)) eqn:E; simpl.
  - now intros [= ->].
  - intros ->. reflexivity.
Qed.

Lemma config_fail e s :
  loaded_config env s = Raise e -> config env s = (Raise e, log EvOpenConfig s).
Proof.
  unfold loaded_config, config, bind, gets. simpl.
  destruct (c_config (self s)) eqn:E; simpl.
  - discriminate.
  - intros ->. reflexivity.
Qed.

Lemma config_item_ok cfg group key s :
  loaded_config env s = OK cfg ->
  config_item group key env s = (lookup2 cfg group key, cache_config cfg s).
Proof.
  intros H. unfold config_item, bind. rewrite (config_ok cfg s H).
  unfold lift, lookup2. destruct (getitem cfg group); reflexivity.
Qed.

Lemma config_item_fail e group key s :
  loaded_config env s = Raise e ->
  config_item group key env s = (Raise e, log EvOpenConfig s).
Proof.
  intros H. unfold config_item, bind. now rewrite (config_fail e s H).
Qed.

Lemma pa_spec cfg s :
  loaded_config env s = OK cfg ->
  pa env s =
    match lookup2 cfg "paInfo" "PostKey" with
    | Raise e => (Raise e, cache_config cfg s)
    | OK pk =>
        match lookup2 cfg "paInfo" "PostKeyVersion" with
        | Raise e => (Raise e, cache_config cfg s)
        | OK pv =>
            match as_str pk with
            | Raise e => (Raise e, tick (cache_config cfg s))
            | OK k =>
                match as_str pv with
                | Raise e => (Raise e, tick (cache_config cfg s))
                | OK v =>
                    (OK (computeSignature (str_of_int (time_ms env (n_time s)))
                                          (c_uuid (self s)) k v),
                     tick (cache_config cfg s))
                end
            end
        end
    end.
Proof.
  intros H. unfold pa, bind.
  rewrite (config_item_ok cfg _ _ s H).
  destruct (lookup2 cfg "paInfo" "PostKey") as [pk|e]; [|reflexivity].
  rewrite (config_item_ok cfg _ _ _ (loaded_cache_config cfg s H)).
  rewrite cache_config_idem.
  destruct (lookup2 cfg "paInfo" "PostKeyVersion") as [pv|e]; [|reflexivity].
  assert (Hu : c_uuid (self (cache_config cfg s)) = c_uuid (self s)).
  { unfold cache_config. destruct (c_config (self s)); reflexivity. }
  assert (Ht : n_time (cache_config cfg s) = n_time s).
  { unfold cache_config. destruct (c_config (self s)); reflexivity. }
  unfold gets, now_ms, lift, ret, computeSignature. fold (tick (cache_config cfg s)).
  rewrite Hu, Ht.
  destruct (as_str pk); [|reflexivity].
  destruct (as_str pv); reflexivity.
Qed.

Lemma pa_ok cfg k v s :
  loaded_config env s = OK cfg ->
  lookup2 cfg "paInfo" "PostKey" = OK (PyStr k) ->
  lookup2 cfg "paInfo" "PostKeyVersion" = OK (PyStr v) ->
  pa env s =
    (OK (computeSignature (str_of_int (time_ms env (n_time s))) (c_uuid (self s)) k v),
     tick (cache_config cfg s)).
Proof.
  intros H Hk Hv. rewrite (pa_spec cfg s H), Hk, Hv. reflexivity.
Qed.

Lemma as_str_inv o k : as_str o = OK k -> o = PyStr k.
Proof. destruct o; simpl; congruence. Qed.

Lemma pa_inv sig s s1 :
  pa env s = (OK sig, s1) ->
  exists cfg k v,
    loaded_config env s = OK cfg
    /\ lookup2 cfg "paInfo" "PostKey" = OK (PyStr k)
    /\ lookup2 cfg "paInfo" "PostKeyVersion" = OK (PyStr v)
    /\ sig = computeSignature (str_of_int (time_ms env (n_time s))) (c_uuid (self s)) k v
    /\ s1 = tick (cache_config cfg s).
Proof.
  intros Hpa. destruct (loaded_config env s) as [cfg|e] eqn:H.
  - rewrite (pa_spec cfg s H) in Hpa.
    destruct (lookup2 cfg "paInfo" "PostKey") as [pk|e] eqn:Hpk; [|discriminate].
    destruct (lookup2 cfg "paInfo" "PostKeyVersion") as [pv|e] eqn:Hpv; [|discriminate].
    destruct (as_str pk) as [k|e] eqn:Hk; [|discriminate].
    destruct (as_str pv) as [v|e] eqn:Hv; [|discriminate].
    apply as_str_inv in Hk, Hv. subst pk pv.
    injection Hpa as <- <-. exists cfg, k, v. repeat split; assumption.
  - exfalso. revert Hpa. unfold pa, bind.
    rewrite (config_item_fail e _ _ s H). discriminate.
Qed.

Lemma cache_config_core cfg s :
  c_login_user (self (cache_config cfg s)) = c_login_user (self s)
  /\ c_uuid (self (cache_config cfg s)) = c_uuid (self s)
  /\ n_time (cache_config cfg s) = n_time s
  /\ n_requests_post (cache_config cfg s) = n_requests_post s
  /\ n_session_post (cache_config cfg s) = n_session_post s
  /\ asyncio_sleeps (trace (cache_config cfg s)) = asyncio_sleeps (trace s).
Proof.
  unfold cache_config. destruct (c_config (self s)); simpl; repeat split.
  rewrite asyncio_sleeps_app. simpl. apply app_nil_r.
Qed.

Lemma andb_true_6 a b c d e f :
  a && b && c && d && e && f = true ->
  a = true /\ b = true /\ c = true /\ d = true /\ e = true /\ f = true.
Proof. destruct a, b, c, d, e, f; simpl; intuition congruence. Qed.

(** On a ready client [headers] reads the clock once and does nothing else
    beyond caching the configuration. *)
Lemma headers_ready s :
  ready env s = true ->
  exists cfg h,
    loaded_config env s = OK cfg
    /\ headers json_dumps env s = (OK (PyDict h), tick (cache_config cfg s)).
Proof.
  unfold ready. destruct (loaded_config env s) as [cfg|e] eqn:H; [|discriminate].
  intros Hr. apply andb_true_iff in Hr as [Hcfg Htok].
  apply andb_true_6 in Hcfg as (H1 & H2 & H3 & H4 & H5 & H6).
  destruct (lookup2 cfg "Headers" "user_agent") as [ua|] eqn:E1; [|discriminate].
  destruct (lookup2 cfg "Headers" "content_type") as [ct|] eqn:E2; [|discriminate].
  destruct (lookup2 cfg "Headers" "host") as [ho|] eqn:E3; [|discriminate].
  destruct (lookup2 cfg "Headers" "appInfo") as [ai|] eqn:E4; [|discriminate].
  destruct (lookup2 cfg "paInfo" "PostKey") as [[| | |k| |]|] eqn:E5; try discriminate.
  destruct (lookup2 cfg "paInfo" "PostKeyVersion") as [[| | |v| |]|] eqn:E6; try discriminate.
  pose proof (loaded_cache_config cfg s H) as H'.
  pose proof (cache_config_core cfg s) as (Hu & _).
  exists cfg. eexists. split; [reflexivity|].
  unfold headers, bind.
  rewrite (config_item_ok cfg _ _ s H), E1.
  rewrite (config_item_ok cfg _ _ _ H'), cache_config_idem, E2.
  rewrite (config_item_ok cfg _ _ _ H'), cache_config_idem, E3.
  rewrite (config_item_ok cfg _ _ _ H'), cache_config_idem, E2.
  rewrite (config_item_ok cfg _ _ _ H'), cache_config_idem, E4.
  unfold gets at 1. rewrite Hu.
  destruct (token (c_login_user (self s))) eqn:Et; try discriminate;
    unfold ret at 1;
    rewrite (pa_ok cfg k v _ H' E5 E6), cache_config_idem;
    unfold gets, ret; reflexivity.
Qed.

Lemma bind_eq {A B} (c : M A) (k : A -> M B) s r s1 :
  c env s = (r, s1) ->
  bind c k env s = match r with
                   | OK a => k a env s1
                   | Raise e => (Raise e, s1)
                   end.
Proof. intros H. unfold bind. now rewrite H. Qed.

(** The block under the semaphore: one POST, whose outcome is the
    outcome of the block. *)
Lemma gated_post_spec url params h s0 :
  exists s1,
    with_sem (_session <- session ;;
              res_json <- do_session_post url params h ;;
              emit (EvPrint res_json) ;;
              ret res_json) env s0
    = (session_post env (n_session_post s0), s1)
    /\ same_core s0 s1 /\ n_session_post s1 = S (n_session_post s0).
Proof.
  unfold with_sem, finally, session, connector, do_session_post, bind, gets, modify,
    emit, ret, same_core, log, with_self.
  simpl.
  destruct (c_session (self s0)) eqn:Es; simpl.
  - 
    destruct (session_post env (n_session_post s0)); simpl;
      (eexists; split; [reflexivity|]; simpl;
       rewrite !asyncio_sleeps_app; simpl; rewrite ?app_nil_r; repeat split).
  - destruct (c_connector (self s0)) eqn:Ec; simpl.
    + 
      destruct (session_post env (n_session_post s0)); simpl;
        (eexists; split; [reflexivity|]; simpl;
         rewrite !asyncio_sleeps_app; simpl; rewrite ?app_nil_r; repeat split).
    + destruct (session_post env (n_session_post s0)); simpl;
        (eexists; split; [reflexivity|]; simpl;
         rewrite !asyncio_sleeps_app; simpl; rewrite ?app_nil_r; repeat split).
Qed.

Lemma ready_frame s s1 :
  loaded_config env s1 = loaded_config env s ->
  c_login_user (self s1) = c_login_user (self s) ->
  ready env s1 = ready env s.
Proof. intros H1 H2. unfold ready. now rewrite H1, H2. Qed.

Lemma headers_at_hand_frame hdrs s s1 :
  loaded_config env s1 = loaded_config env s ->
  c_login_user (self s1) = c_login_user (self s) ->
  headers_at_hand hdrs env s1 = headers_at_hand hdrs env s.
Proof. intros H1 H2. destruct hdrs; simpl; auto using ready_frame. Qed.

(** The headers stage of an attempt, when headers are at hand. *)
Lemma headers_stage hdrs s :
  headers_at_hand hdrs env s = true ->
  exists h s0,
    match hdrs with
    | PyNone => headers json_dumps
    | h => ret h
    end env s = (OK h, s0)
    /\ loaded_config env s0 = loaded_config env s
    /\ c_login_user (self s0) = c_login_user (self s)
    /\ n_requests_post s0 = n_requests_post s
    /\ n_session_post s0 = n_session_post s
    /\ asyncio_sleeps (trace s0) = asyncio_sleeps (trace s).
Proof.
  intros Hh.
  destruct hdrs; try (eexists; exists s; split; [reflexivity | repeat split]).
  simpl in Hh. destruct (headers_ready s Hh) as (cfg & h & Hl & Hrun).
  exists (PyDict h), (tick (cache_config cfg s)). split; [exact Hrun|].
  pose proof (cache_config_core cfg s) as (Hu & _ & _ & Hr & Hs & Ha).
  pose proof (loaded_cache_config cfg s Hl) as Hl'.
  unfold loaded_config in *. simpl. rewrite Hl. repeat split; assumption.
Qed.

Lemma attempt_outcome url params hdrs s :
  headers_at_hand hdrs env s = true ->
  exists s1,
    attempt_frame env s s1
    /\ match session_post env (n_session_post s) with
       | Raise e =>
           __apost_attempt json_dumps url params hdrs env s = (Raise e, s1)
       | OK r =>
           forall m, dict_get r "message" = OK m -> is_invalidation m = false ->
                     __apost_attempt json_dumps url params hdrs env s = (OK r, s1)
       end.
Proof.
  intros Hh. destruct (headers_stage hdrs s Hh) as (h & s0 & E0 & Hl & Hu & Hr & Hs & Ha).
  destruct (gated_post_spec url params h s0) as (s1 & E1 & (Hc & Hu1 & _ & _ & Hr1 & Ha1) & Hs1).
  exists s1. split.
  - unfold attempt_frame, loaded_config in *. rewrite Hc. repeat split; congruence.
  - unfold __apost_attempt. rewrite (bind_eq _ _ _ _ _ E0).
    rewrite (bind_eq _ _ _ _ _ E1). rewrite Hs.
    destruct (session_post env (n_session_post s)) as [r|e]; [|reflexivity].
    intros m Hm Hi. unfold bind, lift. rewrite Hm, Hi. reflexivity.
Qed.

(** [k] failed attempts in a row: the loop has slept [k] times and is
    about to make attempt [k + 1]. *)
Lemma tenacity_failures url params hdrs k :
  forall more s,
    k <= more ->
    headers_at_hand hdrs env s = true ->
    (forall i, i < k -> fails_with (fun _ => true) (session_post env (n_session_post s + i)) = true) ->
    exists sk,
      tenacity_loop more 3 (__apost_attempt json_dumps url params hdrs) env s
      = tenacity_loop (more - k) 3 (__apost_attempt json_dumps url params hdrs) env sk
      /\ headers_at_hand hdrs env sk = true
      /\ n_session_post sk = n_session_post s + k
      /\ asyncio_sleeps (trace sk) = (asyncio_sleeps (trace s) ++ repeat 3%Z k)%list.
Proof.
  induction k as [|k IH]; intros more s Hk Hh Hf.
  - exists s. rewrite Nat.sub_0_r, Nat.add_0_r. simpl. rewrite app_nil_r. auto.
  - destruct more as [|m]; [lia|].
    destruct (attempt_outcome url params hdrs s Hh) as (s1 & (Hl & Hu & Hr & Ha & Hs) & Hrun).
    pose proof (Hf 0 ltac:(lia)) as H0. rewrite Nat.add_0_r in H0.
    destruct (session_post env (n_session_post s)) as [r|e]; [discriminate|].
    destruct (IH m (log (EvAsyncioSleep 3) s1)) as (sk & E & Hh' & Hs' & Ha').
    + lia.
    + rewrite (headers_at_hand_frame hdrs s (log (EvAsyncioSleep 3) s1)); auto.
    + intros i Hi. simpl. rewrite Hs. specialize (Hf (S i) ltac:(lia)).
      now replace (S (n_session_post s) + i) with (n_session_post s + S i) by lia.
    + exists sk. split; [|split; [exact Hh'|split]].
      * simpl. rewrite Hrun. exact E.
      * rewrite Hs'. simpl. rewrite Hs. lia.
      * rewrite Ha'. simpl. rewrite asyncio_sleeps_app, Ha. simpl.
        rewrite <- app_assoc. reflexivity.
Qed.
Lemma fails_with_any P r : fails_with P r = true -> fails_with (fun _ => true) r = true.
Proof. destruct r; simpl; [discriminate | reflexivity]. Qed.

(** [__apost] after [k] failed attempts, whatever the failures were:
    attempt [k + 1] decides. *)
Lemma apost_after_failures url params hdrs s k :
  headers_at_hand hdrs env s = true ->
  k <= 4 ->
  (forall i, i < k ->
     fails_with (fun _ => true) (session_post env (n_session_post s + i)) = true) ->
  exists s1,
    n_session_post s1 = n_session_post s + k + 1
    /\ asyncio_sleeps (trace s1) = (asyncio_sleeps (trace s) ++ repeat 3%Z k)%list
    /\ match session_post env (n_session_post s + k) with
       | OK r =>
           forall m, dict_get r "message" = OK m -> is_invalidation m = false ->
                     __apost json_dumps url params hdrs env s = (OK r, s1)
       | Raise e =>
           k = 4 -> __apost json_dumps url params hdrs env s = (Raise (RetryError e), s1)
       end.
Proof.
  intros Hh Hk Hf. unfold __apost, aretry. change (5 - 1) with 4.
  destruct (tenacity_failures url params hdrs k 4 s Hk Hh Hf) as (sk & E & Hh' & Hs & Ha).
  destruct (attempt_outcome url params hdrs sk Hh') as (s1 & (_ & _ & _ & Ha1 & Hs1) & Hrun).
  exists s1. split; [lia|]. split; [congruence|].
  rewrite E. rewrite Hs in Hrun.
  destruct (session_post env (n_session_post s + k)) as [r|e].
  - intros m Hm Hi. specialize (Hrun m Hm Hi).
    destruct (4 - k); simpl; rewrite Hrun; reflexivity.
  - intros ->. simpl. rewrite Hrun. reflexivity.
Qed.

(** In terms of the script of replies, for a client with headers at hand:
    if the first [k <= 4] POSTs fail with a transport error, then a
    mapping on POST [k + 1] that is not a session invalidation is what
    [__apost] returns, after [k + 1] POSTs and [k] pauses of 3 seconds; and
    if all five POSTs fail with a transport error, [__apost] raises
    [RetryError] wrapping the last one, after 5 POSTs and 4 pauses. *)
Lemma transport_failures_with_headers_at_hand url params hdrs s k :
  headers_at_hand hdrs env s = true ->
  k <= 4 ->
  (forall i, i < k ->
     fails_with is_transport_error (session_post env (n_session_post s + i)) = true) ->
  let run := __apost json_dumps url params hdrs env s in
  (forall r m,
     session_post env (n_session_post s + k) = OK r ->
     dict_get r "message" = OK m -> is_invalidation m = false ->
     fst run = OK r
     /\ n_session_post (snd run) = n_session_post s + k + 1
     /\ asyncio_sleeps (trace (snd run)) = (asyncio_sleeps (trace s) ++ repeat 3%Z k)%list)
  /\ (forall e,
        k = 4 ->
        session_post env (n_session_post s + 4) = Raise e -> is_transport_error e = true ->
        fst run = Raise (RetryError e)
        /\ n_session_post (snd run) = n_session_post s + 5
        /\ asyncio_sleeps (trace (snd run))
           = (asyncio_sleeps (trace s) ++ [3; 3; 3; 3]%Z)%list).
Proof.
  intros Hh Hk Hf run.
  assert (Hany : forall i, i < k ->
            fails_with (fun _ => true) (session_post env (n_session_post s + i)) = true)
    by (intros i Hi; eapply fails_with_any; eauto).
  destruct (apost_after_failures url params hdrs s k Hh Hk Hany) as (s1 & Hs & Ha & Hrun).
  split.
  - intros r m Hr Hm Hi. rewrite Hr in Hrun. subst run. rewrite (Hrun m Hm Hi). auto.
  - intros e -> He _. rewrite He in Hrun. subst run. rewrite (Hrun eq_refl).
    simpl. repeat split; [lia | exact Ha].
Qed.

(** Likewise for replies that cannot be decoded: with headers at hand, if
    the first [k <= 4] replies fail on decoding, a mapping on POST [k + 1]
    that is not a session invalidation is returned after [k + 1] POSTs;
    and if all five fail on decoding, [__apost] raises [RetryError]
    wrapping the decode error after 5 POSTs. *)
Lemma decode_failures_with_headers_at_hand url params hdrs s k :
  headers_at_hand hdrs env s = true ->
  k <= 4 ->
  (forall i, i < k -> session_post env (n_session_post s + i) = Raise JSONDecodeError) ->
  let run := __apost json_dumps url params hdrs env s in
  (forall r m,
     session_post env (n_session_post s + k) = OK r ->
     dict_get r "message" = OK m -> is_invalidation m = false ->
     fst run = OK r /\ n_session_post (snd run) = n_session_post s + k + 1)
  /\ (k = 4 ->
      session_post env (n_session_post s + 4) = Raise JSONDecodeError ->
      fst run = Raise (RetryError JSONDecodeError)
      /\ n_session_post (snd run) = n_session_post s + 5).
Proof.
  intros Hh Hk Hf run.
  assert (Hany : forall i, i < k ->
            fails_with (fun _ => true) (session_post env (n_session_post s + i)) = true)
    by (intros i Hi; rewrite (Hf i Hi); reflexivity).
  destruct (apost_after_failures url params hdrs s k Hh Hk Hany) as (s1 & Hs & Ha & Hrun).
  split.
  - intros r m Hr Hm Hi. rewrite Hr in Hrun. subst run. rewrite (Hrun m Hm Hi). auto.
  - intros -> He. rewrite He in Hrun. subst run. rewrite (Hrun eq_refl).
    simpl. split; [reflexivity | lia].
Qed.

Lemma bind_inv {A B} (c : M A) (k : A -> M B) s b s2 :
  bind c k env s = (OK b, s2) ->
  exists a s1, c env s = (OK a, s1) /\ k a env s1 = (OK b, s2).
Proof.
  unfold bind. destruct (c env s) as [[a|e] s1]; [eauto | discriminate].
Qed.

Lemma cache_config_cached cfg s :
  loaded_config env s = OK cfg -> c_config (self (cache_config cfg s)) = Some cfg.
Proof.
  unfold loaded_config, cache_config. destruct (c_config (self s)) eqn:E; simpl.
  - intros [= ->]. exact E.
  - reflexivity.
Qed.

Lemma config_item_cached cfg group key s :
  c_config (self s) = Some cfg ->
  config_item group key env s = (lookup2 cfg group key, s).
Proof.
  intros Hc.
  assert (H : loaded_config env s = OK cfg) by (unfold loaded_config; now rewrite Hc).
  rewrite (config_item_ok cfg group key s H). unfold cache_config. now rewrite Hc.
Qed.

Lemma config_item_inv group key s v s1 :
  config_item group key env s = (OK v, s1) ->
  exists cfg, loaded_config env s = OK cfg
              /\ lookup2 cfg group key = OK v
              /\ s1 = cache_config cfg s.
Proof.
  intros H. destruct (loaded_config env s) as [cfg|e] eqn:Hl.
  - rewrite (config_item_ok cfg group key s Hl) in H. injection H as H <-. eauto.
  - rewrite (config_item_fail e group key s Hl) in H. discriminate.
Qed.

(** A successful [__rpost] returns the reply of one of the POSTs it made
    and touches nothing of the client. *)
Lemma retrying_loop_inv u p h t w more :
  forall s r s1,
    retrying_loop more w (do_requests_post u p h t) env s = (OK r, s1) ->
    self s1 = self s /\ n_time s1 = n_time s
    /\ exists j, n_requests_post s <= j < n_requests_post s1
                 /\ requests_post env j = OK r.
Proof.
  induction more as [|m IH]; intros s r s1; simpl;
    destruct (requests_post env (n_requests_post s)) as [r0|e] eqn:E.
  - intros [= <- <-]. simpl. repeat split. exists (n_requests_post s). split; [lia | exact E].
  - discriminate.
  - intros [= <- <-]. simpl. repeat split. exists (n_requests_post s). split; [lia | exact E].
  - intros H. apply IH in H as (Hself & Ht & j & Hj & Hr). simpl in *.
    repeat split; try assumption. exists j. split; [lia | exact Hr].
Qed.

(** [__rpost] makes at most three POSTs, and when all three fail it raises
    the error of the third; the pauses are of 3 milliseconds. *)
Lemma rpost_attempts u p h t s :
  let run := __rpost u p h t env s in
  self (snd run) = self s
  /\ n_requests_post s < n_requests_post (snd run) <= n_requests_post s + 3
  /\ (forall e, fst run = Raise e ->
        n_requests_post (snd run) = n_requests_post s + 3
        /\ requests_post env (n_requests_post s + 2) = Raise e)
  /\ time_sleeps (skipn (length (trace s)) (trace (snd run)))
     = repeat 3%Z (n_requests_post (snd run) - n_requests_post s - 1).
Proof.
  unfold __rpost, retry, do_requests_post. simpl.
  assert (Hskip : forall (l l' : list event), skipn (length l) (l ++ l') = l').
  { intros l l'. induction l; simpl; auto. }
  destruct (requests_post env (n_requests_post s)) as [r0|e0] eqn:E0; simpl.
  { repeat split; try lia; try discriminate.
    rewrite Hskip. replace (S (n_requests_post s) - n_requests_post s - 1) with 0 by lia.
    reflexivity. }
  destruct (requests_post env (S (n_requests_post s))) as [r1|e1] eqn:E1; simpl.
  { repeat split; try lia; try discriminate.
    rewrite <- !app_assoc, Hskip.
    replace (S (S (n_requests_post s)) - n_requests_post s - 1) with 1 by lia.
    reflexivity. }
  destruct (requests_post env (S (S (n_requests_post s)))) as [r2|e2] eqn:E2; simpl.
  { repeat split; try lia; try discriminate.
    rewrite <- !app_assoc, Hskip.
    replace (S (S (S (n_requests_post s))) - n_requests_post s - 1) with 2 by lia.
    reflexivity. }
  split; [reflexivity|]. split; [lia|]. split.
  - intros e [= <-]. split; [lia|].
    replace (n_requests_post s + 2) with (S (S (n_requests_post s))) by lia.
    exact E2.
  - rewrite <- !app_assoc, Hskip.
    replace (S (S (S (n_requests_post s))) - n_requests_post s - 1) with 2 by lia.
    reflexivity.
Qed.

Lemma tick_cached cfg s :
  loaded_config env s = OK cfg -> c_config (self (tick (cache_config cfg s))) = Some cfg.
Proof. intros H. simpl. now apply cache_config_cached. Qed.

(** A successful [user_login]: the stored login state is built from the
    [userInfo] of the reply of one of the POSTs made meanwhile. *)
Lemma user_login_inv s s1 :
  user_login json_dumps env s = (OK tt, s1) ->
  exists cfg,
    loaded_config env s = OK cfg
    /\ c_config (self s1) = Some cfg
    /\ c_uuid (self s1) = c_uuid (self s)
    /\ n_time s1 = S (n_time s)
    /\ exists j r c u,
         n_requests_post s <= j < n_requests_post s1
         /\ requests_post env j = OK r
         /\ getitem r "content" = OK c
         /\ getitem c "userInfo" = OK u
         /\ c_login_user (self s1) = mkLoginUserInfo u.
Proof.
  intros H. unfold user_login in H.
  apply bind_inv in H as (sig & sa & Hpa & H).
  apply pa_inv in Hpa as (cfg & k & v & Hl & _ & _ & _ & ->).
  pose proof (tick_cached cfg s Hl) as Hc.
  pose proof (cache_config_core cfg s) as (_ & Hu & Ht & Hr & _).
  rewrite (bind_eq _ _ _ _ _ (config_item_cached cfg "Headers" "appInfo" _ Hc)) in H.
  destruct (lookup2 cfg "Headers" "appInfo") as [ai|]; [|discriminate].
  rewrite (bind_eq _ _ _ _ _ (config_item_cached cfg "userInfo" "username" _ Hc)) in H.
  destruct (lookup2 cfg "userInfo" "username") as [un|]; [|discriminate].
  rewrite (bind_eq _ _ _ _ _ (config_item_cached cfg "userInfo" "password" _ Hc)) in H.
  destruct (lookup2 cfg "userInfo" "password") as [pw|]; [|discriminate].
  apply bind_inv in H as (r & sb & Hpost & H).
  unfold __rpost, retry in Hpost.
  apply retrying_loop_inv in Hpost as (Hself & Ht' & j & Hj & Hrj).
  apply bind_inv in H as (c & sc & Hcn & H). unfold lift in Hcn. injection Hcn as Hcn <-.
  apply bind_inv in H as (u & sd & Hui & H). unfold lift in Hui. injection Hui as Hui <-.
  unfold modify in H. injection H as <-.
  exists cfg. simpl in *. rewrite Hself. simpl.
  repeat split; try assumption; try lia.
  exists j, r, c, u. repeat split; try assumption; lia.
Qed.

Lemma update_pa_token_lookup d sig tok :
  update_pa_token d sig tok !! "pa" = Some (PyStr sig)
  /\ update_pa_token d sig tok !! "token" = Some tok.
Proof.
  unfold update_pa_token. split.
  - rewrite lookup_insert_ne by discriminate. apply lookup_insert_eq.
  - apply lookup_insert_eq.
Qed.

(** Whenever [headers] returns, the mapping holds a [pa] computed from a
    clock reading taken during the call and the [token] of the stored login
    state.  If a token was held, no login request was made; if none was
    held, a login was completed first and the stored state is the
    [userInfo] of its reply, so the [token] header is whatever that
    [userInfo] carries. *)
Lemma headers_carry_pa_and_stored_token s hv s' :
  headers json_dumps env s = (OK hv, s') ->
  exists h cfg k v t,
    hv = PyDict h
    /\ loaded_config env s = OK cfg
    /\ lookup2 cfg "paInfo" "PostKey" = OK (PyStr k)
    /\ lookup2 cfg "paInfo" "PostKeyVersion" = OK (PyStr v)
    /\ n_time s <= t < n_time s'
    /\ h !! "pa"
       = Some (PyStr (computeSignature (str_of_int (time_ms env t)) (c_uuid (self s)) k v))
    /\ h !! "token" = Some (token (c_login_user (self s')))
    /\ (is_None (token (c_login_user (self s))) = false ->
        c_login_user (self s') = c_login_user (self s)
        /\ n_requests_post s' = n_requests_post s)
    /\ (is_None (token (c_login_user (self s))) = true ->
        exists j r c u,
          n_requests_post s <= j < n_requests_post s'
          /\ requests_post env j = OK r
          /\ getitem r "content" = OK c
          /\ getitem c "userInfo" = OK u
          /\ c_login_user (self s') = mkLoginUserInfo u).
Proof.
  intros H. unfold headers in H.
  apply bind_inv in H as (ua & s0 & H1 & H).
  apply config_item_inv in H1 as (cfg & Hl & Hua & ->).
  pose proof (cache_config_cached cfg s Hl) as Hc.
  pose proof (cache_config_core cfg s) as (Hlu & Hu & Ht & Hr & _).
  rewrite (bind_eq _ _ _ _ _ (config_item_cached cfg "Headers" "content_type" _ Hc)) in H.
  destruct (lookup2 cfg "Headers" "content_type") as [ct|] eqn:Ect; [|discriminate].
  rewrite (bind_eq _ _ _ _ _ (config_item_cached cfg "Headers" "host" _ Hc)) in H.
  destruct (lookup2 cfg "Headers" "host") as [ho|]; [|discriminate].
  rewrite (bind_eq _ _ _ _ _ (config_item_cached cfg "Headers" "content_type" _ Hc)) in H.
  rewrite Ect in H.
  rewrite (bind_eq _ _ _ _ _ (config_item_cached cfg "Headers" "appInfo" _ Hc)) in H.
  destruct (lookup2 cfg "Headers" "appInfo") as [ai|]; [|discriminate].
  apply bind_inv in H as (u & sx & Hg & H). unfold gets in Hg. injection Hg as <- <-.
  apply bind_inv in H as ([] & sl & Hlogin & H).
  apply bind_inv in H as (sig & sp & Hpa & H).
  apply pa_inv in Hpa as (cfg' & k & v & Hl' & Hk & Hv & -> & ->).
  unfold bind, gets, ret in H. injection H as <- <-.
  rewrite Hlu in Hlogin.
  assert (Hsl : c_config (self sl) = Some cfg
                /\ c_uuid (self sl) = c_uuid (self s)
                /\ n_time s <= n_time sl
                /\ (is_None (token (c_login_user (self s))) = false ->
                    c_login_user (self sl) = c_login_user (self s)
                    /\ n_requests_post sl = n_requests_post s)
                /\ (is_None (token (c_login_user (self s))) = true ->
                    exists j r c u,
                      n_requests_post s <= j < n_requests_post sl
                      /\ requests_post env j = OK r
                      /\ getitem r "content" = OK c
                      /\ getitem c "userInfo" = OK u
                      /\ c_login_user (self sl) = mkLoginUserInfo u)).
  { destruct (token (c_login_user (self s))) eqn:Etok.
    1: { apply user_login_inv in Hlogin
           as (cfg2 & Hl2 & Hc2 & Hu2 & Ht2 & j & r & c & u & Hj & Hrj & Hcn & Hui & Hnew).
         assert (cfg2 = cfg) as ->
             by (unfold loaded_config in Hl2; rewrite Hc in Hl2; congruence).
         split; [assumption|]. split; [congruence|]. split; [lia|].
         split; [discriminate|].
         intros _. exists j, r, c, u. repeat split; try assumption; lia. }
    all: unfold ret in Hlogin; injection Hlogin as <-;
      (split; [assumption|]); (split; [assumption|]); (split; [lia|]);
      (split; [intros _; split; assumption | discriminate]). }
  destruct Hsl as (Hc' & Hu' & Ht' & Hheld & Hnone).
  assert (cfg' = cfg) as ->
      by (unfold loaded_config in Hl'; rewrite Hc' in Hl'; congruence).
  assert (Hid : cache_config cfg sl = sl) by (unfold cache_config; now rewrite Hc').
  rewrite Hid.
  destruct (update_pa_token_lookup
              {[ "User-Agent" := ua; "Content-Type" := ct; "Host" := ho;
                 "Connection" := PyStr "close"; "Accept-Encoding" := ct;
                 "appInfo" := PyStr (json_dumps ai) ]}
              (computeSignature (str_of_int (time_ms env (n_time sl))) (c_uuid (self sl)) k v)
              (token (c_login_user (self (tick sl)))))
    as (Hpa & Htok).
  rewrite Hu' in Hpa.
  eexists _, cfg, k, v, (n_time sl). split; [reflexivity|].
  rewrite Hu'.
  split; [assumption|]. split; [assumption|]. split; [assumption|].
  split; [simpl; lia|]. split; [assumption|]. split; [assumption|].
  split; assumption.
Qed.

Lemma pa_keeps_login r s s1 :
  pa env s = (r, s1) -> c_login_user (self s1) = c_login_user (self s).
Proof.
  intros H. destruct (loaded_config env s) as [cfg|e] eqn:Hl.
  - pose proof (cache_config_core cfg s) as (Hlu & _).
    rewrite (pa_spec cfg s Hl) in H.
    destruct (lookup2 cfg "paInfo" "PostKey") as [pk|]; [|injection H as _ <-; exact Hlu].
    destruct (lookup2 cfg "paInfo" "PostKeyVersion") as [pv|]; [|injection H as _ <-; exact Hlu].
    destruct (as_str pk); [|injection H as _ <-; exact Hlu].
    destruct (as_str pv); injection H as _ <-; exact Hlu.
  - unfold pa, bind in H. rewrite (config_item_fail e _ _ s Hl) in H.
    injection H as _ <-. reflexivity.
Qed.

(** A failed [user_login] leaves the stored login state as it was: the
    state is replaced only after [__rpost] returned and the reply was
    found to hold [content.userInfo]. *)
Lemma user_login_failure_keeps_login_user s e s1 :
  user_login json_dumps env s = (Raise e, s1) ->
  c_login_user (self s1) = c_login_user (self s).
Proof.
  intros H. unfold user_login in H.
  destruct (pa env s) as [[sig|e0] sa] eqn:Epa; rewrite (bind_eq _ _ _ _ _ Epa) in H;
    pose proof (pa_keeps_login _ _ _ Epa) as Hsa; [|injection H as _ <-; exact Hsa].
  apply pa_inv in Epa as (cfg & k & v & Hl & _ & _ & _ & ->).
  pose proof (tick_cached cfg s Hl) as Hc.
  rewrite (bind_eq _ _ _ _ _ (config_item_cached cfg "Headers" "appInfo" _ Hc)) in H.
  destruct (lookup2 cfg "Headers" "appInfo") as [ai|]; [|injection H as _ <-; exact Hsa].
  rewrite (bind_eq _ _ _ _ _ (config_item_cached cfg "userInfo" "username" _ Hc)) in H.
  destruct (lookup2 cfg "userInfo" "username") as [un|]; [|injection H as _ <-; exact Hsa].
  rewrite (bind_eq _ _ _ _ _ (config_item_cached cfg "userInfo" "password" _ Hc)) in H.
  destruct (lookup2 cfg "userInfo" "password") as [pw|]; [|injection H as _ <-; exact Hsa].
  match type of H with
  | bind (__rpost ?u ?p ?h ?t) _ _ ?s0 = _ =>
      pose proof (rpost_attempts u p h t s0) as (Hself & _);
      destruct (__rpost u p h t env s0) as [[r|e1] sb] eqn:Epost;
      rewrite (bind_eq _ _ _ _ _ Epost) in H
  end; simpl in Hself.
  2: { injection H as _ <-. now rewrite Hself. }
  unfold bind, lift, modify in H.
  destruct (getitem r "content") as [c|]; [|injection H as _ <-; now rewrite Hself].
  destruct (getitem c "userInfo") as [u|]; [discriminate|].
  injection H as _ <-. now rewrite Hself.
Qed.

Lemma projection_fails url params (ctor : pyobj -> record) s r s1 :
  is_ok (getitem r "content") = false ->
  __apost json_dumps url params PyNone env s = (OK r, s1) ->
  (res_json <- __apost json_dumps url params PyNone ;;
   content <- lift (getitem res_json "content") ;;
   ret (ctor content)) env s
  = (Raise match r with
           | PyDict _ => KeyError "content"
           | _ => TypeError
           end, s1).
Proof.
  intros Hc Hrun. rewrite (bind_eq _ _ _ _ _ Hrun). unfold bind, lift.
  destruct r as [| | | | |d]; try reflexivity.
  simpl in *. destruct (d !! "content"); [discriminate | reflexivity].
Qed.

(** C8, amended.  For each of the three endpoint methods: when the
    dispatcher returns something whose [content] cannot be read, the method
    raises and returns no record; the error is the one of the subscript,
    unwrapped: [KeyError('content')] when a mapping without that key came
    back and [TypeError] when no mapping came back. *)
Theorem endpoints_fail_without_content _id s r s1 :
  is_ok (getitem r "content") = false ->
  let e := match r with
           | PyDict _ => KeyError "content"
           | _ => TypeError
           end in
  (__apost json_dumps (URL_build EmptyString EmptyString "/user/api/v1/user/star/archives")
           (PyDict {[ "lastTime" := PyInt 0; "memberId" := PyInt _id; "limit" := PyInt 20 ]})
           PyNone env s = (OK r, s1) ->
   get_starBasicInfo json_dumps _id env s = (Raise e, s1))
  /\ (__apost json_dumps (URL_build EmptyString EmptyString "/user/api/v1/user/info/home")
              (PyDict {[ "userId" := PyInt _id ]}) PyNone env s = (OK r, s1) ->
      get_userInfo json_dumps _id env s = (Raise e, s1))
  /\ (__apost json_dumps (URL_build EmptyString EmptyString "/im/api/v1/im/room/info/type/source")
              (PyDict {[ "sourceId" := PyInt _id; "type" := PyInt 0 ]}) PyNone env s
      = (OK r, s1) ->
      get_roomInfo json_dumps _id env s = (Raise e, s1)).
Proof.
  intros Hc e. repeat split; intros Hrun.
  - exact (projection_fails _ _ StarBasicInfo s r s1 Hc Hrun).
  - exact (projection_fails _ _ UserBasicInfo s r s1 Hc Hrun).
  - exact (projection_fails _ _ BaseRoomInfo s r s1 Hc Hrun).
Qed.

(** Conversely a reply with [content] is projected into the record. *)
Lemma get_userInfo_projects _id s d c s1 :
  __apost json_dumps (URL_build EmptyString EmptyString "/user/api/v1/user/info/home")
          (PyDict {[ "userId" := PyInt _id ]}) PyNone env s = (OK (PyDict d), s1) ->
  d !! "content" = Some c ->
  get_userInfo json_dumps _id env s = (OK (UserBasicInfo c), s1).
Proof.
  intros Hrun Hc. unfold get_userInfo. rewrite (bind_eq _ _ _ _ _ Hrun).
  unfold bind, lift, ret. simpl. now rewrite Hc.
Qed.

End Properties.

(* ===================================================================== *)
(** * The signature *)
(* ===================================================================== *)

(** C2. For every clock reading, session identifier, [PostKey] and
    [PostKeyVersion] (the two configuration values being strings), [pa]
    returns the signature the specification describes, and so the same
    text whenever these four values are the same. *)
Theorem pa_is_computeSignature (env : Env) (s : State) (cfg : pyobj) (k v : string) :
  loaded_config env s = OK cfg ->
  lookup2 cfg "paInfo" "PostKey" = OK (PyStr k) ->
  lookup2 cfg "paInfo" "PostKeyVersion" = OK (PyStr v) ->
  fst (pa env s)
  = OK (computeSignature (str_of_int (time_ms env (n_time s))) (c_uuid (self s)) k v)
  /\ forall env' s' cfg',
       loaded_config env' s' = OK cfg' ->
       lookup2 cfg' "paInfo" "PostKey" = OK (PyStr k) ->
       lookup2 cfg' "paInfo" "PostKeyVersion" = OK (PyStr v) ->
       time_ms env' (n_time s') = time_ms env (n_time s) ->
       c_uuid (self s') = c_uuid (self s) ->
       fst (pa env' s') = fst (pa env s).
Proof.
  intros H Hk Hv. rewrite (pa_ok env cfg k v s H Hk Hv). split; [reflexivity|].
  intros env' s' cfg' H' Hk' Hv' Ht Hu.
  rewrite (pa_ok env' cfg' k v s' H' Hk' Hv'). simpl. now rewrite Ht, Hu.
Qed.

Lemma pa_is_computeSignature_witness :
  fst (pa (Sample.env Sample.logins_ok Sample.posts_ok) (start Sample.client))
  = OK (computeSignature "1700000000000" "123e4567e89b12d3a456426614174000"
                         "secret" "v0.0.1").
Proof.
  apply (pa_is_computeSignature (Sample.env Sample.logins_ok Sample.posts_ok)
           (start Sample.client) Sample.cfg "secret" "v0.0.1");
    vm_compute; reflexivity.
Defined.

(* ===================================================================== *)
(** * Concrete instances of the general theorems *)
(* ===================================================================== *)

(** After a login whose reply carries a token, the header is that token. *)
Lemma headers_carry_stored_token_example :
  let run := headers Sample.dumps (Sample.env Sample.logins_ok Sample.posts_ok)
                     (start Sample.client) in
  exists h, fst run = OK (PyDict h)
            /\ h !! "token" = Some (token (c_login_user (self (snd run)))).
Proof.
  intros run.
  assert (Hrun : run = (OK match fst run with
                           | OK hv => hv
                           | Raise _ => PyNone
                           end, snd run)) by (vm_compute; reflexivity).
  destruct (headers_carry_pa_and_stored_token Sample.dumps
              (Sample.env Sample.logins_ok Sample.posts_ok) (start Sample.client) _ _ Hrun)
    as (h & cfg & k & v & t & Hhv & _ & _ & _ & _ & _ & Htok & _).
  exists h. split; [|exact Htok].
  etransitivity; [exact (f_equal fst Hrun) | exact (f_equal OK Hhv)].
Defined.

Lemma endpoints_fail_without_content_witness :
  let env := Sample.env Sample.logins_ok Sample.posts_no_content in
  let s := start (Sample.logged_in "T0") in
  fst (get_userInfo Sample.dumps 5 env s) = Raise (KeyError "content").
Proof.
  intros env s.
  assert (Hrun : __apost Sample.dumps (URL_build EmptyString EmptyString "/user/api/v1/user/info/home")
                         (PyDict {[ "userId" := PyInt 5 ]}) PyNone env s
                 = (OK Sample.no_content,
                    snd (__apost Sample.dumps (URL_build EmptyString EmptyString "/user/api/v1/user/info/home")
                                 (PyDict {[ "userId" := PyInt 5 ]}) PyNone env s)))
    by (vm_compute; reflexivity).
  assert (Hc : is_ok (getitem Sample.no_content "content") = false) by (vm_compute; reflexivity).
  destruct (endpoints_fail_without_content Sample.dumps env 5 s Sample.no_content
              (snd (__apost Sample.dumps (URL_build EmptyString EmptyString "/user/api/v1/user/info/home")
                            (PyDict {[ "userId" := PyInt 5 ]}) PyNone env s)) Hc)
    as (_ & Huser & _).
  rewrite (Huser Hrun). reflexivity.
Defined.

(* ===================================================================== *)
(** * The admission gate *)
(* ===================================================================== *)

Section Callers.
Variable json_dumps : pyobj -> string.
Variable env : Env.

(** The property [session] always returns. *)
Lemma session_returns (s : State) : exists x s1, session env s = (OK x, s1).
Proof.
  unfold session, connector, bind, gets, emit, modify. simpl.
  destruct (c_session (self s)); simpl; [eauto|].
  destruct (c_connector (self s)); simpl; eauto.
Qed.

(** One attempt of [__apost] is its three pieces in a row: the headers,
    the entry into the block, the reply and what follows it. *)
Lemma attempt_split url params hdrs s :
  __apost_attempt json_dumps url params hdrs env s
  = (h <- given_or_headers json_dumps hdrs ;;
     _ <- Gate.enter_block ;;
     Gate.leave_block json_dumps url params h) env s.
Proof.
  unfold __apost_attempt.
  change (match hdrs with PyNone => headers json_dumps | h => ret h end)
    with (given_or_headers json_dumps hdrs).
  destruct (given_or_headers json_dumps hdrs env s) as [[h|e] s0] eqn:E0;
    rewrite !(bind_eq env _ _ _ _ _ E0); [|reflexivity].
  unfold with_sem, Gate.enter_block, Gate.leave_block, Gate.after_block.
  unfold bind, emit, finally.
  destruct (session_returns (log EvSemAcquire s0)) as (x & s1 & E). rewrite E.
  reflexivity.
Qed.

(** Moving one task changes the number of POSTs in flight by that task
    only. *)
Lemma in_flight_of_insert (l : list Gate.task) (i : nat) (t t' : Gate.task) :
  l !! i = Some t ->
  Gate.in_flight_of (<[i := t']> l) + (if Gate.is_in_flight t then 1 else 0)
  = Gate.in_flight_of l + (if Gate.is_in_flight t' then 1 else 0).
Proof.
  revert i. induction l as [|x l IH]; intros [|i] H; simpl in *; try discriminate.
  - injection H as ->. lia.
  - specialize (IH i H). lia.
Qed.

(** A task that [tenacity] has dealt with has no POST in flight. *)
Lemma settled_is_out u pr hd more w r s :
  Gate.is_in_flight (Gate.mkTask u pr hd (fst (Gate.settle more w r s))) = false.
Proof. destruct r as [a|e]; [reflexivity|]. destruct more; reflexivity. Qed.

(** Free slots plus POSTs in flight: no step changes the sum. *)
Lemma step_keeps_total (i : nat) (p p' : Gate.pool) :
  Gate.step json_dumps i env p = Some p' ->
  Gate.value p' + Gate.in_flight p' = Gate.value p + Gate.in_flight p.
Proof.
  unfold Gate.step, Gate.in_flight, Gate.put.
  destruct (Gate.tasks p !! i) as [t|] eqn:E; [|discriminate].
  destruct t as [u pr hd a]. simpl.
  destruct a as [more|more h|more h|more|r]; simpl.
  - destruct (given_or_headers json_dumps hd env (Gate.shared p)) as [[h|e] s1];
      intros [= <-]; simpl.
    + pose proof (in_flight_of_insert _ i _ (Gate.mkTask u pr hd (Gate.AtGate more h)) E).
      simpl in *. lia.
    + pose proof (in_flight_of_insert _ i _
                    (Gate.mkTask u pr hd (fst (Gate.settle more 3 (Raise e) s1))) E) as H.
      rewrite settled_is_out in H. simpl in H. lia.
  - destruct (Gate.value p) as [|v]; [discriminate|].
    destruct (Gate.enter_block env (Gate.shared p)) as [[x|e] s1]; intros [= <-]; simpl.
    + pose proof (in_flight_of_insert _ i _ (Gate.mkTask u pr hd (Gate.InFlight more h)) E).
      simpl in *. lia.
    + pose proof (in_flight_of_insert _ i _
                    (Gate.mkTask u pr hd
                       (fst (Gate.settle more 3 (Raise e) (log EvSemRelease s1)))) E) as H.
      rewrite settled_is_out in H. simpl in H. lia.
  - destruct (Gate.leave_block json_dumps u pr h env (Gate.shared p)) as [r s1].
    intros [= <-]. simpl.
    pose proof (in_flight_of_insert _ i _
                  (Gate.mkTask u pr hd (fst (Gate.settle more 3 r s1))) E) as H.
    rewrite settled_is_out in H. simpl in H. lia.
  - intros [= <-]. simpl.
    pose proof (in_flight_of_insert _ i _ (Gate.mkTask u pr hd (Gate.Starting more)) E).
    simpl in *. lia.
  - discriminate.
Qed.

Lemma run_keeps_total (schedule : list nat) :
  forall p, Gate.value (Gate.run json_dumps schedule env p)
            + Gate.in_flight (Gate.run json_dumps schedule env p)
            = Gate.value p + Gate.in_flight p.
Proof.
  induction schedule as [|i rest IH]; intros p; simpl; [reflexivity|].
  rewrite IH. destruct (Gate.step json_dumps i env p) as [p1|] eqn:E; simpl; [|reflexivity].
  exact (step_keeps_total i p p1 E).
Qed.

Lemma in_flight_of_spawn (requests : list Gate.request) :
  Gate.in_flight_of (map Gate.spawn requests) = 0.
Proof. induction requests as [|r l IH]; simpl; auto. Qed.

(** A finished task stays finished. *)
Lemma run_finished url params hdrs n : forall v s r,
  Gate.run json_dumps (repeat 0 n) env (Gate.alone v s url params hdrs (Gate.Finished r))
  = Gate.alone v s url params hdrs (Gate.Finished r).
Proof. induction n as [|n IH]; intros v s r; simpl; [reflexivity | apply IH]. Qed.

(** Entering the block always succeeds. *)
Lemma enter_block_returns (s : State) :
  exists x s1, Gate.enter_block env s = (OK x, s1).
Proof.
  unfold Gate.enter_block, bind, emit.
  destruct (session_returns (log EvSemAcquire s)) as (x & s1 & E). rewrite E. eauto.
Qed.

Lemma attempt_alone url params hdrs s :
  __apost_attempt json_dumps url params hdrs env s
  = match given_or_headers json_dumps hdrs env s with
    | (OK h, s0) => Gate.leave_block json_dumps url params h env
                      (snd (Gate.enter_block env s0))
    | (Raise e, s0) => (Raise e, s0)
    end.
Proof.
  rewrite attempt_split. unfold bind at 1.
  destruct (given_or_headers json_dumps hdrs env s) as [[h|e] s0]; [|reflexivity].
  unfold bind. destruct (enter_block_returns s0) as (x & s1 & E). rewrite E. reflexivity.
Qed.

Lemma step_starting v s url params hdrs more :
  Gate.step json_dumps 0 env (Gate.alone v s url params hdrs (Gate.Starting more))
  = Some match given_or_headers json_dumps hdrs env s with
         | (OK h, s0) => Gate.alone v s0 url params hdrs (Gate.AtGate more h)
         | (Raise e, s0) =>
             Gate.alone v (snd (Gate.settle more 3 (Raise e) s0)) url params hdrs
                   (fst (Gate.settle more 3 (Raise e) s0))
         end.
Proof.
  unfold Gate.step, Gate.alone. simpl.
  destruct (given_or_headers json_dumps hdrs env s) as [[h|e] s0]; reflexivity.
Qed.

Lemma step_at_gate v s url params hdrs more h :
  Gate.step json_dumps 0 env (Gate.alone (S v) s url params hdrs (Gate.AtGate more h))
  = Some (Gate.alone v (snd (Gate.enter_block env s)) url params hdrs (Gate.InFlight more h)).
Proof.
  unfold Gate.step, Gate.alone. simpl.
  destruct (enter_block_returns s) as (x & s1 & E). rewrite E. reflexivity.
Qed.

Lemma step_in_flight v s url params hdrs more h :
  Gate.step json_dumps 0 env (Gate.alone v s url params hdrs (Gate.InFlight more h))
  = Some (let run := Gate.leave_block json_dumps url params h env s in
          Gate.alone (S v) (snd (Gate.settle more 3 (fst run) (snd run))) url params hdrs
                (fst (Gate.settle more 3 (fst run) (snd run)))).
Proof.
  unfold Gate.step, Gate.alone. simpl.
  destruct (Gate.leave_block json_dumps url params h env s) as [r s1]. reflexivity.
Qed.

Lemma step_sleeping v s url params hdrs more :
  Gate.step json_dumps 0 env (Gate.alone v s url params hdrs (Gate.Sleeping more))
  = Some (Gate.alone v s url params hdrs (Gate.Starting more)).
Proof. reflexivity. Qed.

Lemma run_cons i rest p :
  Gate.run json_dumps (i :: rest) env p
  = Gate.run json_dumps rest env (default p (Gate.step json_dumps i env p)).
Proof. reflexivity. Qed.

(** A task scheduled alone runs [__apost]: same result, same client,
    same log, and the counter back where it was. *)
Lemma run_alone url params hdrs more :
  forall v s n,
    4 * S more <= n ->
    Gate.run json_dumps (repeat 0 n) env
      (Gate.alone (S v) s url params hdrs (Gate.Starting more))
    = Gate.alone (S v)
        (snd (tenacity_loop more 3 (__apost_attempt json_dumps url params hdrs) env s))
        url params hdrs
        (Gate.Finished
           (fst (tenacity_loop more 3 (__apost_attempt json_dumps url params hdrs) env s))).
Proof.
  induction more as [|m IH]; intros v s n Hn;
    (destruct n as [|[|[|[|n]]]]; [lia..|]);
    cbn [repeat]; rewrite run_cons, step_starting; cbn [default from_option id tenacity_loop];
    rewrite attempt_alone;
    destruct (given_or_headers json_dumps hdrs env s) as [[h|e] s0]; cbn [Gate.settle fst snd].
  - rewrite run_cons, step_at_gate. cbn [default from_option id].
    rewrite run_cons, step_in_flight. cbn [default from_option id].
    destruct (Gate.leave_block json_dumps url params h env (snd (Gate.enter_block env s0)))
      as [[a|e] s2]; cbn [Gate.settle fst snd]; apply (run_finished _ _ _ (S n)).
  - apply (run_finished _ _ _ (S (S (S n)))).
  - rewrite run_cons, step_at_gate. cbn [default from_option id].
    rewrite run_cons, step_in_flight. cbn [default from_option id].
    destruct (Gate.leave_block json_dumps url params h env (snd (Gate.enter_block env s0)))
      as [[a|e] s2]; cbn [Gate.settle fst snd].
    + apply (run_finished _ _ _ (S n)).
    + rewrite run_cons, step_sleeping. cbn [default from_option id]. apply IH. lia.
  - rewrite run_cons, step_sleeping. cbn [default from_option id].
    apply (IH v _ (S (S n))). lia.
Qed.

(** [__init__] gives the semaphore 10 slots. *)
Lemma init_sem (c : Client) : __init__ env = OK c -> c_sem c = 10.
Proof.
  unfold __init__. destruct (get_running_loop env); [|discriminate]. now intros [= <-].
Qed.

End Callers.

(** C9. Whatever the calls of [__apost] made on one client and however the
    event loop interleaves them, free slots plus POSTs in flight make 10,
    so at most 10 POSTs are in flight.  A task that reaches the gate while
    10 are in flight cannot run: it stays suspended; with fewer in flight
    it is admitted and its POST is one more in flight.  And the tasks run
    the code of [__apost]: one scheduled alone ends with the result, the
    client and the log of [__apost], and gives its slot back. *)
Theorem gate_admits_at_most_10
  (json_dumps : pyobj -> string) (env : Env) (c : Client) (s : State)
  (requests : list Gate.request) (schedule : list nat) :
  __init__ env = OK c ->
  c_sem (self s) = c_sem c ->
  let p := Gate.run json_dumps schedule env (Gate.init s requests) in
  Gate.value p + Gate.in_flight p = 10
  /\ Gate.in_flight p <= 10
  /\ (forall i t more h,
        Gate.tasks p !! i = Some t -> Gate.at_ t = Gate.AtGate more h ->
        match Gate.step json_dumps i env p with
        | None => Gate.in_flight p = 10
        | Some p' =>
            Gate.in_flight p < 10
            /\ Gate.in_flight p' = S (Gate.in_flight p)
            /\ exists t', Gate.tasks p' !! i = Some t'
                          /\ Gate.at_ t' = Gate.InFlight more h
        end)
  /\ (forall url params hdrs,
        let solo := Gate.run json_dumps (repeat 0 20) env
                       (Gate.init s [(url, params, hdrs)]) in
        let call := __apost json_dumps url params hdrs env s in
        Gate.tasks solo
        = [Gate.mkTask url params hdrs (Gate.Finished (fst call))]
        /\ Gate.shared solo = snd call
        /\ Gate.value solo = 10).
Proof.
  intros Hinit Hsem p.
  pose proof (init_sem env c Hinit) as H10.
  pose proof (run_keeps_total json_dumps env schedule (Gate.init s requests)) as Htotal.
  fold p in Htotal. unfold Gate.in_flight at 2 in Htotal. simpl in Htotal.
  rewrite in_flight_of_spawn, Hsem, H10 in Htotal.
  split; [lia|]. split; [lia|]. split.
  - intros i t more h Hi Hat.
    destruct (Gate.step json_dumps i env p) as [p'|] eqn:E.
    + pose proof (step_keeps_total json_dumps env i p p' E) as Hstep.
      revert E. unfold Gate.step. rewrite Hi, Hat.
      destruct (Gate.value p) as [|v] eqn:Ev; [discriminate|].
      destruct (enter_block_returns env (Gate.shared p)) as (x & s1 & Ex). rewrite Ex.
      intros [= <-]. simpl in *. split; [lia|]. split; [lia|].
      exists (Gate.mkTask (Gate.t_url t) (Gate.t_params t) (Gate.t_headers t)
                (Gate.InFlight more h)).
      split; [|reflexivity].
      apply list_lookup_insert_eq. now apply lookup_lt_Some in Hi.
    + revert E. unfold Gate.step. rewrite Hi, Hat.
      destruct (Gate.value p) as [|v] eqn:Ev; [intros _; lia|].
      destruct (Gate.enter_block env (Gate.shared p)) as [[x|e] s1]; discriminate.
  - intros url params hdrs. cbv zeta.
    unfold Gate.init. simpl map. rewrite Hsem, H10.
    change (Gate.spawn (url, params, hdrs))
      with (Gate.mkTask url params hdrs (Gate.Starting 4)).
    pose proof (run_alone json_dumps env url params hdrs 4 9 s 20 ltac:(lia)) as H.
    unfold Gate.alone in H. unfold __apost, aretry. change (5 - 1) with 4.
    rewrite H. repeat split.
Qed.

(** Fifty callers that all reach the gate. *)
Lemma gate_admits_at_most_10_witness :
  let env := Sample.env Sample.logins_ok Sample.posts_ok in
  let p := Gate.run Sample.dumps Scenario.all_reach_the_gate env
             (Gate.init (start Sample.client) Scenario.requests) in
  Gate.in_flight p <= 10.
Proof.
  intros env p.
  exact (proj1 (proj2 (gate_admits_at_most_10 Sample.dumps env Sample.client
                         (start Sample.client) Scenario.requests
                         Scenario.all_reach_the_gate eq_refl eq_refl))).
Defined.

(** Fifty callers on a client without a token: the first logs in, ten are
    admitted and forty wait; when the first reply arrives the eleventh
    caller is admitted. *)
Example fifty_callers :
  let env := Sample.env Sample.logins_ok Sample.posts_ok in
  let p := Gate.run Sample.dumps Scenario.all_reach_the_gate env
             (Gate.init (start Sample.client) Scenario.requests) in
  Gate.in_flight p = 10
  /\ Gate.value p = 0
  /\ n_requests_post (Gate.shared p) = 1
  /\ Gate.step Sample.dumps 10 env p = None
  /\ let p' := Gate.run Sample.dumps [0; 10] env p in
     Gate.in_flight p' = 10
     /\ option_map Gate.at_ (Gate.tasks p' !! 0) = Some (Gate.Finished (OK Sample.payload))
     /\ option_map Gate.is_in_flight (Gate.tasks p' !! 10) = Some true.
Proof. cbv zeta. repeat split; vm_compute; reflexivity. Qed.

(* ===================================================================== *)
(** * Relating the state before a method to the state after it *)
(* ===================================================================== *)

Lemma is_signed_update (d : gmap string pyobj) (sig : string) (tok : pyobj) :
  is_signed (PyDict (update_pa_token d sig tok)) = true.
Proof.
  unfold is_signed. destruct (update_pa_token_lookup d sig tok) as (-> & ->). reflexivity.
Qed.

Lemma headers_returns_signed (json_dumps : pyobj -> string) (env : Env) (s : State)
  (hv : pyobj) (s1 : State) :
  headers json_dumps env s = (OK hv, s1) -> is_signed hv = true.
Proof.
  intros H. unfold headers in H.
  repeat (apply bind_inv in H as (? & ? & _ & H)).
  unfold ret in H. injection H as <- _. apply is_signed_update.
Qed.

Section Frame.
Variable json_dumps : pyobj -> string.
Variable env : Env.
Variable R : State -> State -> Prop.
Variable oksend : URL -> pyobj -> pyobj -> Prop.

Hypothesis R_refl : forall s, R s s.
Hypothesis R_trans : forall s s1 s2, R s s1 -> R s1 s2 -> R s s2.
Hypothesis R_quiet :
  forall e s, quiet e -> (forall w, e <> EvAsyncioSleep w) -> R s (log e s).
Hypothesis R_asleep : forall s, R s (log (EvAsyncioSleep 3) s).
Hypothesis R_tick : forall s, R s (tick s).
Hypothesis R_connector : holds connector env R.
Hypothesis R_session : holds session env R.
Hypothesis R_aexit : holds __aexit__ env R.
Hypothesis R_config : holds config env R.
Hypothesis R_login_post :
  forall u p h t, login_request u p h t -> holds (do_requests_post u p h t) env R.
Hypothesis R_send :
  forall u p h, oksend u p h -> holds (do_session_post u p h) env R.
Hypothesis R_set_login :
  forall u s, R s (with_self (set_login_user (mkLoginUserInfo u)) s).

Lemma holds_ret {A} (a : A) : holds (ret a) env R.
Proof. intros s r s1 [= _ <-]. apply R_refl. Qed.

Lemma holds_lift {A} (x : result A) : holds (lift x) env R.
Proof. intros s r s1 [= _ <-]. apply R_refl. Qed.

Lemma holds_gets {A} (f : Client -> A) : holds (gets f) env R.
Proof. intros s r s1 [= _ <-]. apply R_refl. Qed.

Lemma holds_bind_val {A B} (c : M A) (k : A -> M B) :
  holds c env R ->
  (forall a, (exists s s1, c env s = (OK a, s1)) -> holds (k a) env R) ->
  holds (bind c k) env R.
Proof.
  intros Hc Hk s r s2. unfold bind.
  destruct (c env s) as [[a|e] s1] eqn:E.
  - intros H. eapply R_trans; [exact (Hc _ _ _ E)|].
    exact (Hk a (ex_intro _ s (ex_intro _ s1 E)) _ _ _ H).
  - intros [= _ <-]. exact (Hc _ _ _ E).
Qed.

Lemma holds_bind {A B} (c : M A) (k : A -> M B) :
  holds c env R -> (forall a, holds (k a) env R) -> holds (bind c k) env R.
Proof. intros Hc Hk. apply holds_bind_val; auto. Qed.

Lemma holds_emit (e : event) :
  quiet e -> (forall w, e <> EvAsyncioSleep w) -> holds (emit e) env R.
Proof. intros Hq Hne s r s1 [= _ <-]. now apply R_quiet. Qed.

Lemma holds_finally {A} (c : M A) (e : event) :
  quiet e -> (forall w, e <> EvAsyncioSleep w) -> holds c env R ->
  holds (finally c e) env R.
Proof.
  intros Hq Hne Hc s r s2. unfold finally.
  destruct (c env s) as [r1 s1] eqn:E. intros [= _ <-].
  eapply R_trans; [exact (Hc _ _ _ E) | now apply R_quiet].
Qed.

Lemma holds_now_ms : holds now_ms env R.
Proof. intros s r s1 [= _ <-]. apply R_tick. Qed.

Lemma holds_tenacity_loop {A} (fn : M A) (more : nat) :
  holds fn env R -> holds (tenacity_loop more 3 fn) env R.
Proof.
  intros Hfn. induction more as [|m IH]; intros s r s2; simpl;
    destruct (fn env s) as [[a|e] s1] eqn:E; intros H.
  - injection H as _ <-. exact (Hfn _ _ _ E).
  - injection H as _ <-. exact (Hfn _ _ _ E).
  - injection H as _ <-. exact (Hfn _ _ _ E).
  - eapply R_trans; [exact (Hfn _ _ _ E)|].
    eapply R_trans; [apply R_asleep|].
    exact (IH _ _ _ H).
Qed.

Lemma holds_retrying_loop {A} (fn : M A) (more : nat) :
  holds fn env R -> holds (retrying_loop more 3 fn) env R.
Proof.
  intros Hfn. induction more as [|m IH]; intros s r s2; simpl;
    destruct (fn env s) as [[a|e] s1] eqn:E; intros H.
  - injection H as _ <-. exact (Hfn _ _ _ E).
  - injection H as _ <-. exact (Hfn _ _ _ E).
  - injection H as _ <-. exact (Hfn _ _ _ E).
  - eapply R_trans; [exact (Hfn _ _ _ E)|].
    eapply R_trans; [apply (R_quiet (EvTimeSleep 3)); [reflexivity | discriminate]|].
    exact (IH _ _ _ H).
Qed.

Lemma holds_config_item (group key : string) : holds (config_item group key) env R.
Proof.
  unfold config_item. apply holds_bind; [exact R_config|]. intros cfg.
  apply holds_bind; [apply holds_lift|]. intros g. apply holds_lift.
Qed.

Lemma holds_pa : holds pa env R.
Proof.
  unfold pa.
  apply holds_bind; [apply holds_config_item|]. intros pk.
  apply holds_bind; [apply holds_config_item|]. intros pv.
  apply holds_bind; [apply holds_gets|]. intros u.
  apply holds_bind; [apply holds_now_ms|]. intros t.
  apply holds_bind; [apply holds_lift|]. intros k.
  apply holds_bind; [apply holds_lift|]. intros v.
  apply holds_ret.
Qed.

Lemma holds_user_login : holds (user_login json_dumps) env R.
Proof.
  unfold user_login.
  apply holds_bind; [apply holds_pa|]. intros sig.
  apply holds_bind; [apply holds_config_item|]. intros ai.
  apply holds_bind; [apply holds_config_item|]. intros un.
  apply holds_bind; [apply holds_config_item|]. intros pw.
  apply holds_bind.
  { unfold __rpost, retry. apply holds_retrying_loop. apply R_login_post.
    repeat split; eauto. }
  intros r.
  apply holds_bind; [apply holds_lift|]. intros c.
  apply holds_bind; [apply holds_lift|]. intros u.
  intros s x s1 [= _ <-]. apply R_set_login.
Qed.

Lemma holds_headers : holds (headers json_dumps) env R.
Proof.
  unfold headers.
  do 5 (apply holds_bind; [apply holds_config_item|]; intros ?).
  apply holds_bind; [apply holds_gets|]. intros u.
  apply holds_bind.
  { destruct (token u); try apply holds_ret. apply holds_user_login. }
  intros _.
  apply holds_bind; [apply holds_pa|]. intros sig.
  apply holds_bind; [apply holds_gets|]. intros u'. apply holds_ret.
Qed.

Lemma holds_apost_attempt (url : URL) (params hdrs : pyobj) :
  (forall h, sent_headers hdrs h -> oksend url params h) ->
  holds (__apost_attempt json_dumps url params hdrs) env R.
Proof.
  intros Hsend. unfold __apost_attempt.
  apply holds_bind_val.
  { destruct hdrs; try apply holds_ret. apply holds_headers. }
  intros h (s & s1 & Hh).
  assert (Hok : oksend url params h).
  { apply Hsend. destruct hdrs; simpl;
      try (unfold ret in Hh; now injection Hh as <- _).
    exact (headers_returns_signed _ _ _ _ _ Hh). }
  apply holds_bind.
  { unfold with_sem.
    apply holds_bind; [apply holds_emit; [exact I | discriminate]|]. intros _.
    apply holds_finally; [exact I | discriminate |].
    apply holds_bind; [exact R_session|]. intros _.
    apply holds_bind; [apply R_send; exact Hok|]. intros r.
    apply holds_bind; [apply holds_emit; [exact I | discriminate]|]. intros _.
    apply holds_ret. }
  intros r.
  apply holds_bind; [apply holds_lift|]. intros m.
  destruct (is_invalidation m); [|apply holds_ret].
  apply holds_bind; [apply holds_user_login|]. intros _. apply holds_ret.
Qed.

Lemma holds_apost (url : URL) (params hdrs : pyobj) :
  (forall h, sent_headers hdrs h -> oksend url params h) ->
  holds (__apost json_dumps url params hdrs) env R.
Proof.
  intros Hsend. unfold __apost, aretry. apply holds_tenacity_loop.
  now apply holds_apost_attempt.
Qed.

Lemma holds_get_starBasicInfo (_id : Z) :
  (forall u p h, star_request _id u p -> is_signed h = true -> oksend u p h) ->
  holds (get_starBasicInfo json_dumps _id) env R.
Proof.
  intros Hsend. unfold get_starBasicInfo.
  apply holds_bind.
  { apply holds_apost. intros h Hh. apply Hsend; [split; reflexivity | exact Hh]. }
  intros r. apply holds_bind; [apply holds_lift|]. intros c. apply holds_ret.
Qed.

Lemma holds_get_userInfo (_id : Z) :
  (forall u p h, user_request _id u p -> is_signed h = true -> oksend u p h) ->
  holds (get_userInfo json_dumps _id) env R.
Proof.
  intros Hsend. unfold get_userInfo.
  apply holds_bind.
  { apply holds_apost. intros h Hh. apply Hsend; [split; reflexivity | exact Hh]. }
  intros r. apply holds_bind; [apply holds_lift|]. intros c. apply holds_ret.
Qed.

Lemma holds_get_roomInfo (_id : Z) :
  (forall u p h, room_request _id u p -> is_signed h = true -> oksend u p h) ->
  holds (get_roomInfo json_dumps _id) env R.
Proof.
  intros Hsend. unfold get_roomInfo.
  apply holds_bind.
  { apply holds_apost. intros h Hh. apply Hsend; [split; reflexivity | exact Hh]. }
  intros r. apply holds_bind; [apply holds_lift|]. intros c. apply holds_ret.
Qed.

Lemma holds_perform (c : call) :
  (forall u p h, endpoint_request u p h -> oksend u p h) ->
  holds (perform json_dumps c) env R.
Proof.
  intros Hsend.
  assert (Hep : forall _id u p h,
             star_request _id u p \/ user_request _id u p \/ room_request _id u p ->
             is_signed h = true -> oksend u p h).
  { intros _id u p h Hreq Hh. apply Hsend. split; [exists _id; exact Hreq | exact Hh]. }
  destruct c; simpl;
    try (apply holds_bind; [|intros ?; apply holds_ret]).
  - apply holds_gets.
  - exact R_aexit.
  - exact R_connector.
  - exact R_session.
  - exact R_config.
  - apply holds_pa.
  - apply holds_headers.
  - apply holds_user_login.
  - apply holds_get_starBasicInfo. intros u p h Hr. apply (Hep _id); auto.
  - apply holds_get_userInfo. intros u p h Hr. apply (Hep _id); auto.
  - apply holds_get_roomInfo. intros u p h Hr. apply (Hep _id); auto.
Qed.

Lemma holds_perform_all (calls : list call) :
  (forall u p h, endpoint_request u p h -> oksend u p h) ->
  forall s, R s (perform_all json_dumps calls env s).
Proof.
  intros Hsend. induction calls as [|c rest IH]; intros s; simpl.
  - apply R_refl.
  - eapply R_trans; [|apply IH].
    apply (holds_perform c Hsend s (fst (perform json_dumps c env s))).
    now destruct (perform json_dumps c env s).
Qed.

End Frame.

(* ===================================================================== *)
(** * The log and the fields *)
(* ===================================================================== *)

Lemma count_snoc (p : event -> bool) (tr : list event) (e : event) :
  count p (tr ++ [e]) = count p tr + (if p e then 1 else 0).
Proof.
  unfold count. rewrite List.filter_app, List.length_app. simpl.
  destruct (p e); reflexivity.
Qed.

Lemma count_app (p : event -> bool) (tr1 tr2 : list event) :
  count p (tr1 ++ tr2) = count p tr1 + count p tr2.
Proof. unfold count. now rewrite List.filter_app, List.length_app. Qed.

Ltac lifecycle_step :=
  unfold keeps_lifecycle, lifecycle, log, with_self, tick; simpl;
  rewrite ?count_snoc; simpl; rewrite ?Nat.add_0_r.

Lemma lifecycle_connector env : holds connector env (keeps_lifecycle env).
Proof.
  intros s r s1. unfold connector, bind, gets, emit, modify. simpl.
  destruct (c_connector (self s)) as [k|] eqn:E; simpl.
  all: intros [= _ <-].
  - exact (fun H => H).
  - lifecycle_step. rewrite E.
    intros (H1 & H2 & H3 & H4 & H5). repeat split; try lia; try discriminate.
    exact H5.
Qed.

Lemma lifecycle_session env : holds session env (keeps_lifecycle env).
Proof.
  intros s r s1. unfold session, connector, bind, gets, emit, modify. simpl.
  destruct (c_session (self s)) as [x|] eqn:Es; simpl.
  - intros [= _ <-]. exact (fun H => H).
  - destruct (c_connector (self s)) as [k|] eqn:Ec; simpl; intros [= _ <-];
      lifecycle_step; rewrite ?Es, ?Ec;
      intros (H1 & H2 & H3 & H4 & H5); repeat split; try lia; try discriminate;
      try (intros Hc; specialize (H5 Hc); lia).
Qed.

Lemma aexit_spec env (s : State) :
  __aexit__ env s
  = (OK tt,
     match c_connector (self s) with
     | Some k =>
         if closed k then s
         else log EvCloseConnector
                (with_self (set_connector
                              (TCPConnector (ssl k) (keepalive_timeout k) (limit k) true)) s)
     | None =>
         log EvCloseConnector
           (with_self (set_connector (TCPConnector false 60 0 true))
              (with_self (set_connector (TCPConnector false 60 0 false))
                 (log EvNewConnector s)))
     end).
Proof.
  destruct (c_connector (self s)) as [k|] eqn:Ec.
  - unfold __aexit__.
    rewrite (bind_eq env _ _ _ _ _ (connector_singleton env s k Ec)).
    rewrite (bind_eq env _ _ _ _ _ (connector_singleton env s k Ec)).
    unfold close. destruct (closed k); reflexivity.
  - unfold __aexit__, connector, close, bind, gets, emit, modify, ret. simpl.
    rewrite Ec. reflexivity.
Qed.

Lemma lifecycle_aexit env : holds __aexit__ env (keeps_lifecycle env).
Proof.
  intros s r s1. rewrite aexit_spec. intros [= _ <-].
  destruct (c_connector (self s)) as [k|] eqn:Ec.
  - destruct (closed k) eqn:Ek; [exact (fun H => H)|].
    lifecycle_step. rewrite Ec, Ek.
    intros (H1 & H2 & H3 & H4 & H5). repeat split; try lia; try discriminate.
    exact H5.
  - lifecycle_step. rewrite Ec.
    intros (H1 & H2 & H3 & H4 & H5). repeat split; try lia; try discriminate.
    exact H5.
Qed.

Lemma lifecycle_config env : holds config env (keeps_lifecycle env).
Proof.
  intros s r s1. unfold config, bind, gets, emit, modify, ret. simpl.
  destruct (c_config (self s)) as [cfg|] eqn:Ec; simpl.
  - intros [= _ <-]. exact (fun H => H).
  - destruct (config_toml env) as [cfg|e] eqn:Et; simpl; intros [= _ <-];
      lifecycle_step; rewrite ?Ec; rewrite ?Et; simpl;
      intros (H1 & H2 & H3 & H4 & H5); repeat split; try assumption; try lia;
      try discriminate.
Qed.

Lemma lifecycle_log env (e : event) (s : State) :
  is_new_connector e = false -> is_new_session e = false ->
  is_close_connector e = false -> is_open_config e = false ->
  keeps_lifecycle env s (log e s).
Proof.
  intros E1 E2 E3 E4. lifecycle_step. rewrite E1, E2, E3, E4, !Nat.add_0_r.
  exact (fun H => H).
Qed.

(** Every call keeps the log and the fields in agreement. *)
Lemma lifecycle_perform_all json_dumps env (calls : list call) (s : State) :
  lifecycle env s -> lifecycle env (perform_all json_dumps calls env s).
Proof.
  apply (holds_perform_all json_dumps env (keeps_lifecycle env) (fun _ _ _ => True)).
  - intros s0 H. exact H.
  - intros s0 s1 s2 H1 H2 H. exact (H2 (H1 H)).
  - intros e s0 Hq _. destruct e; try contradiction; now apply lifecycle_log.
  - intros s0. now apply lifecycle_log.
  - intros s0. exact (fun H => H).
  - apply lifecycle_connector.
  - apply lifecycle_session.
  - apply lifecycle_aexit.
  - apply lifecycle_config.
  - intros u p h t _ s0 r s1 [= _ <-]. now apply (lifecycle_log env (EvRequestsPost u p h t) s0).
  - intros u p h _ s0 r s1 [= _ <-]. now apply (lifecycle_log env (EvSessionPost u p h) s0).
  - intros u s0. exact (fun H => H).
  - trivial.
Qed.

Lemma lifecycle_start env (c : Client) : __init__ env = OK c -> lifecycle env (start c).
Proof.
  unfold __init__. destruct (get_running_loop env); [|discriminate].
  intros [= <-]. unfold lifecycle. simpl. repeat split; congruence.
Qed.

(* ===================================================================== *)
(** * What no call undoes *)
(* ===================================================================== *)

Lemma never_undone_refl (s : State) : never_undone s s.
Proof.
  unfold never_undone. repeat split; auto.
  - intros k Hk. exists k. auto.
  - exists []. now rewrite app_nil_r.
Qed.

Lemma never_undone_trans (s s1 s2 : State) :
  never_undone s s1 -> never_undone s1 s2 -> never_undone s s2.
Proof.
  intros (A1 & A2 & A3 & A4 & A5 & A6 & A7 & A8 & A9 & evs & A10)
         (B1 & B2 & B3 & B4 & B5 & B6 & B7 & B8 & B9 & evs' & B10).
  unfold never_undone. repeat split; try congruence; try lia; auto.
  - intros k Hk. destruct (A6 k Hk) as (k1 & Hk1 & E1 & E2 & E3 & E4).
    destruct (B6 k1 Hk1) as (k2 & Hk2 & F1 & F2 & F3 & F4).
    exists k2. repeat split; try congruence. auto.
  - exists (evs ++ evs')%list. rewrite B10, A10. now rewrite app_assoc.
Qed.

Lemma never_undone_log (e : event) (s : State) : never_undone s (log e s).
Proof.
  unfold never_undone. simpl. repeat split; auto.
  - intros k Hk. exists k. auto.
  - now exists [e].
Qed.

Lemma never_undone_connector env : holds connector env never_undone.
Proof.
  intros s r s1. unfold connector, bind, gets, emit, modify. simpl.
  destruct (c_connector (self s)) as [k|] eqn:E; simpl; intros [= _ <-].
  - apply never_undone_refl.
  - unfold never_undone. simpl. rewrite E. repeat split; auto; try discriminate.
    now exists [EvNewConnector].
Qed.

Lemma never_undone_session env : holds session env never_undone.
Proof.
  intros s r s1. unfold session, connector, bind, gets, emit, modify. simpl.
  destruct (c_session (self s)) as [x|] eqn:Es; simpl.
  - intros [= _ <-]. apply never_undone_refl.
  - destruct (c_connector (self s)) as [k|] eqn:Ec; simpl; intros [= _ <-];
      unfold never_undone; simpl; rewrite ?Es, ?Ec;
      repeat split; auto; try discriminate.
    + intros k0 [= <-]. exists k. auto.
    + now exists [EvNewSession].
    + rewrite <- app_assoc. now exists [EvNewConnector; EvNewSession].
Qed.

Lemma never_undone_aexit env : holds __aexit__ env never_undone.
Proof.
  intros s r s1. rewrite aexit_spec. intros [= _ <-].
  destruct (c_connector (self s)) as [k|] eqn:Ec.
  - destruct (closed k) eqn:Ek; [apply never_undone_refl|].
    unfold never_undone. simpl. rewrite Ec. repeat split; auto.
    + intros k0 [= <-]. eexists. split; [reflexivity|]. simpl. auto.
    + now exists [EvCloseConnector].
  - unfold never_undone. simpl. rewrite Ec. repeat split; auto; try discriminate.
    rewrite <- app_assoc. now exists [EvNewConnector; EvCloseConnector].
Qed.

Lemma never_undone_config env : holds config env never_undone.
Proof.
  intros s r s1. unfold config, bind, gets, emit, modify, ret. simpl.
  destruct (c_config (self s)) as [cfg|] eqn:Ec; simpl.
  - intros [= _ <-]. apply never_undone_refl.
  - destruct (config_toml env) as [cfg|e] eqn:Et; simpl; intros [= _ <-].
    + unfold never_undone. simpl. rewrite Ec. repeat split; auto; try discriminate.
      * intros k Hk. exists k. auto.
      * now exists [EvOpenConfig].
    + apply never_undone_log.
Qed.

Lemma never_undone_perform_all json_dumps env (calls : list call) (s : State) :
  never_undone s (perform_all json_dumps calls env s).
Proof.
  apply (holds_perform_all json_dumps env never_undone (fun _ _ _ => True)).
  - apply never_undone_refl.
  - apply never_undone_trans.
  - intros e s0 _ _. apply never_undone_log.
  - intros s0. apply never_undone_log.
  - intros s0. unfold never_undone. simpl. repeat split; auto.
    + intros k Hk. exists k. auto.
    + exists []. now rewrite app_nil_r.
  - apply never_undone_connector.
  - apply never_undone_session.
  - apply never_undone_aexit.
  - apply never_undone_config.
  - intros u p h t _ s0 r s1 [= _ <-]. unfold never_undone. simpl. repeat split; auto.
    + intros k Hk. exists k. auto.
    + now eexists [_].
  - intros u p h _ s0 r s1 [= _ <-]. unfold never_undone. simpl. repeat split; auto.
    + intros k Hk. exists k. auto.
    + now eexists [_].
  - intros u s0. unfold never_undone. simpl. repeat split; auto.
    + intros k Hk. exists k. auto.
    + exists []. now rewrite app_nil_r.
  - trivial.
Qed.

(* ===================================================================== *)
(** * What the client sends *)
(* ===================================================================== *)

Lemma emits_refl oksend (s : State) : emits oksend s s.
Proof. exists []. split; [now rewrite app_nil_r | constructor]. Qed.

Lemma emits_trans oksend (s s1 s2 : State) :
  emits oksend s s1 -> emits oksend s1 s2 -> emits oksend s s2.
Proof.
  intros (evs & E & F) (evs' & E' & F').
  exists (evs ++ evs')%list. split.
  - rewrite E', E. now rewrite app_assoc.
  - apply Forall_app. now split.
Qed.

Lemma emits_log oksend (e : event) (s : State) : okev oksend e -> emits oksend s (log e s).
Proof. intros H. exists [e]. split; [reflexivity | now constructor]. Qed.

Lemma emits_same oksend (s s1 : State) : trace s1 = trace s -> emits oksend s s1.
Proof. intros H. exists []. split; [now rewrite app_nil_r | constructor]. Qed.

Lemma emits_holds oksend :
  forall json_dumps env,
    (forall calls s,
       (forall u p h, endpoint_request u p h -> oksend u p h) ->
       emits oksend s (perform_all json_dumps calls env s))
    /\ (forall _id,
          (forall u p h, star_request _id u p -> is_signed h = true -> oksend u p h) ->
          holds (get_starBasicInfo json_dumps _id) env (emits oksend))
    /\ (forall _id,
          (forall u p h, user_request _id u p -> is_signed h = true -> oksend u p h) ->
          holds (get_userInfo json_dumps _id) env (emits oksend))
    /\ (forall _id,
          (forall u p h, room_request _id u p -> is_signed h = true -> oksend u p h) ->
          holds (get_roomInfo json_dumps _id) env (emits oksend))
    /\ holds (user_login json_dumps) env (emits oksend).
Proof.
  intros json_dumps env.
  assert (Hquiet : forall e s, quiet e -> (forall w, e <> EvAsyncioSleep w) ->
                               emits oksend s (log e s)).
  { intros e s Hq _. apply emits_log. destruct e; try contradiction; exact Hq || exact I. }
  assert (Hasleep : forall s, emits oksend s (log (EvAsyncioSleep 3) s))
    by (intros s; now apply emits_log).
  assert (Htick : forall s, emits oksend s (tick s)) by (intros s; now apply emits_same).
  assert (Hconn : holds connector env (emits oksend)).
  { intros s r s1. unfold connector, bind, gets, emit, modify. simpl.
    destruct (c_connector (self s)); simpl; intros [= _ <-].
    - apply emits_refl.
    - exists [EvNewConnector]. split; [reflexivity | now constructor]. }
  assert (Hsess : holds session env (emits oksend)).
  { intros s r s1. unfold session, connector, bind, gets, emit, modify. simpl.
    destruct (c_session (self s)); simpl; [intros [= _ <-]; apply emits_refl|].
    destruct (c_connector (self s)); simpl; intros [= _ <-].
    - exists [EvNewSession]. split; [reflexivity | now constructor].
    - exists [EvNewConnector; EvNewSession].
      split; [simpl; now rewrite <- app_assoc | now repeat constructor]. }
  assert (Haexit : holds __aexit__ env (emits oksend)).
  { intros s r s1. rewrite aexit_spec. intros [= _ <-].
    destruct (c_connector (self s)) as [k|].
    - destruct (closed k); [apply emits_refl|].
      exists [EvCloseConnector]. split; [reflexivity | now constructor].
    - exists [EvNewConnector; EvCloseConnector].
      split; [simpl; now rewrite <- app_assoc | now repeat constructor]. }
  assert (Hcfg : holds config env (emits oksend)).
  { intros s r s1. unfold config, bind, gets, emit, modify, ret. simpl.
    destruct (c_config (self s)); simpl; [intros [= _ <-]; apply emits_refl|].
    destruct (config_toml env); simpl; intros [= _ <-];
      (exists [EvOpenConfig]; split; [reflexivity | now constructor]). }
  assert (Hlogin : forall u p h t, login_request u p h t ->
                                   holds (do_requests_post u p h t) env (emits oksend)).
  { intros u p h t Hreq s r s1 [= _ <-].
    exists [EvRequestsPost u p h t]. split; [reflexivity | now constructor]. }
  assert (Hsend : forall u p h, oksend u p h ->
                                holds (do_session_post u p h) env (emits oksend)).
  { intros u p h Hok s r s1 [= _ <-].
    exists [EvSessionPost u p h]. split; [reflexivity | now constructor]. }
  assert (Hset : forall u s,
             emits oksend s (with_self (set_login_user (mkLoginUserInfo u)) s))
    by (intros u s; now apply emits_same).
  split; [|split; [|split; [|split]]].
  - intros calls s Hep.
    apply (holds_perform_all json_dumps env (emits oksend) oksend);
      first [assumption | exact (emits_refl oksend) | exact (emits_trans oksend)].
  - intros _id Hep.
    apply (holds_get_starBasicInfo json_dumps env (emits oksend) oksend);
      first [assumption | exact (emits_refl oksend) | exact (emits_trans oksend)].
  - intros _id Hep.
    apply (holds_get_userInfo json_dumps env (emits oksend) oksend);
      first [assumption | exact (emits_refl oksend) | exact (emits_trans oksend)].
  - intros _id Hep.
    apply (holds_get_roomInfo json_dumps env (emits oksend) oksend);
      first [assumption | exact (emits_refl oksend) | exact (emits_trans oksend)].
  - apply (holds_user_login json_dumps env (emits oksend));
      first [assumption | exact (emits_refl oksend) | exact (emits_trans oksend)].
Qed.

(* ===================================================================== *)
(** * How many requests a call can make *)
(* ===================================================================== *)

Lemma within_refl (s : State) : within 0 0 s s.
Proof. unfold within. lia. Qed.

Lemma within_trans (a b a' b' : nat) (s s1 s2 : State) :
  within a b s s1 -> within a' b' s1 s2 -> within (a + a') (b + b') s s2.
Proof. unfold within. lia. Qed.

Lemma within_weaken (a b a' b' : nat) (s s1 : State) :
  within a b s s1 -> a <= a' -> b <= b' -> within a' b' s s1.
Proof. unfold within. lia. Qed.

Lemma holds_within_weaken {A} (c : M A) env (a b a' b' : nat) :
  holds c env (within a b) -> a <= a' -> b <= b' -> holds c env (within a' b').
Proof. intros H Ha Hb s r s1 E. exact (within_weaken _ _ _ _ _ _ (H _ _ _ E) Ha Hb). Qed.

Lemma holds_bind_within {A B} (c : M A) (k : A -> M B) env (a b a' b' : nat) :
  holds c env (within a b) ->
  (forall x, holds (k x) env (within a' b')) ->
  holds (bind c k) env (within (a + a') (b + b')).
Proof.
  intros Hc Hk s r s2. unfold bind.
  destruct (c env s) as [[x|e] s1] eqn:E.
  - intros H. exact (within_trans _ _ _ _ _ _ _ (Hc _ _ _ E) (Hk x _ _ _ H)).
  - intros [= _ <-]. apply (within_weaken a b); [exact (Hc _ _ _ E) | lia | lia].
Qed.

Lemma within_same (s s1 : State) :
  n_session_post s1 = n_session_post s -> n_requests_post s1 = n_requests_post s ->
  within 0 0 s s1.
Proof. unfold within. lia. Qed.

Lemma within_ret {A} (a : A) env : holds (ret a) env (within 0 0).
Proof. intros s r s1 [= _ <-]. apply within_refl. Qed.

Lemma within_lift {A} (x : result A) env : holds (lift x) env (within 0 0).
Proof. intros s r s1 [= _ <-]. apply within_refl. Qed.

Lemma within_gets {A} (f : Client -> A) env : holds (gets f) env (within 0 0).
Proof. intros s r s1 [= _ <-]. apply within_refl. Qed.

Lemma within_emit (e : event) env : holds (emit e) env (within 0 0).
Proof. intros s r s1 [= _ <-]. now apply within_same. Qed.

Lemma within_modify (f : Client -> Client) env : holds (modify f) env (within 0 0).
Proof. intros s r s1 [= _ <-]. now apply within_same. Qed.

Lemma within_finally {A} (c : M A) (e : event) env (a b : nat) :
  holds c env (within a b) -> holds (finally c e) env (within a b).
Proof.
  intros Hc s r s2. unfold finally. destruct (c env s) as [r1 s1] eqn:E.
  intros [= _ <-]. specialize (Hc _ _ _ E). unfold within in *. simpl. lia.
Qed.

Lemma within_config env : holds config env (within 0 0).
Proof.
  intros s r s1. unfold config, bind, gets, emit, modify, ret. simpl.
  destruct (c_config (self s)); simpl; [intros [= _ <-]; apply within_refl|].
  destruct (config_toml env); simpl; intros [= _ <-]; now apply within_same.
Qed.

Lemma within_config_item env (group key : string) :
  holds (config_item group key) env (within 0 0).
Proof.
  apply holds_config_item;
    first [exact within_refl | exact (within_trans 0 0 0 0) | exact (within_config env)].
Qed.

Lemma within_pa env : holds pa env (within 0 0).
Proof.
  apply holds_pa;
    first [exact within_refl | exact (within_trans 0 0 0 0) | exact (within_config env)
          | intros s; now apply within_same].
Qed.

Lemma within_session env : holds session env (within 0 0).
Proof.
  intros s r s1. unfold session, connector, bind, gets, emit, modify. simpl.
  destruct (c_session (self s)); simpl; [intros [= _ <-]; apply within_refl|].
  destruct (c_connector (self s)); simpl; intros [= _ <-]; now apply within_same.
Qed.

Lemma within_retrying_loop {A} (fn : M A) env (w : Z) (a b more : nat) :
  holds fn env (within a b) ->
  holds (retrying_loop more w fn) env (within (S more * a) (S more * b)).
Proof.
  intros Hfn. induction more as [|m IH]; intros s r s2; simpl;
    destruct (fn env s) as [[x|e] s1] eqn:E; intros H;
    pose proof (Hfn _ _ _ E) as H1.
  - injection H as _ <-. unfold within in *. lia.
  - injection H as _ <-. unfold within in *. lia.
  - injection H as _ <-. unfold within in *. lia.
  - apply IH in H. unfold within in *. simpl in *. lia.
Qed.

Lemma within_tenacity_loop {A} (fn : M A) env (w : Z) (a b more : nat) :
  holds fn env (within a b) ->
  holds (tenacity_loop more w fn) env (within (S more * a) (S more * b)).
Proof.
  intros Hfn. induction more as [|m IH]; intros s r s2; simpl;
    destruct (fn env s) as [[x|e] s1] eqn:E; intros H;
    pose proof (Hfn _ _ _ E) as H1.
  - injection H as _ <-. unfold within in *. lia.
  - injection H as _ <-. unfold within in *. lia.
  - injection H as _ <-. unfold within in *. lia.
  - apply IH in H. unfold within in *. simpl in *. lia.
Qed.

Lemma within_rpost env (u : URL) (p h : pyobj) (t : Z) :
  holds (__rpost u p h t) env (within 0 3).
Proof.
  unfold __rpost, retry.
  apply (holds_within_weaken _ env (3 * 0) (3 * 1)); [|lia|lia].
  apply (within_retrying_loop _ env 3 0 1 2).
  intros s r s1 [= _ <-]. unfold within. simpl. lia.
Qed.

Ltac within_bind := eapply holds_bind_within; [|intros ?].

Lemma within_user_login json_dumps env : holds (user_login json_dumps) env (within 0 3).
Proof.
  eapply holds_within_weaken; [|shelve..].
  unfold user_login.
  within_bind; [apply within_pa|].
  within_bind; [apply within_config_item|].
  within_bind; [apply within_config_item|].
  within_bind; [apply within_config_item|].
  within_bind; [apply within_rpost|].
  within_bind; [apply within_lift|].
  within_bind; [apply within_lift|].
  apply within_modify.
  Unshelve. all: simpl; lia.
Qed.

Lemma within_headers json_dumps env : holds (headers json_dumps) env (within 0 3).
Proof.
  eapply holds_within_weaken; [|shelve..].
  unfold headers.
  do 5 (within_bind; [apply within_config_item|]).
  eapply holds_bind_within; [apply within_gets | intros u].
  within_bind.
  { instantiate (1 := 3). instantiate (1 := 0).
    destruct (token u); try (eapply holds_within_weaken; [apply within_ret | lia | lia]).
    apply within_user_login. }
  within_bind; [apply within_pa|].
  within_bind; [apply within_gets|].
  apply within_ret.
  Unshelve. all: simpl; lia.
Qed.

Lemma within_apost_attempt json_dumps env (url : URL) (params hdrs : pyobj) :
  holds (__apost_attempt json_dumps url params hdrs) env (within 1 6).
Proof.
  eapply holds_within_weaken; [|shelve..].
  unfold __apost_attempt.
  within_bind.
  { instantiate (1 := 3). instantiate (1 := 0).
    destruct hdrs; try (eapply holds_within_weaken; [apply within_ret | lia | lia]).
    apply within_headers. }
  within_bind.
  { unfold with_sem. within_bind; [apply within_emit|].
    apply within_finally.
    within_bind; [apply within_session|].
    within_bind.
    { instantiate (1 := 0). instantiate (1 := 1).
      intros s r s1 [= _ <-]. unfold within. simpl. lia. }
    within_bind; [apply within_emit|]. apply within_ret. }
  eapply holds_bind_within; [apply within_lift | intros m].
  instantiate (1 := 3). instantiate (1 := 0).
  destruct (is_invalidation m).
  - eapply holds_within_weaken; [within_bind; [apply within_user_login | apply within_ret]|..];
      simpl; lia.
  - eapply holds_within_weaken; [apply within_ret | lia | lia].
  Unshelve. all: simpl; lia.
Qed.

Lemma within_apost json_dumps env (url : URL) (params hdrs : pyobj) :
  holds (__apost json_dumps url params hdrs) env (within 5 30).
Proof.
  unfold __apost, aretry.
  apply (holds_within_weaken _ env (5 * 1) (5 * 6)); [|lia|lia].
  apply (within_tenacity_loop _ env 3 1 6 4). apply within_apost_attempt.
Qed.

Lemma same_sleeps_log (e : event) (s : State) :
  (forall w, e <> EvAsyncioSleep w) -> same_sleeps s (log e s).
Proof.
  intros Hne. unfold same_sleeps. simpl. rewrite asyncio_sleeps_app.
  destruct e; simpl; try apply app_nil_r. now destruct (Hne seconds).
Qed.

Lemma same_sleeps_apost_attempt json_dumps env (url : URL) (params hdrs : pyobj) :
  holds (__apost_attempt json_dumps url params hdrs) env same_sleeps.
Proof.
  apply (holds_apost_attempt json_dumps env same_sleeps (fun _ _ _ => True)).
  - reflexivity.
  - unfold same_sleeps. congruence.
  - intros e s _ Hne. now apply same_sleeps_log.
  - reflexivity.
  - intros s r s1. unfold session, connector, bind, gets, emit, modify. simpl.
    destruct (c_session (self s)); simpl; [now intros [= _ <-]|].
    destruct (c_connector (self s)); simpl; intros [= _ <-];
      unfold same_sleeps; simpl; rewrite !asyncio_sleeps_app; simpl;
      now rewrite ?app_nil_r.
  - intros s r s1. unfold config, bind, gets, emit, modify, ret. simpl.
    destruct (c_config (self s)); simpl; [now intros [= _ <-]|].
    destruct (config_toml env); simpl; intros [= _ <-];
      unfold same_sleeps; simpl; rewrite !asyncio_sleeps_app; simpl;
      now rewrite ?app_nil_r.
  - intros u p h t _ s r s1 [= _ <-].
    now apply (same_sleeps_log (EvRequestsPost u p h t)).
  - intros u p h _ s r s1 [= _ <-].
    now apply (same_sleeps_log (EvSessionPost u p h)).
  - reflexivity.
  - trivial.
Qed.

Lemma tenacity_loop_sleeps {A} (fn : M A) env (more : nat) :
  holds fn env same_sleeps ->
  forall s r s1,
    tenacity_loop more 3 fn env s = (r, s1) ->
    exists j, j <= more
              /\ asyncio_sleeps (trace s1) = (asyncio_sleeps (trace s) ++ repeat 3%Z j)%list.
Proof.
  intros Hfn. induction more as [|m IH]; intros s r s2; simpl;
    destruct (fn env s) as [[x|e] s1] eqn:E; intros H;
    pose proof (Hfn _ _ _ E) as H1; unfold same_sleeps in H1.
  - injection H as _ <-. exists 0. simpl. now rewrite app_nil_r.
  - injection H as _ <-. exists 0. simpl. now rewrite app_nil_r.
  - injection H as _ <-. exists 0. simpl. rewrite app_nil_r. split; [lia | exact H1].
  - apply IH in H as (j & Hj & H). exists (S j). split; [lia|].
    rewrite H. simpl. rewrite asyncio_sleeps_app, H1. simpl.
    now rewrite <- app_assoc.
Qed.

(* ===================================================================== *)
(** * The retry loop of [__apost], from any state of the client *)
(* ===================================================================== *)

(** Once [k] attempts have failed, the loop goes on from the state in
    which attempt [k + 1] starts, with [k] attempts fewer to go. *)
Lemma attempt_start_loop {A} (fn : M A) (w : Z) (env : Env) (k : nat) :
  forall more s sk,
    k <= more ->
    attempt_start fn w k env s = Some sk ->
    tenacity_loop more w fn env s = tenacity_loop (more - k) w fn env sk.
Proof.
  induction k as [|j IH]; intros more s sk Hk; simpl.
  - intros [= <-]. now rewrite Nat.sub_0_r.
  - destruct more as [|m]; [lia|]. simpl.
    destruct (fn env s) as [[a|e] s1]; [discriminate|].
    intros H. apply IH; [lia | exact H].
Qed.

(** A further failure leads to the pause and to the next attempt. *)
Lemma attempt_start_next {A} (fn : M A) (w : Z) (env : Env) (k : nat) :
  forall s sk e s1,
    attempt_start fn w k env s = Some sk ->
    fn env sk = (Raise e, s1) ->
    attempt_start fn w (S k) env s = Some (log (EvAsyncioSleep w) s1).
Proof.
  induction k as [|j IH]; intros s sk e s1.
  - intros [= <-] E. simpl. now rewrite E.
  - intros H E. cbn [attempt_start] in H |- *.
    destruct (fn env s) as [[a|e0] s0]; [discriminate|].
    exact (IH _ _ _ _ H E).
Qed.

(** Whatever [tenacity] raises is a [RetryError]. *)
Lemma tenacity_loop_wraps {A} (fn : M A) (w : Z) (env : Env) (more : nat) :
  forall s e s1,
    tenacity_loop more w fn env s = (Raise e, s1) -> exists e0, e = RetryError e0.
Proof.
  induction more as [|m IH]; intros s e s1; simpl;
    destruct (fn env s) as [[a|e0] s0]; try discriminate.
  - intros [= <- _]. eauto.
  - apply IH.
Qed.

(** The attempts of [__apost] add no pause of their own and make at most
    one POST each. *)
Lemma attempt_start_bounds json_dumps env url params hdrs (k : nat) :
  forall s sk,
    attempt_start (__apost_attempt json_dumps url params hdrs) 3 k env s = Some sk ->
    asyncio_sleeps (trace sk) = (asyncio_sleeps (trace s) ++ repeat 3%Z k)%list
    /\ n_session_post sk <= n_session_post s + k.
Proof.
  induction k as [|j IH]; intros s sk; simpl.
  - intros [= <-]. rewrite app_nil_r. split; [reflexivity | lia].
  - destruct (__apost_attempt json_dumps url params hdrs env s) as [[a|e] s1] eqn:E;
      [discriminate|].
    intros H. apply IH in H as (Ha & Hn). simpl in Ha, Hn.
    pose proof (same_sleeps_apost_attempt json_dumps env url params hdrs _ _ _ E) as Hs.
    pose proof (within_apost_attempt json_dumps env url params hdrs _ _ _ E) as (Hw & _).
    unfold same_sleeps in Hs. split; [|lia].
    rewrite Ha, asyncio_sleeps_app, Hs. simpl. now rewrite <- app_assoc.
Qed.

(** An attempt whose POST fails, in the transport or on decoding the
    body, fails with that error; nothing but the POST has happened since
    the headers were obtained. *)
Lemma attempt_post_fails json_dumps env url params hdrs s h s0 e :
  given_or_headers json_dumps hdrs env s = (OK h, s0) ->
  session_post env (n_session_post s0) = Raise e ->
  exists s1,
    __apost_attempt json_dumps url params hdrs env s = (Raise e, s1)
    /\ same_core s0 s1 /\ n_session_post s1 = S (n_session_post s0).
Proof.
  intros E0 He.
  destruct (gated_post_spec env url params h s0) as (s1 & E1 & Hc & Hn).
  exists s1. split; [|split; assumption].
  unfold __apost_attempt.
  change (match hdrs with PyNone => headers json_dumps | h => ret h end)
    with (given_or_headers json_dumps hdrs).
  rewrite (bind_eq env _ _ _ _ _ E0), (bind_eq env _ _ _ _ _ E1), He. reflexivity.
Qed.

(** C3, amended.  For every call of [__apost], in whatever state the
    client is: when the first [k <= 4] attempts have failed, [k] pauses of
    3 seconds were made and at most [k] POSTs; a transport error of the
    POST of attempt [k + 1] makes that attempt fail with it; if attempt
    [k + 1] succeeds, [__apost] returns its result; if it fails and is not
    the fifth, the pause and a further attempt follow; and if the fifth
    attempt fails, [__apost] raises [RetryError] wrapping its error, after
    4 pauses of 3 seconds. *)
Theorem apost_retries_transport_errors
  (json_dumps : pyobj -> string) (env : Env) url params hdrs (s : State) (k : nat)
  (sk : State) :
  k <= 4 ->
  attempt_start (__apost_attempt json_dumps url params hdrs) 3 k env s = Some sk ->
  let attempt := __apost_attempt json_dumps url params hdrs in
  let run := __apost json_dumps url params hdrs env s in
  asyncio_sleeps (trace sk) = (asyncio_sleeps (trace s) ++ repeat 3%Z k)%list
  /\ n_session_post sk <= n_session_post s + k
  /\ (forall h s0 e,
        given_or_headers json_dumps hdrs env sk = (OK h, s0) ->
        session_post env (n_session_post s0) = Raise e ->
        is_transport_error e = true ->
        exists s1, attempt env sk = (Raise e, s1)
                   /\ n_session_post s1 = S (n_session_post s0))
  /\ (forall r s1,
        attempt env sk = (OK r, s1) ->
        run = (OK r, s1)
        /\ asyncio_sleeps (trace s1) = (asyncio_sleeps (trace s) ++ repeat 3%Z k)%list
        /\ n_session_post s1 <= n_session_post s + k + 1)
  /\ (forall e s1,
        attempt env sk = (Raise e, s1) ->
        (k < 4 -> attempt_start attempt 3 (S k) env s = Some (log (EvAsyncioSleep 3) s1))
        /\ (k = 4 ->
            run = (Raise (RetryError e), s1)
            /\ asyncio_sleeps (trace s1)
               = (asyncio_sleeps (trace s) ++ [3; 3; 3; 3]%Z)%list)).
Proof.
  intros Hk Hstart attempt run. subst attempt run.
  destruct (attempt_start_bounds json_dumps env url params hdrs k s sk Hstart) as (Ha & Hn).
  pose proof (attempt_start_loop _ 3 env k 4 s sk Hk Hstart) as Hloop.
  split; [exact Ha|]. split; [exact Hn|]. split; [|split].
  - intros h s0 e E0 He _.
    destruct (attempt_post_fails json_dumps env url params hdrs sk h s0 e E0 He)
      as (s1 & E & _ & Hs1).
    exists s1. split; assumption.
  - intros r s1 E.
    pose proof (same_sleeps_apost_attempt json_dumps env url params hdrs _ _ _ E) as Hs.
    pose proof (within_apost_attempt json_dumps env url params hdrs _ _ _ E) as (Hw & _).
    unfold same_sleeps in Hs. split; [|split; [rewrite Hs; exact Ha | lia]].
    unfold __apost, aretry. change (5 - 1) with 4. rewrite Hloop.
    destruct (4 - k); simpl; rewrite E; reflexivity.
  - intros e s1 E. split.
    + intros _. exact (attempt_start_next _ 3 env k s sk e s1 Hstart E).
    + intros ->.
      pose proof (same_sleeps_apost_attempt json_dumps env url params hdrs _ _ _ E) as Hs.
      unfold same_sleeps in Hs. split; [|rewrite Hs; exact Ha].
      unfold __apost, aretry. change (5 - 1) with 4. rewrite Hloop.
      simpl. rewrite E. reflexivity.
Qed.

(** A client that holds no token yet: the first attempt logs in, two
    POSTs fail in the transport, the third reply is returned. *)
Lemma apost_retries_transport_errors_witness :
  let env := Sample.env Sample.logins_ok Sample.posts_two_failures_then_payload in
  let run := __apost Sample.dumps Sample.url Sample.params PyNone env (start Sample.client) in
  fst run = OK Sample.payload
  /\ asyncio_sleeps (trace (snd run)) = [3; 3]%Z.
Proof.
  intros env run.
  pose (attempt := __apost_attempt Sample.dumps Sample.url Sample.params PyNone).
  pose (sk := default (start Sample.client)
                (attempt_start attempt 3 2 env (start Sample.client))).
  assert (Hstart : attempt_start attempt 3 2 env (start Sample.client) = Some sk)
    by (vm_compute; reflexivity).
  assert (Hlast : attempt env sk = (OK Sample.payload, snd (attempt env sk)))
    by (vm_compute; reflexivity).
  destruct (apost_retries_transport_errors Sample.dumps env Sample.url Sample.params PyNone
              (start Sample.client) 2 sk ltac:(lia) Hstart)
    as (_ & _ & _ & Hgood & _).
  destruct (Hgood _ _ Hlast) as (Hrun & _).
  split; [exact (f_equal fst Hrun) | vm_compute; reflexivity].
Defined.

(** C4, amended.  For every call of [__apost], in whatever state the
    client is: when the POST of attempt [k + 1] is made and its body cannot
    be decoded, the attempt fails with the decode error, as it does with a
    connection or timeout error, having made that one POST and no login;
    the decode error itself is never what [__apost] raises; unless the
    attempt was the fifth, the pause and a further attempt follow, whose
    result is returned if it succeeds; and after the fifth attempt
    [__apost] raises [RetryError] wrapping the decode error. *)
Theorem apost_retries_decode_failures
  (json_dumps : pyobj -> string) (env : Env) url params hdrs (s : State) (k : nat)
  (sk : State) (h : pyobj) (s0 : State) (e : exn) :
  k <= 4 ->
  attempt_start (__apost_attempt json_dumps url params hdrs) 3 k env s = Some sk ->
  given_or_headers json_dumps hdrs env sk = (OK h, s0) ->
  session_post env (n_session_post s0) = Raise e ->
  is_decode_error e || is_transport_error e = true ->
  let attempt := __apost_attempt json_dumps url params hdrs in
  let run := __apost json_dumps url params hdrs env s in
  exists s1,
    attempt env sk = (Raise e, s1)
    /\ n_session_post s1 = S (n_session_post s0)
    /\ n_requests_post s1 = n_requests_post s0
    /\ c_login_user (self s1) = c_login_user (self s0)
    /\ fst run <> Raise e
    /\ (k < 4 ->
        attempt_start attempt 3 (S k) env s = Some (log (EvAsyncioSleep 3) s1)
        /\ forall r s2,
             attempt env (log (EvAsyncioSleep 3) s1) = (OK r, s2) -> run = (OK r, s2))
    /\ (k = 4 -> run = (Raise (RetryError e), s1)).
Proof.
  intros Hk Hstart E0 He Hkind attempt run. subst attempt run.
  destruct (attempt_post_fails json_dumps env url params hdrs sk h s0 e E0 He)
    as (s1 & E & (_ & Hu & _ & _ & Hr & _) & Hs1).
  pose proof (attempt_start_loop _ 3 env k 4 s sk Hk Hstart) as Hloop.
  exists s1. split; [exact E|]. split; [exact Hs1|]. split; [exact Hr|].
  split; [exact Hu|]. split; [|split].
  - intros Hbare. unfold __apost, aretry in Hbare.
    destruct (tenacity_loop (5 - 1) 3 (__apost_attempt json_dumps url params hdrs) env s)
      as [r sf] eqn:Er. simpl in Hbare. subst r.
    apply tenacity_loop_wraps in Er as (e0 & ->). discriminate.
  - intros Hlt.
    pose proof (attempt_start_next _ 3 env k s sk e s1 Hstart E) as Hnext.
    split; [exact Hnext|]. intros r s2 E2.
    pose proof (attempt_start_loop _ 3 env (S k) 4 s _ ltac:(lia) Hnext) as Hloop'.
    unfold __apost, aretry. change (5 - 1) with 4. rewrite Hloop'.
    destruct (4 - S k); simpl; rewrite E2; reflexivity.
  - intros ->. unfold __apost, aretry. change (5 - 1) with 4.
    rewrite Hloop. simpl. rewrite E. reflexivity.
Qed.

(** A client that holds no token yet, an undecodable first body and a
    good second one. *)
Lemma apost_retries_decode_failures_witness :
  let env := Sample.env Sample.logins_ok Sample.posts_undecodable_then_payload in
  let run := __apost Sample.dumps Sample.url Sample.params PyNone env (start Sample.client) in
  fst run = OK Sample.payload /\ fst run <> Raise JSONDecodeError.
Proof.
  intros env run.
  pose (attempt := __apost_attempt Sample.dumps Sample.url Sample.params PyNone).
  pose (stage := given_or_headers Sample.dumps PyNone env (start Sample.client)).
  assert (E0 : given_or_headers Sample.dumps PyNone env (start Sample.client)
               = (OK (match fst stage with OK h => h | Raise _ => PyNone end), snd stage))
    by (vm_compute; reflexivity).
  assert (He : session_post env (n_session_post (snd stage)) = Raise JSONDecodeError)
    by (vm_compute; reflexivity).
  destruct (apost_retries_decode_failures Sample.dumps env Sample.url Sample.params PyNone
              (start Sample.client) 0 (start Sample.client) _ _ JSONDecodeError
              ltac:(lia) eq_refl E0 He eq_refl)
    as (s1 & E & _ & _ & _ & Hbare & Hnext & _).
  destruct (Hnext ltac:(lia)) as (_ & Hgood).
  assert (E2 : attempt env (log (EvAsyncioSleep 3) s1)
               = (OK Sample.payload, snd (attempt env (log (EvAsyncioSleep 3) s1)))).
  { assert (Hs1 : s1 = snd (attempt env (start Sample.client)))
      by (unfold attempt; now rewrite E).
    rewrite Hs1. vm_compute. reflexivity. }
  split; [|exact Hbare].
  fold run in Hgood. rewrite (Hgood _ _ E2). reflexivity.
Defined.

(* ===================================================================== *)
(** * Attempts that fail without a transport error *)
(* ===================================================================== *)

Section Attempts.
Variable json_dumps : pyobj -> string.
Variable env : Env.

(** One attempt with headers at hand, whatever the POST gives. *)
Lemma attempt_outcome_any url params hdrs s :
  headers_at_hand hdrs env s = true ->
  exists s1,
    attempt_frame env s s1
    /\ (attempt_fails (session_post env (n_session_post s)) = true ->
        __apost_attempt json_dumps url params hdrs env s
        = (Raise (attempt_error (session_post env (n_session_post s))), s1))
    /\ (forall d,
          session_post env (n_session_post s) = OK (PyDict d) ->
          is_invalidation (default PyNone (d !! "message")) = false ->
          __apost_attempt json_dumps url params hdrs env s = (OK (PyDict d), s1)).
Proof.
  intros Hh.
  destruct (headers_stage json_dumps env hdrs s Hh) as (h & s0 & E0 & Hl & Hu & Hr & Hs & Ha).
  destruct (gated_post_spec env url params h s0) as (s1 & E1 & (Hc & Hu1 & _ & _ & Hr1 & Ha1) & Hs1).
  exists s1. split; [|split].
  - unfold attempt_frame, loaded_config in *. rewrite Hc. repeat split; congruence.
  - unfold __apost_attempt. rewrite (bind_eq env _ _ _ _ _ E0).
    rewrite (bind_eq env _ _ _ _ _ E1). rewrite Hs.
    destruct (session_post env (n_session_post s)) as [r|e]; simpl; [|reflexivity].
    unfold bind, lift. destruct (dict_get r "message"); [discriminate | reflexivity].
  - intros d Hd Hi. unfold __apost_attempt. rewrite (bind_eq env _ _ _ _ _ E0).
    rewrite (bind_eq env _ _ _ _ _ E1). rewrite Hs, Hd.
    unfold bind, lift, dict_get. destruct (d !! "message"); simpl in *;
      rewrite ?Hi; reflexivity.
Qed.

Lemma tenacity_failures_any url params hdrs k :
  forall more s,
    k <= more ->
    headers_at_hand hdrs env s = true ->
    (forall i, i < k -> attempt_fails (session_post env (n_session_post s + i)) = true) ->
    exists sk,
      tenacity_loop more 3 (__apost_attempt json_dumps url params hdrs) env s
      = tenacity_loop (more - k) 3 (__apost_attempt json_dumps url params hdrs) env sk
      /\ headers_at_hand hdrs env sk = true
      /\ n_session_post sk = n_session_post s + k
      /\ n_requests_post sk = n_requests_post s
      /\ c_login_user (self sk) = c_login_user (self s).
Proof.
  induction k as [|k IH]; intros more s Hk Hh Hf.
  - exists s. rewrite Nat.sub_0_r, Nat.add_0_r. auto.
  - destruct more as [|m]; [lia|].
    destruct (attempt_outcome_any url params hdrs s Hh)
      as (s1 & (Hl & Hu & Hr & Ha & Hs) & Hrun & _).
    pose proof (Hf 0 ltac:(lia)) as H0. rewrite Nat.add_0_r in H0.
    specialize (Hrun H0).
    destruct (IH m (log (EvAsyncioSleep 3) s1)) as (sk & E & Hh' & Hs' & Hr' & Hu').
    + lia.
    + rewrite (headers_at_hand_frame env hdrs s (log (EvAsyncioSleep 3) s1)); auto.
    + intros i Hi. simpl. rewrite Hs. specialize (Hf (S i) ltac:(lia)).
      now replace (S (n_session_post s) + i) with (n_session_post s + S i) by lia.
    + exists sk. split; [|split; [exact Hh'|split; [|split]]].
      * simpl. rewrite Hrun. exact E.
      * rewrite Hs'. simpl. rewrite Hs. lia.
      * rewrite Hr'. simpl. exact Hr.
      * rewrite Hu'. simpl. exact Hu.
Qed.

(** [__apost] once [k] attempts failed in any of these ways. *)
Lemma apost_after_any_failures url params hdrs s k :
  headers_at_hand hdrs env s = true ->
  k <= 4 ->
  (forall i, i < k -> attempt_fails (session_post env (n_session_post s + i)) = true) ->
  exists s1,
    n_session_post s1 = n_session_post s + k + 1
    /\ n_requests_post s1 = n_requests_post s
    /\ c_login_user (self s1) = c_login_user (self s)
    /\ (forall d,
          session_post env (n_session_post s + k) = OK (PyDict d) ->
          is_invalidation (default PyNone (d !! "message")) = false ->
          __apost json_dumps url params hdrs env s = (OK (PyDict d), s1))
    /\ (k = 4 ->
        attempt_fails (session_post env (n_session_post s + 4)) = true ->
        __apost json_dumps url params hdrs env s
        = (Raise (RetryError (attempt_error (session_post env (n_session_post s + 4)))), s1)).
Proof.
  intros Hh Hk Hf. unfold __apost, aretry. change (5 - 1) with 4.
  destruct (tenacity_failures_any url params hdrs k 4 s Hk Hh Hf)
    as (sk & E & Hh' & Hs & Hr & Hu).
  destruct (attempt_outcome_any url params hdrs sk Hh')
    as (s1 & (_ & Hu1 & Hr1 & _ & Hs1) & Hbad & Hgood).
  exists s1. rewrite Hs in Hbad, Hgood.
  split; [lia|]. split; [congruence|]. split; [congruence|]. split.
  - intros d Hd Hi. rewrite E. specialize (Hgood d Hd Hi).
    destruct (4 - k); simpl; rewrite Hgood; reflexivity.
  - intros -> Hfail. rewrite E. simpl. rewrite (Hbad Hfail). reflexivity.
Qed.


Lemma andb_true_5 a b c d e :
  a && b && c && d && e = true ->
  a = true /\ b = true /\ c = true /\ d = true /\ e = true.
Proof. destruct a, b, c, d, e; simpl; intuition congruence. Qed.

(** [user_login] up to the POST: the arguments are ready and only the
    clock has moved. *)
Lemma user_login_prefix s cfg :
  loaded_config env s = OK cfg ->
  config_login_ready cfg = true ->
  exists sig ai un pw,
    user_login json_dumps env s
    = (res_json <- __rpost (URL_build "https" "pocketapi.48.cn" "/user/api/v1/login/app/mobile")
                           (PyDict {[ "mobile" := un; "pwd" := pw ]})
                           (PyDict {[ "pa" := PyStr sig; "appInfo" := PyStr (json_dumps ai);
                                      "Connection" := PyStr "close" ]}) 3 ;;
       content <- lift (getitem res_json "content") ;;
       userInfo <- lift (getitem content "userInfo") ;;
       modify (set_login_user (mkLoginUserInfo userInfo))) env (tick (cache_config cfg s)).
Proof.
  intros Hl Hr. apply andb_true_5 in Hr as (H1 & H2 & H3 & H4 & H5).
  destruct (lookup2 cfg "paInfo" "PostKey") as [[| | |k| |]|] eqn:E1; try discriminate.
  destruct (lookup2 cfg "paInfo" "PostKeyVersion") as [[| | |v| |]|] eqn:E2; try discriminate.
  destruct (lookup2 cfg "Headers" "appInfo") as [ai|] eqn:E3; [|discriminate].
  destruct (lookup2 cfg "userInfo" "username") as [un|] eqn:E4; [|discriminate].
  destruct (lookup2 cfg "userInfo" "password") as [pw|] eqn:E5; [|discriminate].
  pose proof (tick_cached env cfg s Hl) as Hc.
  eexists _, ai, un, pw. unfold user_login.
  rewrite (bind_eq env _ _ _ _ _ (pa_ok env cfg k v s Hl E1 E2)).
  rewrite (bind_eq env _ _ _ _ _ (config_item_cached env cfg "Headers" "appInfo" _ Hc)), E3.
  rewrite (bind_eq env _ _ _ _ _ (config_item_cached env cfg "userInfo" "username" _ Hc)), E4.
  rewrite (bind_eq env _ _ _ _ _ (config_item_cached env cfg "userInfo" "password" _ Hc)), E5.
  reflexivity.
Qed.

(** The login whose first POST is answered: no retry, and the reply
    decides. *)
Lemma user_login_first_reply s cfg r :
  loaded_config env s = OK cfg ->
  config_login_ready cfg = true ->
  requests_post env (n_requests_post s) = OK r ->
  let run := user_login json_dumps env s in
  fst run = match lookup2 r "content" "userInfo" with
            | OK _ => OK tt
            | Raise e => Raise e
            end
  /\ c_login_user (self (snd run))
     = match lookup2 r "content" "userInfo" with
       | OK u => mkLoginUserInfo u
       | Raise _ => c_login_user (self s)
       end
  /\ n_requests_post (snd run) = S (n_requests_post s)
  /\ time_sleeps (trace (snd run)) = time_sleeps (trace s).
Proof.
  intros Hl Hr Hreply run. subst run.
  destruct (user_login_prefix s cfg Hl Hr) as (sig & ai & un & pw & ->).
  pose proof (cache_config_core cfg s) as (Hlu & _ & _ & Hn & _).
  assert (Hts : time_sleeps (trace (cache_config cfg s)) = time_sleeps (trace s)).
  { unfold cache_config. destruct (c_config (self s)); [reflexivity|]. simpl.
    induction (trace s) as [|e tr IH]; [reflexivity|]. destruct e; simpl; now rewrite ?IH. }
  assert (Hsnoc : forall tr e, (forall w, e <> EvTimeSleep w) ->
                               time_sleeps (tr ++ [e]) = time_sleeps tr).
  { intros tr e He. induction tr as [|x tr IH]; simpl.
    - destruct e; try reflexivity. now destruct (He milliseconds).
    - destruct x; simpl; now rewrite ?IH. }
  unfold __rpost, retry, bind, do_requests_post, lift, modify, lookup2. simpl.
  rewrite Hn, Hreply. simpl.
  destruct (getitem r "content") as [c|e]; simpl;
    [destruct (getitem c "userInfo") as [u|e]; simpl|];
    repeat split; simpl; rewrite ?Hsnoc by discriminate; rewrite ?Hn;
    first [reflexivity | assumption].
Qed.


(** The login whose three POSTs all fail. *)
Lemma user_login_all_fail s cfg :
  loaded_config env s = OK cfg ->
  config_login_ready cfg = true ->
  (forall j, j < 3 ->
     fails_with (fun _ => true) (requests_post env (n_requests_post s + j)) = true) ->
  exists e s1,
    requests_post env (n_requests_post s + 2) = Raise e
    /\ user_login json_dumps env s = (Raise e, s1)
    /\ c_config (self s1) = Some cfg
    /\ c_login_user (self s1) = c_login_user (self s)
    /\ n_requests_post s1 = n_requests_post s + 3
    /\ n_session_post s1 = n_session_post s
    /\ asyncio_sleeps (trace s1) = asyncio_sleeps (trace s).
Proof.
  intros Hl Hr Hf.
  destruct (user_login_prefix s cfg Hl Hr) as (sig & ai & un & pw & ->).
  pose proof (cache_config_core cfg s) as (Hlu & _ & _ & Hn & Hs & Ha).
  pose proof (cache_config_cached env cfg s Hl) as Hc.
  pose proof (Hf 0 ltac:(lia)) as F0. pose proof (Hf 1 ltac:(lia)) as F1.
  pose proof (Hf 2 ltac:(lia)) as F2.
  replace (n_requests_post s + 0) with (n_requests_post s) in F0 by lia.
  replace (n_requests_post s + 1) with (S (n_requests_post s)) in F1 by lia.
  replace (n_requests_post s + 2) with (S (S (n_requests_post s))) in * by lia.
  destruct (requests_post env (n_requests_post s)) as [|e0] eqn:E0; [discriminate|].
  destruct (requests_post env (S (n_requests_post s))) as [|e1] eqn:E1; [discriminate|].
  destruct (requests_post env (S (S (n_requests_post s)))) as [|e2] eqn:E2; [discriminate|].
  exists e2. eexists. split; [reflexivity|]. split.
  - unfold __rpost, retry, bind, do_requests_post. simpl.
    rewrite Hn, E0. simpl. rewrite E1. simpl. rewrite E2. reflexivity.
  - simpl. rewrite !asyncio_sleeps_app. simpl. rewrite !app_nil_r.
    repeat split; try assumption; lia.
Qed.

(** [headers] on a client without token whose login fails three times. *)
Lemma headers_login_fails s cfg :
  loaded_config env s = OK cfg ->
  config_ready cfg = true ->
  config_login_ready cfg = true ->
  is_None (token (c_login_user (self s))) = true ->
  (forall j, j < 3 ->
     fails_with (fun _ => true) (requests_post env (n_requests_post s + j)) = true) ->
  exists e s1,
    requests_post env (n_requests_post s + 2) = Raise e
    /\ headers json_dumps env s = (Raise e, s1)
    /\ c_config (self s1) = Some cfg
    /\ c_login_user (self s1) = c_login_user (self s)
    /\ n_requests_post s1 = n_requests_post s + 3
    /\ n_session_post s1 = n_session_post s
    /\ asyncio_sleeps (trace s1) = asyncio_sleeps (trace s).
Proof.
  intros Hl Hcr Hlr Htok Hf.
  apply andb_true_6 in Hcr as (H1 & H2 & H3 & H4 & _ & _).
  destruct (lookup2 cfg "Headers" "user_agent") as [ua|] eqn:E1; [|discriminate].
  destruct (lookup2 cfg "Headers" "content_type") as [ct|] eqn:E2; [|discriminate].
  destruct (lookup2 cfg "Headers" "host") as [ho|] eqn:E3; [|discriminate].
  destruct (lookup2 cfg "Headers" "appInfo") as [ai|] eqn:E4; [|discriminate].
  pose proof (loaded_cache_config env cfg s Hl) as Hl'.
  pose proof (cache_config_core cfg s) as (Hlu & _ & _ & Hn & Hs & Ha).
  destruct (user_login_all_fail (cache_config cfg s) cfg Hl' Hlr)
    as (e & s1 & He & Hrun & Hc1 & Hlu1 & Hn1 & Hs1 & Ha1).
  { intros j Hj. rewrite Hn. now apply Hf. }
  rewrite Hn in He.
  exists e, s1. split; [exact He|]. split.
  - unfold headers.
    rewrite (bind_eq env _ _ _ _ _ (config_item_ok env cfg _ _ s Hl)), E1.
    rewrite (bind_eq env _ _ _ _ _ (config_item_ok env cfg _ _ _ Hl')), cache_config_idem, E2.
    rewrite (bind_eq env _ _ _ _ _ (config_item_ok env cfg _ _ _ Hl')), cache_config_idem, E3.
    rewrite (bind_eq env _ _ _ _ _ (config_item_ok env cfg _ _ _ Hl')), cache_config_idem, E2.
    rewrite (bind_eq env _ _ _ _ _ (config_item_ok env cfg _ _ _ Hl')), cache_config_idem, E4.
    unfold bind at 1, gets at 1. rewrite Hlu.
    destruct (token (c_login_user (self s))); try discriminate.
    unfold bind. now rewrite Hrun.
  - repeat split; congruence || lia.
Qed.

(** A dispatch on a client without token whose logins all fail: every
    attempt spends three login POSTs and none reaches the endpoint. *)
Lemma tenacity_login_failures url params cfg more :
  forall s,
    loaded_config env s = OK cfg ->
    config_ready cfg = true ->
    config_login_ready cfg = true ->
    is_None (token (c_login_user (self s))) = true ->
    (forall j, j < 3 * S more ->
       fails_with (fun _ => true) (requests_post env (n_requests_post s + j)) = true) ->
    exists e s1,
      requests_post env (n_requests_post s + 3 * more + 2) = Raise e
      /\ tenacity_loop more 3 (__apost_attempt json_dumps url params PyNone) env s
         = (Raise (RetryError e), s1)
      /\ c_login_user (self s1) = c_login_user (self s)
      /\ n_requests_post s1 = n_requests_post s + 3 * S more
      /\ n_session_post s1 = n_session_post s
      /\ asyncio_sleeps (trace s1) = (asyncio_sleeps (trace s) ++ repeat 3%Z more)%list.
Proof.
  induction more as [|m IH]; intros s Hl Hcr Hlr Htok Hf;
    destruct (headers_login_fails s cfg Hl Hcr Hlr Htok)
      as (e & s1 & He & Hrun & Hc1 & Hlu1 & Hn1 & Hs1 & Ha1);
    try (intros j Hj; apply Hf; lia);
    assert (Hatt : __apost_attempt json_dumps url params PyNone env s = (Raise e, s1))
      by (unfold __apost_attempt; now rewrite (bind_eq env _ _ _ _ _ Hrun)).
  - exists e, s1. simpl. rewrite Hatt, app_nil_r.
    replace (n_requests_post s + 0 + 2) with (n_requests_post s + 2) by lia.
    repeat split; assumption || lia.
  - destruct (IH (log (EvAsyncioSleep 3) s1)) as (e' & s2 & He' & Hrun' & Hlu2 & Hn2 & Hs2 & Ha2).
    + unfold loaded_config. simpl. now rewrite Hc1.
    + exact Hcr.
    + exact Hlr.
    + simpl. now rewrite Hlu1.
    + intros j Hj. simpl. rewrite Hn1.
      replace (n_requests_post s + 3 + j) with (n_requests_post s + (3 + j)) by lia.
      apply Hf. lia.
    + exists e', s2. simpl in *. rewrite Hatt.
      split; [rewrite <- He'; f_equal; lia|].
      split; [exact Hrun'|].
      split; [congruence|]. split; [lia|]. split; [lia|].
      rewrite Ha2, asyncio_sleeps_app, Ha1. simpl. now rewrite <- app_assoc.
Qed.

(** [headers] when the configuration file cannot be loaded. *)
Lemma headers_config_fail s e :
  loaded_config env s = Raise e ->
  headers json_dumps env s = (Raise e, log EvOpenConfig s).
Proof.
  intros Hl. unfold headers.
  now rewrite (bind_eq env _ _ _ _ _ (config_item_fail env e _ _ s Hl)).
Qed.

Lemma tenacity_config_failures url params e more :
  forall s,
    loaded_config env s = Raise e ->
    exists s1,
      tenacity_loop more 3 (__apost_attempt json_dumps url params PyNone) env s
      = (Raise (RetryError e), s1)
      /\ c_config (self s1) = None
      /\ n_requests_post s1 = n_requests_post s
      /\ n_session_post s1 = n_session_post s
      /\ count is_open_config (trace s1) = count is_open_config (trace s) + S more
      /\ asyncio_sleeps (trace s1) = (asyncio_sleeps (trace s) ++ repeat 3%Z more)%list.
Proof.
  induction more as [|m IH]; intros s Hl;
    assert (Hatt : __apost_attempt json_dumps url params PyNone env s
                   = (Raise e, log EvOpenConfig s))
      by (unfold __apost_attempt;
          now rewrite (bind_eq env _ _ _ _ _ (headers_config_fail s e Hl)));
    assert (Hnone : c_config (self s) = None)
      by (unfold loaded_config in Hl; destruct (c_config (self s)); [discriminate | reflexivity]).
  - eexists. simpl. rewrite Hatt. split; [reflexivity|]. simpl.
    rewrite count_snoc, asyncio_sleeps_app. simpl. rewrite !app_nil_r.
    repeat split; assumption || lia.
  - destruct (IH (log (EvAsyncioSleep 3) (log EvOpenConfig s)))
      as (s1 & Hrun & Hc & Hn & Hs & Ho & Ha).
    { unfold loaded_config in *. simpl. exact Hl. }
    exists s1. simpl in *. rewrite Hatt.
    split; [exact Hrun|]. split; [exact Hc|]. split; [exact Hn|]. split; [exact Hs|].
    split.
    + rewrite Ho, !count_snoc. simpl. lia.
    + rewrite Ha, !asyncio_sleeps_app. simpl. rewrite app_nil_r, <- app_assoc. reflexivity.
Qed.


(** What [headers] returns, in terms of the configuration. *)
Lemma headers_inv_static s hv s1 :
  headers json_dumps env s = (OK hv, s1) ->
  exists cfg ua ct ho ai sig tok,
    loaded_config env s = OK cfg
    /\ lookup2 cfg "Headers" "user_agent" = OK ua
    /\ lookup2 cfg "Headers" "content_type" = OK ct
    /\ lookup2 cfg "Headers" "host" = OK ho
    /\ lookup2 cfg "Headers" "appInfo" = OK ai
    /\ hv = PyDict (update_pa_token
                      {[ "User-Agent" := ua; "Content-Type" := ct; "Host" := ho;
                         "Connection" := PyStr "close"; "Accept-Encoding" := ct;
                         "appInfo" := PyStr (json_dumps ai) ]} sig tok).
Proof.
  intros H. unfold headers in H.
  apply bind_inv in H as (ua & s0 & H1 & H).
  apply config_item_inv in H1 as (cfg & Hl & Hua & ->).
  pose proof (cache_config_cached env cfg s Hl) as Hc.
  rewrite (bind_eq env _ _ _ _ _ (config_item_cached env cfg "Headers" "content_type" _ Hc)) in H.
  destruct (lookup2 cfg "Headers" "content_type") as [ct|] eqn:Ect; [|discriminate].
  rewrite (bind_eq env _ _ _ _ _ (config_item_cached env cfg "Headers" "host" _ Hc)) in H.
  destruct (lookup2 cfg "Headers" "host") as [ho|] eqn:Eho; [|discriminate].
  rewrite (bind_eq env _ _ _ _ _ (config_item_cached env cfg "Headers" "content_type" _ Hc)) in H.
  rewrite Ect in H.
  rewrite (bind_eq env _ _ _ _ _ (config_item_cached env cfg "Headers" "appInfo" _ Hc)) in H.
  destruct (lookup2 cfg "Headers" "appInfo") as [ai|] eqn:Eai; [|discriminate].
  apply bind_inv in H as (u & sx & _ & H).
  apply bind_inv in H as (x & sl & _ & H).
  apply bind_inv in H as (sig & sp & _ & H).
  apply bind_inv in H as (u' & sq & _ & H).
  unfold ret in H. injection H as <- _.
  exists cfg, ua, ct, ho, ai, sig, (token u'). repeat split; assumption.
Qed.

(** A successful login has read a usable [paInfo]. *)
Lemma user_login_ok_paInfo s s1 :
  user_login json_dumps env s = (OK tt, s1) ->
  exists cfg k v,
    c_config (self s1) = Some cfg
    /\ lookup2 cfg "paInfo" "PostKey" = OK (PyStr k)
    /\ lookup2 cfg "paInfo" "PostKeyVersion" = OK (PyStr v).
Proof.
  intros H.
  destruct (user_login_inv json_dumps env s s1 H) as (cfg & Hl & Hc & _).
  unfold user_login in H. apply bind_inv in H as (sig & sa & Hpa & _).
  apply pa_inv in Hpa as (cfg' & k & v & Hl' & Hk & Hv & _).
  assert (cfg' = cfg) as -> by congruence.
  exists cfg, k, v. auto.
Qed.

(** [headers] is all or nothing for the login state. *)
Lemma headers_failure_keeps_login_user s e s1 :
  headers json_dumps env s = (Raise e, s1) ->
  c_login_user (self s1) = c_login_user (self s).
Proof.
  intros H. unfold headers in H.
  destruct (loaded_config env s) as [cfg|e0] eqn:Hl.
  2: { rewrite (bind_eq env _ _ _ _ _ (config_item_fail env e0 _ _ s Hl)) in H.
       now injection H as _ <-. }
  pose proof (cache_config_cached env cfg s Hl) as Hc.
  pose proof (cache_config_core cfg s) as (Hlu & _).
  rewrite (bind_eq env _ _ _ _ _ (config_item_ok env cfg _ _ s Hl)) in H.
  destruct (lookup2 cfg "Headers" "user_agent") as [ua|]; [|now injection H as _ <-].
  rewrite (bind_eq env _ _ _ _ _ (config_item_cached env cfg "Headers" "content_type" _ Hc)) in H.
  destruct (lookup2 cfg "Headers" "content_type") as [ct|] eqn:Ect; [|now injection H as _ <-].
  rewrite (bind_eq env _ _ _ _ _ (config_item_cached env cfg "Headers" "host" _ Hc)) in H.
  destruct (lookup2 cfg "Headers" "host") as [ho|]; [|now injection H as _ <-].
  rewrite (bind_eq env _ _ _ _ _ (config_item_cached env cfg "Headers" "content_type" _ Hc)) in H.
  rewrite Ect in H.
  rewrite (bind_eq env _ _ _ _ _ (config_item_cached env cfg "Headers" "appInfo" _ Hc)) in H.
  destruct (lookup2 cfg "Headers" "appInfo") as [ai|]; [|now injection H as _ <-].
  unfold bind at 1, gets at 1 in H.
  assert (Hpa_raise : forall s0 r s2,
             c_login_user (self s0) = c_login_user (self s) ->
             (sig <- pa ;; u' <- gets c_login_user ;;
              ret (PyDict (update_pa_token
                             {[ "User-Agent" := ua; "Content-Type" := ct; "Host" := ho;
                                "Connection" := PyStr "close"; "Accept-Encoding" := ct;
                                "appInfo" := PyStr (json_dumps ai) ]} sig (token u'))))
               env s0 = (r, s2) ->
             c_login_user (self s2) = c_login_user (self s)).
  { intros s0 r s2 Hs0. unfold bind.
    destruct (pa env s0) as [[sig|e1] sp] eqn:Epa;
      pose proof (pa_keeps_login env _ _ _ Epa) as Hk; intros [= _ <-]; congruence. }
  destruct (token (c_login_user (self (cache_config cfg s)))) eqn:Etok.
  1: { destruct (user_login json_dumps env (cache_config cfg s)) as [[[]|e1] sl] eqn:El;
         rewrite (bind_eq env _ _ _ _ _ El) in H.
       - exfalso.
         destruct (user_login_ok_paInfo _ _ El) as (cfg' & k & v & Hc' & Hk & Hv).
         assert (Hl' : loaded_config env sl = OK cfg')
           by (unfold loaded_config; now rewrite Hc').
         rewrite (bind_eq env _ _ _ _ _ (pa_ok env cfg' k v sl Hl' Hk Hv)) in H.
         discriminate.
       - injection H as _ <-.
         rewrite (user_login_failure_keeps_login_user json_dumps env _ _ _ El). exact Hlu. }
  all: unfold bind at 1, ret at 1 in H; exact (Hpa_raise _ _ _ Hlu H).
Qed.

End Attempts.

(* ===================================================================== *)
(** * The session identifier *)
(* ===================================================================== *)

Lemma remove_hyphens_none (s : string) : count_hyphens (remove_hyphens s) = 0.
Proof.
  induction s as [|c s IH]; [reflexivity|]. simpl.
  destruct (Ascii.eqb c "-") eqn:E; [exact IH|]. simpl. now rewrite E.
Qed.

Lemma remove_hyphens_length (s : string) :
  String.length (remove_hyphens s) + count_hyphens s = String.length s.
Proof.
  induction s as [|c s IH]; [reflexivity|]. simpl.
  destruct (Ascii.eqb c "-"); simpl; lia.
Qed.

Lemma remove_hyphens_fixed (s : string) : count_hyphens s = 0 -> remove_hyphens s = s.
Proof.
  induction s as [|c s IH]; [reflexivity|]. simpl.
  destruct (Ascii.eqb c "-"); [discriminate|]. simpl. intros H. now rewrite IH.
Qed.

(* ===================================================================== *)
(** * The pauses of the login *)
(* ===================================================================== *)

Lemma time_sleeps_app (tr1 tr2 : list event) :
  time_sleeps (tr1 ++ tr2) = (time_sleeps tr1 ++ time_sleeps tr2)%list.
Proof.
  induction tr1 as [|e tr1 IH]; [reflexivity|].
  destruct e; simpl; rewrite IH; reflexivity.
Qed.

(** Pauses of [retrying] add up along a run; only [__rpost] makes any. *)
Lemma naps_refl (s : State) : naps 0 s s.
Proof. exists 0. simpl. now rewrite app_nil_r. Qed.

Lemma naps_trans (a b : nat) (s s1 s2 : State) :
  naps a s s1 -> naps b s1 s2 -> naps (a + b) s s2.
Proof.
  intros (i & Hi & E1) (j & Hj & E2). exists (i + j). split; [lia|].
  rewrite E2, E1, <- app_assoc, repeat_app. reflexivity.
Qed.

Lemma naps_weaken (a b : nat) (s s1 : State) : naps a s s1 -> a <= b -> naps b s s1.
Proof. intros (i & Hi & E) Hab. exists i. split; [lia | exact E]. Qed.

Lemma naps_same (s s1 : State) : trace s1 = trace s -> naps 0 s s1.
Proof. intros E. exists 0. simpl. now rewrite E, app_nil_r. Qed.

Lemma naps_log (e : event) (s : State) :
  (forall w, e <> EvTimeSleep w) -> naps 0 s (log e s).
Proof.
  intros Hne. exists 0. split; [lia|]. simpl. rewrite time_sleeps_app.
  destruct e; simpl; try reflexivity. now destruct (Hne milliseconds).
Qed.

Lemma holds_naps_weaken {A} (c : M A) env (a b : nat) :
  holds c env (naps a) -> a <= b -> holds c env (naps b).
Proof. intros H Hab s r s1 E. exact (naps_weaken _ _ _ _ (H _ _ _ E) Hab). Qed.

Lemma holds_bind_naps {A B} (c : M A) (k : A -> M B) env (a b : nat) :
  holds c env (naps a) -> (forall x, holds (k x) env (naps b)) ->
  holds (bind c k) env (naps (a + b)).
Proof.
  intros Hc Hk s r s2. unfold bind.
  destruct (c env s) as [[x|e] s1] eqn:E.
  - intros H. exact (naps_trans _ _ _ _ _ (Hc _ _ _ E) (Hk x _ _ _ H)).
  - intros [= _ <-]. apply (naps_weaken a); [exact (Hc _ _ _ E) | lia].
Qed.

Lemma naps_ret {A} (a : A) env : holds (ret a) env (naps 0).
Proof. intros s r s1 [= _ <-]. apply naps_refl. Qed.

Lemma naps_lift {A} (x : result A) env : holds (lift x) env (naps 0).
Proof. intros s r s1 [= _ <-]. apply naps_refl. Qed.

Lemma naps_gets {A} (f : Client -> A) env : holds (gets f) env (naps 0).
Proof. intros s r s1 [= _ <-]. apply naps_refl. Qed.

Lemma naps_modify (f : Client -> Client) env : holds (modify f) env (naps 0).
Proof. intros s r s1 [= _ <-]. now apply naps_same. Qed.

Lemma naps_emit (e : event) env :
  (forall w, e <> EvTimeSleep w) -> holds (emit e) env (naps 0).
Proof. intros Hne s r s1 [= _ <-]. now apply naps_log. Qed.

Lemma naps_finally {A} (c : M A) (e : event) env (a : nat) :
  (forall w, e <> EvTimeSleep w) -> holds c env (naps a) -> holds (finally c e) env (naps a).
Proof.
  intros Hne Hc s r s2. unfold finally. destruct (c env s) as [r1 s1] eqn:E.
  intros [= _ <-]. rewrite <- (Nat.add_0_r a).
  exact (naps_trans _ _ _ _ _ (Hc _ _ _ E) (naps_log e s1 Hne)).
Qed.

Lemma naps_config env : holds config env (naps 0).
Proof.
  intros s r s1. unfold config, bind, gets, emit, modify, ret. simpl.
  destruct (c_config (self s)); simpl; [intros [= _ <-]; apply naps_refl|].
  destruct (config_toml env); simpl; intros [= _ <-];
    now apply (naps_log EvOpenConfig s).
Qed.

Lemma naps_config_item env (group key : string) : holds (config_item group key) env (naps 0).
Proof.
  apply holds_config_item;
    first [exact naps_refl | exact (naps_trans 0 0) | exact (naps_config env)].
Qed.

Lemma naps_pa env : holds pa env (naps 0).
Proof.
  apply holds_pa;
    first [exact naps_refl | exact (naps_trans 0 0) | exact (naps_config env)
          | intros s; now apply naps_same].
Qed.

Lemma naps_session env : holds session env (naps 0).
Proof.
  intros s r s1. unfold session, connector, bind, gets, emit, modify. simpl.
  destruct (c_session (self s)); simpl; [intros [= _ <-]; apply naps_refl|].
  destruct (c_connector (self s)); simpl; intros [= _ <-];
    exists 0; (split; [lia|]); simpl; rewrite !time_sleeps_app; simpl;
    now rewrite ?app_nil_r.
Qed.

Lemma naps_retrying_loop {A} (fn : M A) env (a more : nat) :
  holds fn env (naps a) ->
  holds (retrying_loop more 3 fn) env (naps (S more * a + more)).
Proof.
  intros Hfn. induction more as [|m IH]; intros s r s2; simpl;
    destruct (fn env s) as [[x|e] s1] eqn:E; intros H;
    pose proof (Hfn _ _ _ E) as H1.
  - injection H as _ <-. apply (naps_weaken a); [exact H1 | lia].
  - injection H as _ <-. apply (naps_weaken a); [exact H1 | lia].
  - injection H as _ <-. apply (naps_weaken a); [exact H1 | lia].
  - apply IH in H.
    assert (Hnap : naps 1 s1 (log (EvTimeSleep 3) s1)).
    { exists 1. split; [lia|]. simpl. now rewrite time_sleeps_app. }
    apply (naps_weaken (a + 1 + (S m * a + m))); [|simpl; lia].
    exact (naps_trans _ _ _ _ _ (naps_trans _ _ _ _ _ H1 Hnap) H).
Qed.

Lemma naps_tenacity_loop {A} (fn : M A) env (w : Z) (a more : nat) :
  holds fn env (naps a) ->
  holds (tenacity_loop more w fn) env (naps (S more * a)).
Proof.
  intros Hfn. induction more as [|m IH]; intros s r s2; simpl;
    destruct (fn env s) as [[x|e] s1] eqn:E; intros H;
    pose proof (Hfn _ _ _ E) as H1.
  - injection H as _ <-. apply (naps_weaken a); [exact H1 | lia].
  - injection H as _ <-. apply (naps_weaken a); [exact H1 | lia].
  - injection H as _ <-. apply (naps_weaken a); [exact H1 | lia].
  - apply IH in H.
    assert (Hnap : naps 0 s1 (log (EvAsyncioSleep w) s1)) by (now apply naps_log).
    apply (naps_weaken (a + 0 + S m * a)); [|simpl; lia].
    exact (naps_trans _ _ _ _ _ (naps_trans _ _ _ _ _ H1 Hnap) H).
Qed.

Lemma naps_rpost env (u : URL) (p h : pyobj) (t : Z) :
  holds (__rpost u p h t) env (naps 2).
Proof.
  unfold __rpost, retry.
  apply (naps_retrying_loop _ env 0 2).
  intros s r s1 [= _ <-]. exists 0. split; [lia|]. simpl.
  rewrite time_sleeps_app. reflexivity.
Qed.

Ltac naps_bind := eapply holds_bind_naps; [|intros ?].

Lemma naps_user_login json_dumps env : holds (user_login json_dumps) env (naps 2).
Proof.
  eapply holds_naps_weaken; [|shelve].
  unfold user_login.
  naps_bind; [apply naps_pa|].
  naps_bind; [apply naps_config_item|].
  naps_bind; [apply naps_config_item|].
  naps_bind; [apply naps_config_item|].
  naps_bind; [apply naps_rpost|].
  naps_bind; [apply naps_lift|].
  naps_bind; [apply naps_lift|].
  apply naps_modify.
  Unshelve. simpl; lia.
Qed.

Lemma naps_headers json_dumps env : holds (headers json_dumps) env (naps 2).
Proof.
  eapply holds_naps_weaken; [|shelve].
  unfold headers.
  do 5 (naps_bind; [apply naps_config_item|]).
  eapply holds_bind_naps; [apply naps_gets | intros u].
  naps_bind.
  { instantiate (1 := 2).
    destruct (token u); try (eapply holds_naps_weaken; [apply naps_ret | lia]).
    apply naps_user_login. }
  naps_bind; [apply naps_pa|].
  naps_bind; [apply naps_gets|].
  apply naps_ret.
  Unshelve. simpl; lia.
Qed.

Lemma naps_apost_attempt json_dumps env (url : URL) (params hdrs : pyobj) :
  holds (__apost_attempt json_dumps url params hdrs) env (naps 4).
Proof.
  eapply holds_naps_weaken; [|shelve].
  unfold __apost_attempt.
  naps_bind.
  { instantiate (1 := 2).
    destruct hdrs; try (eapply holds_naps_weaken; [apply naps_ret | lia]).
    apply naps_headers. }
  naps_bind.
  { unfold with_sem. naps_bind; [apply naps_emit; discriminate|].
    apply naps_finally; [discriminate|].
    naps_bind; [apply naps_session|].
    naps_bind.
    { instantiate (1 := 0).
      intros s r s1 [= _ <-]. exists 0. split; [lia|]. simpl.
      rewrite time_sleeps_app. reflexivity. }
    naps_bind; [apply naps_emit; discriminate|]. apply naps_ret. }
  eapply holds_bind_naps; [apply naps_lift | intros m].
  instantiate (1 := 2).
  destruct (is_invalidation m).
  - eapply holds_naps_weaken; [naps_bind; [apply naps_user_login | apply naps_ret]|];
      simpl; lia.
  - eapply holds_naps_weaken; [apply naps_ret | lia].
  Unshelve. simpl; lia.
Qed.

Lemma naps_apost json_dumps env (url : URL) (params hdrs : pyobj) :
  holds (__apost json_dumps url params hdrs) env (naps 20).
Proof.
  unfold __apost, aretry.
  apply (naps_tenacity_loop _ env 3 4 4). apply naps_apost_attempt.
Qed.

(* ===================================================================== *)
(** * Further properties of the client *)
(* ===================================================================== *)

(** X1. Over any sequence of calls on a client built by [__init__], the
    connection pool is built at most once, the session is built at most
    once and never before the pool, and the pool is closed at most once. *)
Theorem pool_and_session_built_at_most_once
  (json_dumps : pyobj -> string) (env : Env) (c : Client) (calls : list call) :
  __init__ env = OK c ->
  let s := perform_all json_dumps calls env (start c) in
  count is_new_connector (trace s) <= 1
  /\ count is_new_session (trace s) <= count is_new_connector (trace s)
  /\ count is_close_connector (trace s) <= count is_new_connector (trace s).
Proof.
  intros Hinit s.
  destruct (lifecycle_perform_all json_dumps env calls (start c) (lifecycle_start env c Hinit))
    as (H1 & H2 & H3 & H4 & _).
  fold s in H1, H2, H3, H4. rewrite H1, H2, H3.
  destruct (c_connector (self s)) as [k|].
  - split; [lia|]. split; [destruct (c_session (self s)); lia | destruct (closed k); lia].
  - split; [lia|]. split; [|lia].
    destruct (c_session (self s)); [|lia]. now destruct H4.
Qed.

Lemma pool_and_session_built_at_most_once_witness :
  let s := perform_all Sample.dumps Scenario.two_scopes
             (Sample.env Sample.logins_ok Sample.posts_ok) (start Sample.client) in
  count is_new_connector (trace s) <= 1
  /\ count is_new_session (trace s) <= count is_new_connector (trace s)
  /\ count is_close_connector (trace s) <= count is_new_connector (trace s).
Proof.
  apply (pool_and_session_built_at_most_once Sample.dumps
           (Sample.env Sample.logins_ok Sample.posts_ok) Sample.client Scenario.two_scopes).
  reflexivity.
Defined.

(** X2. When [config.toml] can be loaded, it is opened at most once over
    any sequence of calls on a client built by [__init__]. *)
Theorem config_file_opened_at_most_once
  (json_dumps : pyobj -> string) (env : Env) (c : Client) (calls : list call) :
  __init__ env = OK c ->
  is_ok (config_toml env) = true ->
  count is_open_config (trace (perform_all json_dumps calls env (start c))) <= 1.
Proof.
  intros Hinit Hok.
  destruct (lifecycle_perform_all json_dumps env calls (start c) (lifecycle_start env c Hinit))
    as (_ & _ & _ & _ & H5).
  rewrite (H5 Hok).
  destruct (c_config (self (perform_all json_dumps calls env (start c)))); lia.
Qed.

Lemma config_file_opened_at_most_once_witness :
  count is_open_config
    (trace (perform_all Sample.dumps Scenario.two_scopes
              (Sample.env Sample.logins_ok Sample.posts_ok) (start Sample.client))) <= 1.
Proof.
  apply (config_file_opened_at_most_once Sample.dumps
           (Sample.env Sample.logins_ok Sample.posts_ok) Sample.client Scenario.two_scopes);
    reflexivity.
Defined.

(** X3. No sequence of calls undoes anything: the session identifier, the
    base address and the semaphore stay as they are, a cached
    configuration and a built session stay, the pool keeps its settings
    and stays closed once closed, and the log only grows. *)
Theorem calls_never_undo
  (json_dumps : pyobj -> string) (env : Env) (calls : list call) (s : State) :
  never_undone s (perform_all json_dumps calls env s).
Proof. apply never_undone_perform_all. Qed.

(** X4. Leaving the managed scope never fails, leaves the pool closed,
    touches neither the session nor the login state, and doing it again
    changes nothing. *)
Theorem aexit_closes_and_is_idempotent (env : Env) (s : State) :
  let run := __aexit__ env s in
  fst run = OK tt
  /\ (exists k, c_connector (self (snd run)) = Some k /\ closed k = true)
  /\ c_session (self (snd run)) = c_session (self s)
  /\ c_login_user (self (snd run)) = c_login_user (self s)
  /\ __aexit__ env (snd run) = (OK tt, snd run).
Proof.
  cbv zeta. rewrite aexit_spec. simpl.
  destruct (c_connector (self s)) as [k|] eqn:Ec; [destruct (closed k) eqn:Ek|].
  - split; [reflexivity|]. split; [exists k; auto|].
    split; [reflexivity|]. split; [reflexivity|].
    rewrite aexit_spec, Ec, Ek. reflexivity.
  - split; [reflexivity|]. split; [eexists; split; reflexivity|].
    split; [reflexivity|]. split; [reflexivity|].
    rewrite aexit_spec. reflexivity.
  - split; [reflexivity|]. split; [eexists; split; reflexivity|].
    split; [reflexivity|]. split; [reflexivity|].
    rewrite aexit_spec. reflexivity.
Qed.

(** X5. Whatever the replies, one endpoint call sends at most 5 POSTs
    through the session and at most 30 login POSTs; between its attempts
    it pauses at most 4 times, 3 seconds each ([asyncio.sleep]); and inside
    its logins it pauses at most 20 times, 3 milliseconds each
    ([time.sleep]). *)
Theorem endpoint_call_budget (json_dumps : pyobj -> string) (env : Env) (_id : Z) (s : State) :
  let budget (s1 : State) :=
    within 5 30 s s1
    /\ (exists j, j <= 4
                  /\ asyncio_sleeps (trace s1)
                     = (asyncio_sleeps (trace s) ++ repeat 3%Z j)%list)
    /\ (exists n, n <= 20
                  /\ time_sleeps (trace s1)
                     = (time_sleeps (trace s) ++ repeat 3%Z n)%list) in
  budget (snd (get_starBasicInfo json_dumps _id env s))
  /\ budget (snd (get_userInfo json_dumps _id env s))
  /\ budget (snd (get_roomInfo json_dumps _id env s)).
Proof.
  assert (H : forall url params (ctor : pyobj -> record),
             let run := (res_json <- __apost json_dumps url params PyNone ;;
                         content <- lift (getitem res_json "content") ;;
                         ret (ctor content)) env s in
             within 5 30 s (snd run)
             /\ (exists j, j <= 4
                           /\ asyncio_sleeps (trace (snd run))
                              = (asyncio_sleeps (trace s) ++ repeat 3%Z j)%list)
             /\ (exists n, n <= 20
                           /\ time_sleeps (trace (snd run))
                              = (time_sleeps (trace s) ++ repeat 3%Z n)%list)).
  { intros url params ctor. cbv zeta. unfold bind.
    destruct (__apost json_dumps url params PyNone env s) as [r s1] eqn:E.
    assert (Hs : snd (match r with
                      | OK a => match lift (getitem a "content") env s1 with
                                | (OK a0, s2) => ret (ctor a0) env s2
                                | (Raise e, s2) => (Raise e, s2)
                                end
                      | Raise e => (Raise e, s1)
                      end) = s1).
    { destruct r as [a|e]; [|reflexivity]. unfold lift, ret.
      destruct (getitem a "content"); reflexivity. }
    rewrite Hs. split; [|split].
    - exact (within_apost json_dumps env url params PyNone _ _ _ E).
    - unfold __apost, aretry in E.
      exact (tenacity_loop_sleeps _ env 4
               (same_sleeps_apost_attempt json_dumps env url params PyNone) _ _ _ E).
    - exact (naps_apost json_dumps env url params PyNone _ _ _ E). }
  cbv zeta. split; [|split]; apply H.
Qed.

(** X6. A login that fails, for whatever reason, leaves the stored login
    state as it was, has sent nothing through the session and has made at
    most three login POSTs. *)
Theorem failed_login_leaves_state
  (json_dumps : pyobj -> string) (env : Env) (s : State) (e : exn) (s1 : State) :
  user_login json_dumps env s = (Raise e, s1) ->
  c_login_user (self s1) = c_login_user (self s)
  /\ n_session_post s1 = n_session_post s
  /\ n_requests_post s1 <= n_requests_post s + 3.
Proof.
  intros H. split.
  - exact (user_login_failure_keeps_login_user json_dumps env s e s1 H).
  - destruct (within_user_login json_dumps env _ _ _ H) as (Hs & Hr). lia.
Qed.

Lemma failed_login_leaves_state_witness :
  let run := user_login Sample.dumps (Sample.env Scenario.logins_timeout Sample.posts_ok)
                        (start Sample.client) in
  token (c_login_user (self (snd run))) = PyNone
  /\ n_session_post (snd run) = 0
  /\ n_requests_post (snd run) <= 3.
Proof.
  intros run.
  assert (Hrun : run = (Raise TimeoutError, snd run)) by (vm_compute; reflexivity).
  destruct (failed_login_leaves_state Sample.dumps
              (Sample.env Scenario.logins_timeout Sample.posts_ok)
              (start Sample.client) TimeoutError (snd run) Hrun) as (Hlu & Hs & Hr).
  rewrite Hlu. repeat split; assumption.
Defined.

(** X7. A login whose POST is answered at the first, second or third
    attempt makes no further POST and pauses 3 milliseconds before each
    repeated attempt; the reply decides: its [content.userInfo] becomes
    the stored login state, or the missing key is raised ([KeyError], or
    [TypeError] when the reply is no mapping) and the login state stays. *)
Theorem login_reply_decides
  (json_dumps : pyobj -> string) (env : Env) (s : State) (cfg : pyobj) (k : nat) (r : pyobj) :
  loaded_config env s = OK cfg ->
  config_login_ready cfg = true ->
  k <= 2 ->
  (forall j, j < k ->
     fails_with (fun _ => true) (requests_post env (n_requests_post s + j)) = true) ->
  requests_post env (n_requests_post s + k) = OK r ->
  let run := user_login json_dumps env s in
  fst run = match lookup2 r "content" "userInfo" with
            | OK _ => OK tt
            | Raise e => Raise e
            end
  /\ c_login_user (self (snd run))
     = match lookup2 r "content" "userInfo" with
       | OK u => mkLoginUserInfo u
       | Raise _ => c_login_user (self s)
       end
  /\ n_requests_post (snd run) = n_requests_post s + k + 1
  /\ time_sleeps (trace (snd run)) = (time_sleeps (trace s) ++ repeat 3%Z k)%list.
Proof.
  intros Hl Hr Hk Hf Hreply run. subst run.
  destruct (user_login_prefix json_dumps env s cfg Hl Hr) as (sig & ai & un & pw & ->).
  pose proof (cache_config_core cfg s) as (Hlu & _ & _ & Hn & _).
  assert (Hts : time_sleeps (trace (cache_config cfg s)) = time_sleeps (trace s)).
  { unfold cache_config. destruct (c_config (self s)); [reflexivity|]. simpl.
    rewrite time_sleeps_app. simpl. apply app_nil_r. }
  assert (F : forall j, j < k -> exists e, requests_post env (n_requests_post s + j) = Raise e).
  { intros j Hj. specialize (Hf j Hj).
    destruct (requests_post env (n_requests_post s + j)); [discriminate | eauto]. }
  unfold __rpost, retry, bind, do_requests_post, lift, modify, lookup2. simpl.
  rewrite Hn.
  destruct k as [|[|[|k]]]; [| | |lia].
  - rewrite Nat.add_0_r in Hreply. rewrite Hreply. simpl.
    destruct (getitem r "content") as [c|e]; simpl;
      [destruct (getitem c "userInfo") as [u|e]; simpl|];
      repeat split; simpl; rewrite ?time_sleeps_app, ?Hts, ?Hn; simpl;
      rewrite ?app_nil_r; first [reflexivity | assumption | lia].
  - destruct (F 0 ltac:(lia)) as (e0 & E0). rewrite Nat.add_0_r in E0.
    replace (n_requests_post s + 1) with (S (n_requests_post s)) in Hreply by lia.
    rewrite E0. simpl. rewrite Hreply. simpl.
    destruct (getitem r "content") as [c|e]; simpl;
      [destruct (getitem c "userInfo") as [u|e]; simpl|];
      repeat split; simpl; rewrite ?time_sleeps_app, ?Hts, ?Hn; simpl;
      rewrite ?app_nil_r; first [reflexivity | assumption | lia].
  - destruct (F 0 ltac:(lia)) as (e0 & E0). rewrite Nat.add_0_r in E0.
    destruct (F 1 ltac:(lia)) as (e1 & E1).
    replace (n_requests_post s + 1) with (S (n_requests_post s)) in E1 by lia.
    replace (n_requests_post s + 2) with (S (S (n_requests_post s))) in Hreply by lia.
    rewrite E0. simpl. rewrite E1. simpl. rewrite Hreply. simpl.
    destruct (getitem r "content") as [c|e]; simpl;
      [destruct (getitem c "userInfo") as [u|e]; simpl|];
      repeat split; simpl; rewrite ?time_sleeps_app, ?Hts, ?Hn; simpl;
      rewrite ?app_nil_r, <- ?app_assoc; first [reflexivity | assumption | lia].
Qed.

Lemma login_reply_decides_witness :
  let run := user_login Sample.dumps
               (Sample.env Scenario.logins_refused_then_no_content Sample.posts_ok)
               (start Sample.client) in
  fst run = Raise (KeyError "content")
  /\ c_login_user (self (snd run)) = mkLoginUserInfo (PyDict ∅)
  /\ n_requests_post (snd run) = 2
  /\ time_sleeps (trace (snd run)) = [3%Z].
Proof.
  apply (login_reply_decides Sample.dumps
           (Sample.env Scenario.logins_refused_then_no_content Sample.posts_ok)
           (start Sample.client) Sample.cfg 1 Sample.no_content).
  - reflexivity.
  - vm_compute. reflexivity.
  - lia.
  - intros [|j] Hj; [reflexivity | lia].
  - reflexivity.
Defined.

(** X8. With a loaded configuration, [pa] returns exactly when
    [paInfo.PostKey] and [paInfo.PostKeyVersion] are both strings.  When
    one of them cannot be looked up, the lookup error is raised before the
    clock is read; when both are there but one is not a string, the
    concatenation raises [TypeError]. *)
Theorem pa_needs_string_paInfo (env : Env) (s : State) (cfg : pyobj) :
  loaded_config env s = OK cfg ->
  let key := lookup2 cfg "paInfo" "PostKey" in
  let version := lookup2 cfg "paInfo" "PostKeyVersion" in
  is_ok (fst (pa env s)) = is_str key && is_str version
  /\ (is_ok key && is_ok version = false -> n_time (snd (pa env s)) = n_time s)
  /\ (is_ok key && is_ok version = true -> is_str key && is_str version = false ->
      fst (pa env s) = Raise TypeError).
Proof.
  intros Hl key version. subst key version. rewrite (pa_spec env cfg s Hl).
  pose proof (cache_config_core cfg s) as (_ & _ & Ht & _).
  destruct (lookup2 cfg "paInfo" "PostKey") as [pk|e1];
    destruct (lookup2 cfg "paInfo" "PostKeyVersion") as [pv|e2]; simpl;
    try (repeat split; try discriminate; try (intros _; exact Ht);
         destruct pk; reflexivity).
  destruct pk, pv; simpl; repeat split; try discriminate; reflexivity.
Qed.

Lemma pa_needs_string_paInfo_witness :
  fst (pa Scenario.env_integer_version (start Sample.client)) = Raise TypeError.
Proof.
  refine (proj2 (proj2 (pa_needs_string_paInfo Scenario.env_integer_version
                          (start Sample.client) Scenario.cfg_integer_version _)) _ _);
    vm_compute; reflexivity.
Defined.

Lemma projection_run (json_dumps : pyobj -> string) (env : Env) url params
  (ctor : pyobj -> record) (s : State) (r : result pyobj) (s1 : State) :
  __apost json_dumps url params PyNone env s = (r, s1) ->
  (res_json <- __apost json_dumps url params PyNone ;;
   content <- lift (getitem res_json "content") ;;
   ret (ctor content)) env s
  = (match r with
     | OK a => match getitem a "content" with
               | OK c => OK (ctor c)
               | Raise e => Raise e
               end
     | Raise e => Raise e
     end, s1).
Proof.
  intros H. unfold bind. rewrite H. destruct r as [a|e]; [|reflexivity].
  unfold lift, ret. destruct (getitem a "content"); reflexivity.
Qed.

(** X9. When [config.toml] cannot be loaded, an endpoint call sends
    nothing: the dispatcher retries the failing load, so the file is
    opened five times with four pauses of 3 seconds between, and the load
    error reaches the caller wrapped in [RetryError]. *)
Theorem unreadable_config_is_retried
  (json_dumps : pyobj -> string) (env : Env) (_id : Z) (s : State) (e : exn) :
  config_toml env = Raise e ->
  c_config (self s) = None ->
  let outcome (run : result record * State) :=
    fst run = Raise (RetryError e)
    /\ n_session_post (snd run) = n_session_post s
    /\ n_requests_post (snd run) = n_requests_post s
    /\ count is_open_config (trace (snd run)) = count is_open_config (trace s) + 5
    /\ asyncio_sleeps (trace (snd run)) = (asyncio_sleeps (trace s) ++ [3; 3; 3; 3]%Z)%list in
  outcome (get_starBasicInfo json_dumps _id env s)
  /\ outcome (get_userInfo json_dumps _id env s)
  /\ outcome (get_roomInfo json_dumps _id env s).
Proof.
  intros He Hc.
  assert (Hl : loaded_config env s = Raise e) by (unfold loaded_config; now rewrite Hc).
  assert (H : forall url params (ctor : pyobj -> record),
             let run := (res_json <- __apost json_dumps url params PyNone ;;
                         content <- lift (getitem res_json "content") ;;
                         ret (ctor content)) env s in
             fst run = Raise (RetryError e)
             /\ n_session_post (snd run) = n_session_post s
             /\ n_requests_post (snd run) = n_requests_post s
             /\ count is_open_config (trace (snd run)) = count is_open_config (trace s) + 5
             /\ asyncio_sleeps (trace (snd run))
                = (asyncio_sleeps (trace s) ++ [3; 3; 3; 3]%Z)%list).
  { intros url params ctor.
    destruct (tenacity_config_failures json_dumps env url params e 4 s Hl)
      as (s1 & Hrun & _ & Hn & Hs & Ho & Ha).
    cbv zeta. rewrite (projection_run json_dumps env url params ctor s _ s1 Hrun).
    simpl. repeat split; assumption. }
  cbv zeta. split; [|split]; apply H.
Qed.

Lemma unreadable_config_is_retried_witness :
  let run := get_userInfo Sample.dumps 5 Scenario.env_unreadable (start Sample.client) in
  fst run = Raise (RetryError OSError)
  /\ n_session_post (snd run) = 0
  /\ n_requests_post (snd run) = 0
  /\ count is_open_config (trace (snd run)) = 5
  /\ asyncio_sleeps (trace (snd run)) = [3; 3; 3; 3]%Z.
Proof.
  refine (proj1 (proj2 (unreadable_config_is_retried Sample.dumps Scenario.env_unreadable 5
                          (start Sample.client) OSError _ _))); reflexivity.
Defined.

(** X10. On a client without token whose login POSTs all fail, an
    endpoint call makes fifteen login POSTs (five attempts of the
    dispatcher, three of the login each), sends nothing through the
    session, leaves the login state without token and raises [RetryError]
    wrapping the error of the last login POST. *)
Theorem failing_login_is_retried_by_dispatch
  (json_dumps : pyobj -> string) (env : Env) (_id : Z) (s : State) (cfg : pyobj) :
  loaded_config env s = OK cfg ->
  config_ready cfg = true ->
  config_login_ready cfg = true ->
  is_None (token (c_login_user (self s))) = true ->
  (forall j, j < 15 ->
     fails_with (fun _ => true) (requests_post env (n_requests_post s + j)) = true) ->
  exists e,
    requests_post env (n_requests_post s + 14) = Raise e
    /\ let outcome (run : result record * State) :=
         fst run = Raise (RetryError e)
         /\ n_requests_post (snd run) = n_requests_post s + 15
         /\ n_session_post (snd run) = n_session_post s
         /\ c_login_user (self (snd run)) = c_login_user (self s) in
       outcome (get_starBasicInfo json_dumps _id env s)
       /\ outcome (get_userInfo json_dumps _id env s)
       /\ outcome (get_roomInfo json_dumps _id env s).
Proof.
  intros Hl Hcr Hlr Htok Hf.
  assert (H : exists e,
             requests_post env (n_requests_post s + 14) = Raise e
             /\ forall url params (ctor : pyobj -> record),
                  let run := (res_json <- __apost json_dumps url params PyNone ;;
                              content <- lift (getitem res_json "content") ;;
                              ret (ctor content)) env s in
                  fst run = Raise (RetryError e)
                  /\ n_requests_post (snd run) = n_requests_post s + 15
                  /\ n_session_post (snd run) = n_session_post s
                  /\ c_login_user (self (snd run)) = c_login_user (self s)).
  { destruct (tenacity_login_failures json_dumps env
                (URL_build EmptyString EmptyString EmptyString) PyNone cfg 4 s Hl Hcr Hlr Htok Hf)
      as (e & _ & He & _).
    replace (n_requests_post s + 3 * 4 + 2) with (n_requests_post s + 14) in He by lia.
    exists e. split; [exact He|]. intros url params ctor.
    destruct (tenacity_login_failures json_dumps env url params cfg 4 s Hl Hcr Hlr Htok Hf)
      as (e' & s1 & He' & Hrun & Hlu & Hn & Hs & _).
    replace (n_requests_post s + 3 * 4 + 2) with (n_requests_post s + 14) in He' by lia.
    assert (e' = e) as -> by congruence.
    cbv zeta. rewrite (projection_run json_dumps env url params ctor s _ s1 Hrun).
    simpl. repeat split; assumption. }
  destruct H as (e & He & H). exists e. split; [exact He|].
  cbv zeta. split; [|split]; apply H.
Qed.

Lemma failing_login_is_retried_by_dispatch_witness :
  let run := get_userInfo Sample.dumps 5 (Sample.env Scenario.logins_timeout Sample.posts_ok)
                          (start Sample.client) in
  fst run = Raise (RetryError TimeoutError)
  /\ n_requests_post (snd run) = 15
  /\ n_session_post (snd run) = 0.
Proof.
  destruct (failing_login_is_retried_by_dispatch Sample.dumps
              (Sample.env Scenario.logins_timeout Sample.posts_ok) 5
              (start Sample.client) Sample.cfg)
    as (e & He & _ & (H1 & H2 & H3 & _) & _);
    try (vm_compute; reflexivity).
  injection He as <-. cbv zeta. repeat split; assumption.
Defined.

(** X11. Whenever [headers] returns, the mapping has exactly eight
    entries: [User-Agent], [Content-Type] and [Host] as configured,
    [Connection: close], [Accept-Encoding] equal to the configured
    [content_type], the serialised [appInfo], [pa] and [token]. *)
Theorem headers_static_fields
  (json_dumps : pyobj -> string) (env : Env) (s : State) (hv : pyobj) (s1 : State) :
  headers json_dumps env s = (OK hv, s1) ->
  exists hm cfg ua ct ho ai,
    hv = PyDict hm
    /\ loaded_config env s = OK cfg
    /\ lookup2 cfg "Headers" "user_agent" = OK ua
    /\ lookup2 cfg "Headers" "content_type" = OK ct
    /\ lookup2 cfg "Headers" "host" = OK ho
    /\ lookup2 cfg "Headers" "appInfo" = OK ai
    /\ hm !! "User-Agent" = Some ua
    /\ hm !! "Content-Type" = Some ct
    /\ hm !! "Host" = Some ho
    /\ hm !! "Connection" = Some (PyStr "close")
    /\ hm !! "Accept-Encoding" = Some ct
    /\ hm !! "appInfo" = Some (PyStr (json_dumps ai))
    /\ dom hm = {[ "User-Agent"; "Content-Type"; "Host"; "Connection";
                   "Accept-Encoding"; "appInfo"; "pa"; "token" ]}.
Proof.
  intros H.
  destruct (headers_inv_static json_dumps env s hv s1 H)
    as (cfg & ua & ct & ho & ai & sig & tok & Hl & E1 & E2 & E3 & E4 & ->).
  eexists _, cfg, ua, ct, ho, ai. split; [reflexivity|].
  repeat (split; [assumption|]).
  repeat (split; [reflexivity|]).
  unfold update_pa_token. rewrite !dom_insert_L, dom_singleton_L. set_solver.
Qed.

Lemma headers_static_fields_witness :
  let run := headers Sample.dumps (Sample.env Sample.logins_ok Sample.posts_ok)
                     (start Sample.client) in
  exists hm, fst run = OK (PyDict hm)
             /\ hm !! "Accept-Encoding" = Some (PyStr "application/json;charset=utf-8")
             /\ hm !! "Connection" = Some (PyStr "close").
Proof.
  intros run.
  assert (Hrun : run = (OK match fst run with
                           | OK hv => hv
                           | Raise _ => PyNone
                           end, snd run)) by (vm_compute; reflexivity).
  destruct (headers_static_fields Sample.dumps
              (Sample.env Sample.logins_ok Sample.posts_ok) (start Sample.client) _ _ Hrun)
    as (hm & cfg & ua & ct & ho & ai & Hhv & Hl & _ & Ect & _ & _ & _ & _ & _ & Hc & Hae & _).
  exists hm. split; [|split; [|exact Hc]].
  - etransitivity; [exact (f_equal fst Hrun) | exact (f_equal OK Hhv)].
  - rewrite Hae. injection Hl as <-. vm_compute in Ect. injection Ect as <-. reflexivity.
Defined.

(** X12. [headers] is all or nothing for the login state: whenever it
    raises, the stored login state is the one it started with. *)
Theorem headers_all_or_nothing
  (json_dumps : pyobj -> string) (env : Env) (s : State) (e : exn) (s1 : State) :
  headers json_dumps env s = (Raise e, s1) ->
  c_login_user (self s1) = c_login_user (self s).
Proof. apply headers_failure_keeps_login_user. Qed.

Lemma headers_all_or_nothing_witness :
  token (c_login_user (self (snd (headers Sample.dumps
                                    (Sample.env Scenario.logins_timeout Sample.posts_ok)
                                    (start Sample.client))))) = PyNone.
Proof.
  rewrite (headers_all_or_nothing Sample.dumps
             (Sample.env Scenario.logins_timeout Sample.posts_ok)
             (start Sample.client) TimeoutError _).
  - reflexivity.
  - vm_compute. reflexivity.
Defined.

(** X13. Over any sequence of calls, everything the client puts on the
    wire has one of four shapes: a [requests] POST goes to the login
    address with a 3 second timeout, a body of exactly [mobile] and [pwd]
    and headers of exactly [pa], [appInfo] and [Connection: close] (no
    token); a session POST goes to one of the three endpoint paths with
    that endpoint's parameters and headers carrying [pa] and [token]; and
    every pause lasts 3 (seconds for the dispatcher, milliseconds for the
    login). *)
Theorem client_sends_only_known_requests
  (json_dumps : pyobj -> string) (env : Env) (calls : list call) (s : State) :
  emits endpoint_request s (perform_all json_dumps calls env s).
Proof.
  destruct (emits_holds endpoint_request json_dumps env) as (H & _).
  apply H. auto.
Qed.

(** X14. Each endpoint method posts only to its own path, with its own
    parameters built from the given id, and with signed headers. *)
Theorem endpoint_posts_own_request
  (json_dumps : pyobj -> string) (env : Env) (_id : Z) (s : State) :
  emits (fun u p h => star_request _id u p /\ is_signed h = true)
        s (snd (get_starBasicInfo json_dumps _id env s))
  /\ emits (fun u p h => user_request _id u p /\ is_signed h = true)
           s (snd (get_userInfo json_dumps _id env s))
  /\ emits (fun u p h => room_request _id u p /\ is_signed h = true)
           s (snd (get_roomInfo json_dumps _id env s)).
Proof.
  split; [|split].
  - destruct (emits_holds (fun u p h => star_request _id u p /\ is_signed h = true)
                json_dumps env) as (_ & H & _).
    destruct (get_starBasicInfo json_dumps _id env s) as [r s1] eqn:E.
    exact (H _id (fun u p h Hr Hh => conj Hr Hh) _ _ _ E).
  - destruct (emits_holds (fun u p h => user_request _id u p /\ is_signed h = true)
                json_dumps env) as (_ & _ & H & _).
    destruct (get_userInfo json_dumps _id env s) as [r s1] eqn:E.
    exact (H _id (fun u p h Hr Hh => conj Hr Hh) _ _ _ E).
  - destruct (emits_holds (fun u p h => room_request _id u p /\ is_signed h = true)
                json_dumps env) as (_ & _ & _ & H & _).
    destruct (get_roomInfo json_dumps _id env s) as [r s1] eqn:E.
    exact (H _id (fun u p h Hr Hh => conj Hr Hh) _ _ _ E).
Qed.

(** X15. On a client that holds a token and a usable configuration: if
    the first [k <= 4] attempts fail (a transport or decoding error, or a
    reply that is no mapping) and the next reply is a mapping with
    [content] whose [message] is no invalidation, each endpoint method
    returns its record built from that [content], after [k + 1] POSTs and
    without any login. *)
Theorem endpoints_return_content_after_retries
  (json_dumps : pyobj -> string) (env : Env) (_id : Z) (s : State) (k : nat)
  (d : gmap string pyobj) (c : pyobj) :
  ready env s = true ->
  k <= 4 ->
  (forall i, i < k -> attempt_fails (session_post env (n_session_post s + i)) = true) ->
  session_post env (n_session_post s + k) = OK (PyDict d) ->
  d !! "content" = Some c ->
  is_invalidation (default PyNone (d !! "message")) = false ->
  let outcome (ctor : pyobj -> record) (run : result record * State) :=
    fst run = OK (ctor c)
    /\ n_session_post (snd run) = n_session_post s + k + 1
    /\ n_requests_post (snd run) = n_requests_post s in
  outcome StarBasicInfo (get_starBasicInfo json_dumps _id env s)
  /\ outcome UserBasicInfo (get_userInfo json_dumps _id env s)
  /\ outcome BaseRoomInfo (get_roomInfo json_dumps _id env s).
Proof.
  intros Hr Hk Hf Hd Hc Hi.
  assert (H : forall url params (ctor : pyobj -> record),
             let run := (res_json <- __apost json_dumps url params PyNone ;;
                         content <- lift (getitem res_json "content") ;;
                         ret (ctor content)) env s in
             fst run = OK (ctor c)
             /\ n_session_post (snd run) = n_session_post s + k + 1
             /\ n_requests_post (snd run) = n_requests_post s).
  { intros url params ctor.
    destruct (apost_after_any_failures json_dumps env url params PyNone s k Hr Hk Hf)
      as (s1 & Hs & Hn & _ & Hgood & _).
    cbv zeta.
    rewrite (projection_run json_dumps env url params ctor s _ s1 (Hgood d Hd Hi)).
    simpl. rewrite Hc. repeat split; assumption. }
  cbv zeta. split; [|split]; apply H.
Qed.

Lemma endpoints_return_content_after_retries_witness :
  let run := get_userInfo Sample.dumps 5
               (Sample.env Sample.logins_ok Scenario.posts_array_timeout_payload)
               (start (Sample.logged_in "T0")) in
  fst run = OK (UserBasicInfo (PyDict {[ "userId" := PyInt 5 ]}))
  /\ n_session_post (snd run) = 3
  /\ n_requests_post (snd run) = 0.
Proof.
  refine (proj1 (proj2 (endpoints_return_content_after_retries Sample.dumps
                          (Sample.env Sample.logins_ok Scenario.posts_array_timeout_payload) 5
                          (start (Sample.logged_in "T0")) 2
                          {[ "content" := PyDict {[ "userId" := PyInt 5 ]};
                             "message" := PyStr "success" ]}
                          (PyDict {[ "userId" := PyInt 5 ]}) _ _ _ _ _ _))).
  - vm_compute. reflexivity.
  - lia.
  - intros [|[|i]] Hi; [reflexivity | reflexivity | lia].
  - reflexivity.
  - vm_compute. reflexivity.
  - vm_compute. reflexivity.
Defined.

(** X16. The session identifier a constructed client holds is the
    [uuid1] text with its hyphens removed and nothing else: it has no
    hyphen, it is as much shorter as there were hyphens, and removing
    hyphens again changes nothing. *)
Theorem session_identifier_has_no_hyphen (env : Env) (c : Client) :
  __init__ env = OK c ->
  count_hyphens (c_uuid c) = 0
  /\ String.length (c_uuid c) + count_hyphens (uuid1 env) = String.length (uuid1 env)
  /\ remove_hyphens (c_uuid c) = c_uuid c.
Proof.
  unfold __init__. destruct (get_running_loop env); [|discriminate].
  intros [= <-]. simpl.
  split; [apply remove_hyphens_none|].
  split; [apply remove_hyphens_length|].
  apply remove_hyphens_fixed, remove_hyphens_none.
Qed.

Lemma session_identifier_has_no_hyphen_witness :
  count_hyphens (c_uuid Sample.client) = 0
  /\ String.length (c_uuid Sample.client) + 4 = 36.
Proof.
  destruct (session_identifier_has_no_hyphen
              (Sample.env Sample.logins_ok Sample.posts_ok) Sample.client eq_refl)
    as (H1 & H2 & _).
  split; [exact H1 | exact H2].
Defined.

(** One attempt whose reply is a session invalidation: the login decides. *)
Lemma attempt_invalidated (json_dumps : pyobj -> string) (env : Env)
  url params hdrs (s : State) (d : gmap string pyobj) :
  headers_at_hand hdrs env s = true ->
  session_post env (n_session_post s) = OK (PyDict d) ->
  is_invalidation (default PyNone (d !! "message")) = true ->
  exists s1,
    attempt_frame env s s1
    /\ __apost_attempt json_dumps url params hdrs env s
       = match user_login json_dumps env s1 with
         | (OK _, s2) => (OK PyNone, s2)
         | (Raise e, s2) => (Raise e, s2)
         end.
Proof.
  intros Hh Hd Hi.
  destruct (headers_stage json_dumps env hdrs s Hh) as (h & s0 & E0 & Hl & Hu & Hr & Hs & Ha).
  destruct (gated_post_spec env url params h s0)
    as (s1 & E1 & (Hc & Hu1 & _ & _ & Hr1 & Ha1) & Hs1).
  exists s1. split.
  - unfold attempt_frame, loaded_config in *. rewrite Hc. repeat split; congruence.
  - unfold __apost_attempt. rewrite (bind_eq env _ _ _ _ _ E0).
    rewrite (bind_eq env _ _ _ _ _ E1). rewrite Hs, Hd.
    unfold bind at 1, lift, dict_get.
    assert (Hm : is_invalidation match d !! "message" with
                                 | Some v => v
                                 | None => PyNone
                                 end = true)
      by (destruct (d !! "message"); exact Hi).
    destruct (d !! "message"); rewrite Hm; unfold bind, ret;
      destruct (user_login json_dumps env s1) as [[[]|e] s2]; reflexivity.
Qed.

(** X17. On a client whose configuration has what a login reads and
    which has headers at hand (it holds a token and its configuration has
    what [headers] reads, or the caller passes the headers), when the first
    reply is a session invalidation and the login that follows is answered
    at once with a [userInfo], [__apost] returns [None]: it has made one
    POST through the session and one login POST, has stored the new login
    state and has not repeated the request. *)
Theorem invalidation_then_login_returns_None
  (json_dumps : pyobj -> string) (env : Env) url params hdrs (s : State)
  (cfg : pyobj) (d : gmap string pyobj) (r u : pyobj) :
  headers_at_hand hdrs env s = true ->
  loaded_config env s = OK cfg ->
  config_login_ready cfg = true ->
  session_post env (n_session_post s) = OK (PyDict d) ->
  is_invalidation (default PyNone (d !! "message")) = true ->
  requests_post env (n_requests_post s) = OK r ->
  lookup2 r "content" "userInfo" = OK u ->
  let run := __apost json_dumps url params hdrs env s in
  fst run = OK PyNone
  /\ n_session_post (snd run) = S (n_session_post s)
  /\ n_requests_post (snd run) = S (n_requests_post s)
  /\ c_login_user (self (snd run)) = mkLoginUserInfo u.
Proof.
  intros Hh Hl Hlr Hd Hi Hreply Hu run. subst run.
  destruct (attempt_invalidated json_dumps env url params hdrs s d Hh Hd Hi)
    as (s1 & (Hl1 & _ & Hn1 & _ & Hs1) & Hatt).
  rewrite Hl in Hl1. rewrite <- Hn1 in Hreply.
  pose proof (user_login_first_reply json_dumps env s1 cfg r Hl1 Hlr Hreply) as H.
  cbv zeta in H. rewrite Hu in H. destruct H as (Hf & Hlu & Hn & _).
  assert (Hpost : n_session_post (snd (user_login json_dumps env s1)) = n_session_post s1).
  { destruct (user_login json_dumps env s1) as [r0 s2] eqn:E.
    destruct (within_user_login json_dumps env _ _ _ E) as (Hw & _). simpl. lia. }
  unfold __apost, aretry. simpl. rewrite Hatt.
  destruct (user_login json_dumps env s1) as [[[]|e] s2]; simpl in *; [|discriminate].
  repeat split; congruence.
Qed.

Lemma invalidation_then_login_returns_None_witness :
  let run := __apost Sample.dumps Sample.url Sample.params PyNone
               (Sample.env Sample.logins_ok Sample.posts_invalidated_then_payload)
               (start (Sample.logged_in "T0")) in
  fst run = OK PyNone
  /\ n_session_post (snd run) = 1
  /\ n_requests_post (snd run) = 1
  /\ c_login_user (self (snd run)) = mkLoginUserInfo (PyDict {[ "token" := PyStr "T1" ]}).
Proof.
  apply (invalidation_then_login_returns_None Sample.dumps
           (Sample.env Sample.logins_ok Sample.posts_invalidated_then_payload)
           Sample.url Sample.params PyNone (start (Sample.logged_in "T0")) Sample.cfg
           {[ "message" := PyStr "非法授权" ]} (Sample.login_reply "T1"));
    vm_compute; reflexivity.
Defined.

(** X18. [pa] is computed anew at every access: two accesses in a row
    read the clock twice, and the second signature is the one of the
    second reading. *)
Theorem pa_is_recomputed_on_every_access
  (env : Env) (s : State) (cfg : pyobj) (k v : string) :
  loaded_config env s = OK cfg ->
  lookup2 cfg "paInfo" "PostKey" = OK (PyStr k) ->
  lookup2 cfg "paInfo" "PostKeyVersion" = OK (PyStr v) ->
  let first := pa env s in
  let second := pa env (snd first) in
  fst first
  = OK (computeSignature (str_of_int (time_ms env (n_time s))) (c_uuid (self s)) k v)
  /\ fst second
     = OK (computeSignature (str_of_int (time_ms env (S (n_time s)))) (c_uuid (self s)) k v)
  /\ n_time (snd second) = S (S (n_time s)).
Proof.
  intros Hl Hk Hv. cbv zeta.
  rewrite (pa_ok env cfg k v s Hl Hk Hv). simpl.
  pose proof (cache_config_core cfg s) as (_ & Hu & Ht & _).
  assert (Hl' : loaded_config env (tick (cache_config cfg s)) = OK cfg)
    by (unfold loaded_config; now rewrite (tick_cached env cfg s Hl)).
  rewrite (pa_ok env cfg k v _ Hl' Hk Hv). simpl.
  assert (Hid : cache_config cfg (tick (cache_config cfg s)) = tick (cache_config cfg s))
    by (unfold cache_config at 1; now rewrite (tick_cached env cfg s Hl)).
  rewrite Hid. simpl. rewrite Hu, Ht. repeat split.
Qed.

Lemma pa_is_recomputed_on_every_access_witness :
  let env := Sample.env Sample.logins_ok Sample.posts_ok in
  fst (pa env (snd (pa env (start Sample.client))))
  = OK (computeSignature "1700000000001" "123e4567e89b12d3a456426614174000"
                         "secret" "v0.0.1").
Proof.
  refine (proj1 (proj2 (pa_is_recomputed_on_every_access
                          (Sample.env Sample.logins_ok Sample.posts_ok)
                          (start Sample.client) Sample.cfg "secret" "v0.0.1" _ _ _)));
    vm_compute; reflexivity.
Defined.

Lemma fixed_policy_same_self (s s1 : State) :
  self s1 = self s -> fixed_policy s -> fixed_policy s1.
Proof. unfold fixed_policy. intros ->. auto. Qed.

Lemma fixed_policy_perform_all json_dumps env (calls : list call) (s : State) :
  fixed_policy s -> fixed_policy (perform_all json_dumps calls env s).
Proof.
  apply (holds_perform_all json_dumps env (fun s s1 => fixed_policy s -> fixed_policy s1)
           (fun _ _ _ => True)).
  - auto.
  - auto.
  - intros e s0 _ _. now apply fixed_policy_same_self.
  - intros s0. now apply fixed_policy_same_self.
  - intros s0. now apply fixed_policy_same_self.
  - intros s0 r s1. unfold connector, bind, gets, emit, modify. simpl.
    destruct (c_connector (self s0)) eqn:E; simpl; intros [= _ <-]; [auto|].
    unfold fixed_policy. simpl. intros (H1 & H2 & H3).
    split; [|split; assumption]. intros k [= <-]. auto.
  - intros s0 r s1. unfold session, connector, bind, gets, emit, modify. simpl.
    destruct (c_session (self s0)) eqn:Es; simpl; [intros [= _ <-]; auto|].
    destruct (c_connector (self s0)) eqn:Ec; simpl; intros [= _ <-];
      unfold fixed_policy; simpl; rewrite ?Ec; intros (H1 & H2 & H3);
      (split; [|split; [|assumption]]);
      try (intros x [= <-]; now rewrite H3);
      try (intros k [= <-]; auto); try exact H1.
  - intros s0 r s1. rewrite aexit_spec. intros [= _ <-].
    destruct (c_connector (self s0)) as [k|] eqn:Ec.
    + destruct (closed k); [auto|].
      unfold fixed_policy. simpl. rewrite Ec. intros (H1 & H2 & H3).
      split; [|split; assumption]. intros k' [= <-]. simpl. exact (H1 k eq_refl).
    + unfold fixed_policy. simpl. rewrite Ec. intros (H1 & H2 & H3).
      split; [|split; assumption]. intros k' [= <-]. auto.
  - intros s0 r s1. unfold config, bind, gets, emit, modify, ret. simpl.
    destruct (c_config (self s0)); simpl; [intros [= _ <-]; auto|].
    destruct (config_toml env); simpl; intros [= _ <-]; unfold fixed_policy; simpl; auto.
  - intros u p h t _ s0 r s1 [= _ <-]. now apply fixed_policy_same_self.
  - intros u p h _ s0 r s1 [= _ <-]. now apply fixed_policy_same_self.
  - intros u s0. unfold fixed_policy. simpl. auto.
  - trivial.
Qed.

(** X19. Whatever is called on a client built by [__init__], its pool, if
    built, has certificate checking off, a keep-alive of 60 seconds and no
    limit on connections, and its session, if built, has the base address
    [https://pocketapi.48.cn] and a total timeout of 3 seconds. *)
Theorem resources_keep_fixed_policy
  (json_dumps : pyobj -> string) (env : Env) (c : Client) (calls : list call) :
  __init__ env = OK c ->
  let s := perform_all json_dumps calls env (start c) in
  (forall k, c_connector (self s) = Some k ->
             ssl k = false /\ keepalive_timeout k = 60%Z /\ limit k = 0%Z)
  /\ (forall x, c_session (self s) = Some x ->
                str_of_URL (base_url x) = "https://pocketapi.48.cn"
                /\ timeout_total x = 3%Z).
Proof.
  intros Hinit s.
  assert (H0 : fixed_policy (start c)).
  { unfold __init__ in Hinit. destruct (get_running_loop env); [|discriminate].
    injection Hinit as <-. unfold fixed_policy. simpl. repeat split; discriminate. }
  destruct (fixed_policy_perform_all json_dumps env calls (start c) H0) as (H1 & H2 & _).
  split; [exact H1|]. intros x Hx. rewrite (H2 x Hx). split; reflexivity.
Qed.

Lemma resources_keep_fixed_policy_witness :
  let s := perform_all Sample.dumps Scenario.two_scopes
             (Sample.env Sample.logins_ok Sample.posts_ok) (start Sample.client) in
  (forall k, c_connector (self s) = Some k ->
             ssl k = false /\ keepalive_timeout k = 60%Z /\ limit k = 0%Z)
  /\ (forall x, c_session (self s) = Some x ->
                str_of_URL (base_url x) = "https://pocketapi.48.cn"
                /\ timeout_total x = 3%Z).
Proof.
  apply (resources_keep_fixed_policy Sample.dumps
           (Sample.env Sample.logins_ok Sample.posts_ok) Sample.client Scenario.two_scopes).
  reflexivity.
Defined.
